(** * DoIP / UDS protocol layer and CAFD decoder of the G01 ECU coding tool

    Shallow embedding of
      - backend/doip_protocol.py      (class DoIPConnection),
      - backend/server.py             (class ENETConnection),
      - backend/g01_x3_b48_module.py  (BMWSeedToKey, CAFDParser, G01ECUManager),
    followed by the properties of the specification that concern them.

    Python [int] is [Z]; Python [bytes] is [list byte]; a Python [str] is the
    list of its code points.  Code that can raise returns a [result]; code
    that talks to the socket or the logger runs in a state-and-exception
    monad over the object and the world it lives in. *)

From Stdlib Require Import ZArith List Bool Lia.
From Stdlib.Strings Require Import String Ascii Byte.
From Stdlib Require Import DecimalString.
Import ListNotations.
Open Scope Z_scope.

(* ------------------------------------------------------------------ *)
(** ** Python values *)

Definition bytes := list byte.

(** A [str] as its sequence of Unicode code points. *)
Definition pystr := list Z.

Definition Z_of_byte (b : byte) : Z := Z.of_N (Byte.to_N b).

Definition byte_of_Z (z : Z) : byte :=
  match Byte.of_N (Z.to_N z) with
  | Some b => b
  | None => x00
  end.

Definition str_of (s : string) : pystr :=
  map (fun a => Z.of_N (N_of_ascii a)) (list_ascii_of_string s).

(** The exceptions the modelled code can meet. *)
Inductive exn : Type :=
| StructError          (* struct.error *)
| ValueError
| TypeError
| IndexError
| AttributeError
| OSError              (* socket.timeout and other socket failures *)
| PlainException.      (* raise Exception("...") *)

Inductive result (A : Type) : Type :=
| Ok (a : A)
| Raise (e : exn).
Arguments Ok {A} a.
Arguments Raise {A} e.

Definition rbind {A B} (r : result A) (k : A -> result B) : result B :=
  match r with
  | Ok a => k a
  | Raise e => Raise e
  end.

(** [data[lo:hi]] for non-negative bounds. *)
Definition slice {A} (lo hi : nat) (l : list A) : list A :=
  firstn (hi - lo) (skipn lo l).

(** [data[i]] *)
Definition index (l : bytes) (i : nat) : result Z :=
  match nth_error l i with
  | Some b => Ok (Z_of_byte b)
  | None => Raise IndexError
  end.

(* ------------------------------------------------------------------ *)
(** ** The [struct] module, big-endian standard sizes *)

Module Struct.

Inductive fmt : Type := B | H | I.

Definition size (f : fmt) : nat :=
  match f with B => 1 | H => 2 | I => 4 end.

Definition in_range (f : fmt) (v : Z) : bool :=
  (0 <=? v) && (v <? 2 ^ (8 * Z.of_nat (size f))).

(** The [n] low bytes of [v], most significant first. *)
Fixpoint be_bytes (n : nat) (v : Z) : bytes :=
  match n with
  | O => []
  | S n' => be_bytes n' (v / 256) ++ [byte_of_Z (v mod 256)]
  end.

(** [struct.pack('>...', *vs)]: the number of values must be the number
    of format characters and each value must fit its field. *)
Fixpoint pack (fs : list fmt) (vs : list Z) : result bytes :=
  match fs, vs with
  | [], [] => Ok []
  | f :: fs', v :: vs' =>
      if in_range f v
      then rbind (pack fs' vs') (fun r => Ok (be_bytes (size f) v ++ r))
      else Raise StructError
  | _, _ => Raise StructError
  end.

Definition be_int (bs : bytes) : Z :=
  fold_left (fun acc b => acc * 256 + Z_of_byte b) bs 0.

(** [struct.unpack('>H', bs)[0]] and [struct.unpack('>I', bs)[0]]. *)
Definition unpack1 (f : fmt) (bs : bytes) : result Z :=
  if Nat.eqb (List.length bs) (size f) then Ok (be_int bs)
  else Raise StructError.

End Struct.

(* ------------------------------------------------------------------ *)
(** ** g01_x3_b48_module.py: class BMWSeedToKey *)

Module BMWSeedToKey.

Definition calculate_key_level3 (seed : bytes) : result bytes :=
  if negb (Nat.eqb (List.length seed) 4) then Raise ValueError
  else
    rbind (Struct.unpack1 Struct.I seed) (fun seed_int =>
    let key_int := Z.lxor seed_int 0x94C1 in
    let key_int := Z.land (key_int * 0x8765 + 0x4321) 0xFFFFFFFF in
    let key_int :=
      Z.land (Z.lor (Z.shiftl key_int 16) (Z.shiftr key_int 16)) 0xFFFFFFFF in
    Struct.pack [Struct.I] [key_int]).

Definition calculate_key_level4 (seed : bytes) : result bytes :=
  if negb (Nat.eqb (List.length seed) 4) then Raise ValueError
  else
    rbind (Struct.unpack1 Struct.I seed) (fun seed_int =>
    let key_int := Z.lxor seed_int 0x4F2A in
    let key_int := Z.land (key_int * 0xABCD + 0x5678) 0xFFFFFFFF in
    let key_int := Z.lxor key_int 0xFF00FF00 in
    Struct.pack [Struct.I] [key_int]).

End BMWSeedToKey.

(* ------------------------------------------------------------------ *)
(** ** The world outside the objects: socket peer, wire and logger *)

Inductive io_event : Type :=
| SockConnect
| SockSend (packet : bytes)
| SockRecv (bufsize : nat).

(** One constructor per logger call of the modelled methods, carrying the
    values the message is formatted from. *)
Inductive log_msg : Type :=
| LogSocketConnected
| LogConnectionFailed (e : exn)
| LogRoutingActivation (success : bool) (response_code : Z)
| LogRoutingFailed (e : exn)
| LogNotConnected
| LogResponseTooShort
| LogUnexpectedType (resp_type : Z)
| LogDiagnosticFailed (e : exn)
| LogSeedRequestFailed
| LogSeedReceived (seed : bytes)
| LogKeyRejected
| LogUnlocked
| LogUdsRequestFailed (e : exn)
| LogG01SeedFailed (seed_response : bytes)
| LogG01Seed (seed : bytes)
| LogG01Key (key : bytes)
| LogG01Unlocked
| LogG01KeyRejected (key_response : bytes)
| LogG01UnlockFailed (e : exn).

(** What the peer and the network will do is fixed in advance: whether
    [connect] raises, for each later [send] whether it raises, and for each
    later [recv] the bytes it yields ([None]: it raises, as on a timeout).
    [wire] records every socket call made, [log] every logger call, both
    oldest first. *)
Record world : Type := mkWorld {
  connect_raises : bool;
  send_raises : list bool;
  recv_yields : list (option bytes);
  wire : list io_event;
  log : list log_msg
}.

(** State and exception monad over an object [S] and the world. *)
Definition M (S A : Type) : Type := S * world -> result A * (S * world).

Definition ret {S A} (a : A) : M S A := fun st => (Ok a, st).

Definition raise {S A} (e : exn) : M S A := fun st => (Raise e, st).

Definition bind {S A B} (m : M S A) (k : A -> M S B) : M S B :=
  fun st =>
    match m st with
    | (Ok a, st') => k a st'
    | (Raise e, st') => (Raise e, st')
    end.

Notation "x <- m ;; k" := (bind m (fun x => k))
  (at level 61, m at next level, right associativity).
Notation "m ;;; k" := (bind m (fun _ => k))
  (at level 61, right associativity).

Definition lift {S A} (r : result A) : M S A := fun st => (r, st).

(** [try: body  except Exception as e: handler(e)]; the effects [body] had
    before raising stay. *)
Definition try_except {S A} (body : M S A) (handler : exn -> M S A) : M S A :=
  fun st =>
    match body st with
    | (Ok a, st') => (Ok a, st')
    | (Raise e, st') => handler e st'
    end.

Definition get {S} : M S S := fun st => (Ok (fst st), st).

Definition put {S} (s : S) : M S unit := fun st => (Ok tt, (s, snd st)).

Definition logger {S} (m : log_msg) : M S unit :=
  fun st =>
    let w := snd st in
    (Ok tt, (fst st,
             mkWorld (connect_raises w) (send_raises w) (recv_yields w)
                     (wire w) (log w ++ [m]))).

(** The three calls made on a socket object. *)
Module Socket.

Definition connect {S} : M S unit :=
  fun st =>
    let w := snd st in
    let w' := mkWorld (connect_raises w) (send_raises w) (recv_yields w)
                      (wire w ++ [SockConnect]) (log w) in
    (if connect_raises w then Raise OSError else Ok tt, (fst st, w')).

Definition send {S} (packet : bytes) : M S unit :=
  fun st =>
    let w := snd st in
    let w' := mkWorld (connect_raises w) (tl (send_raises w)) (recv_yields w)
                      (wire w ++ [SockSend packet]) (log w) in
    (match send_raises w with
     | true :: _ => Raise OSError
     | _ => Ok tt
     end, (fst st, w')).

Definition recv {S} (bufsize : nat) : M S bytes :=
  fun st =>
    let w := snd st in
    let w' := mkWorld (connect_raises w) (send_raises w) (tl (recv_yields w))
                      (wire w ++ [SockRecv bufsize]) (log w) in
    (match recv_yields w with
     | Some data :: _ => Ok (firstn bufsize data)
     | _ => Raise OSError
     end, (fst st, w')).

End Socket.

Inductive socket_handle : Type := TcpSocket.

(** [not response] for an [Optional[bytes]]. *)
Definition falsy (response : option bytes) : bool :=
  match response with
  | None => true
  | Some [] => true
  | Some (_ :: _) => false
  end.

(** [bytes([...])]: every element must be in [range(256)]. *)
Fixpoint bytes_of_ints (l : list Z) : result bytes :=
  match l with
  | [] => Ok []
  | v :: l' =>
      if (0 <=? v) && (v <? 256)
      then rbind (bytes_of_ints l') (fun r => Ok (byte_of_Z v :: r))
      else Raise ValueError
  end.

(* ------------------------------------------------------------------ *)
(** ** Further log lines, and [close()] *)

(** The logger calls of the methods that read the VIN, connect,
    disconnect and apply codings, again with the values they format. *)
Inductive log_line : Type :=
| LineInvalidVin
| LineVinRead (vin : pystr)
| LineVinNrc (nrc : Z)
| LineDoIPClosed
| LineENETConnected
| LineENETConnectionFailed (e : exn)
| LineENETClosed
| LineENETVinFailed (e : exn)
| LineECUWriteFailed (e : exn)
| LineReadParameterFailed (e : exn)
| LineWriteParameterFailed (e : exn)
| LineUnknownModification (modification : string)
| LineFailedToWrite (name : string).

(** These lines, oldest first, and the number of [close()] calls made on
    the socket are kept beside the object. *)
Record annex : Type := mkAnnex {
  lines : list log_line;
  closes : nat
}.

Definition get_self {S} : M (S * annex) S :=
  fun st => (Ok (fst (fst st)), st).

Definition put_self {S} (s : S) : M (S * annex) unit :=
  fun st => (Ok tt, ((s, snd (fst st)), snd st)).

Definition note {S} (l : log_line) : M (S * annex) unit :=
  fun st =>
    let a := snd (fst st) in
    (Ok tt, ((fst (fst st), mkAnnex (lines a ++ [l]) (closes a)), snd st)).

(** [self.socket.close()] *)
Definition socket_close {S} : M (S * annex) unit :=
  fun st =>
    let a := snd (fst st) in
    (Ok tt, ((fst (fst st), mkAnnex (lines a) (Datatypes.S (closes a))), snd st)).

(** A method of the object alone, run where the annex is kept. *)
Definition on_self {S A} (m : M S A) : M (S * annex) A :=
  fun st =>
    let out := m (fst (fst st), snd st) in
    (fst out, ((fst (snd out), snd (fst st)), snd (snd out))).

(* ------------------------------------------------------------------ *)
(** ** ASCII decoding and [str.strip()] *)

Module Text.

(** [b.decode('ascii', errors='ignore')]: bytes above 0x7F are dropped. *)
Fixpoint decode_ascii_ignore (b : bytes) : pystr :=
  match b with
  | [] => []
  | x :: b' =>
      if Z_of_byte x <? 0x80 then Z_of_byte x :: decode_ascii_ignore b'
      else decode_ascii_ignore b'
  end.

(** [b.decode('ascii')]: a byte above 0x7F raises UnicodeDecodeError (a
    ValueError). *)
Fixpoint decode_ascii (b : bytes) : result pystr :=
  match b with
  | [] => Ok []
  | x :: b' =>
      if Z_of_byte x <? 0x80
      then rbind (decode_ascii b') (fun s => Ok (Z_of_byte x :: s))
      else Raise ValueError
  end.

(** [c.isspace()] for one character. *)
Definition isspace (c : Z) : bool :=
  ((0x09 <=? c) && (c <=? 0x0D)) || ((0x1C <=? c) && (c <=? 0x20))
  || (c =? 0x85) || (c =? 0xA0) || (c =? 0x1680)
  || ((0x2000 <=? c) && (c <=? 0x200A))
  || (c =? 0x2028) || (c =? 0x2029) || (c =? 0x202F) || (c =? 0x205F)
  || (c =? 0x3000).

Fixpoint lstrip (s : pystr) : pystr :=
  match s with
  | [] => []
  | x :: s' => if isspace x then lstrip s' else s
  end.

Definition rstrip (s : pystr) : pystr := rev (lstrip (rev s)).

(** [s.strip()] *)
Definition strip (s : pystr) : pystr := rstrip (lstrip s).

(** [s.encode()] of a string of ASCII characters. *)
Definition encode (s : string) : bytes := list_byte_of_string s.

(** [str(n)] *)
Definition str (n : Z) : string := NilZero.string_of_int (Z.to_int n).

End Text.

(* ------------------------------------------------------------------ *)
(** ** doip_protocol.py: class DoIPConnection *)

Module DoIPConnection.

Import Struct.

Record t : Type := mk {
  socket : option socket_handle;
  connected : bool;
  source_address : Z
}.

(** [__init__] *)
Definition init : t := mk None false 0x0E00.

(** Evaluating [self.socket.<method>]: [None] has no such attribute. *)
Definition self_socket : M t unit :=
  self <- get ;;
  match socket self with
  | Some _ => ret tt
  | None => raise AttributeError
  end.

Definition send_routing_activation : M t bool :=
  header <- lift (pack [B; B; H; I; I] [0x02; 0xFD; 0x0005; 0x00000007]) ;;
  self <- get ;;
  payload <- lift (pack [H; B; I] [source_address self; 0x00; 0x00000000]) ;;
  let packet := header ++ payload in
  try_except
    (self_socket ;;;
     Socket.send packet ;;;
     self_socket ;;;
     response <- Socket.recv 4096 ;;
     if (List.length response <? 8)%nat then ret false
     else
       payload_type <- lift (unpack1 H (slice 2 4 response)) ;;
       if payload_type =? 0x0006 then
         response_code <-
           (if (13 <? List.length response)%nat
            then lift (index response 13) else ret 0) ;;
         let success := response_code =? 0x10 in
         logger (LogRoutingActivation success response_code) ;;;
         ret success
       else ret false)
    (fun e => logger (LogRoutingFailed e) ;;; ret false).

Definition connect : M t bool :=
  try_except
    (self <- get ;;
     put (mk (Some TcpSocket) (connected self) (source_address self)) ;;;
     Socket.connect ;;;
     logger LogSocketConnected ;;;
     success <- send_routing_activation ;;
     self <- get ;;
     put (mk (socket self) success (source_address self)) ;;;
     ret success)
    (fun e => logger (LogConnectionFailed e) ;;; ret false).

(** Lines 99-109: the DoIP diagnostic message (0x8001) around [uds_data]. *)
Definition diagnostic_packet (source_address target_ecu : Z)
    (uds_data : bytes) : result bytes :=
  let payload_length := 4 + Z.of_nat (List.length uds_data) in
  rbind (pack [B; B; H; I] [0x02; 0xFD; 0x8001; payload_length])
    (fun header =>
  rbind (pack [H; H] [source_address; target_ecu]) (fun addresses =>
  Ok (header ++ addresses ++ uds_data))).

(** Lines 122-135: what is made of the bytes received. *)
Definition parse_response (response : bytes) : M t (option bytes) :=
  if (List.length response <? 12)%nat then
    logger LogResponseTooShort ;;; ret None
  else
    resp_type <- lift (unpack1 H (slice 2 4 response)) ;;
    if negb (resp_type =? 0x8001) then
      logger (LogUnexpectedType resp_type) ;;; ret None
    else
      let uds_response := skipn 12 response in
      ret (Some uds_response).

Definition send_diagnostic_request (target_ecu : Z) (uds_data : bytes)
    : M t (option bytes) :=
  self <- get ;;
  if negb (connected self) then
    logger LogNotConnected ;;; ret None
  else
    packet <- lift (diagnostic_packet (source_address self) target_ecu
                                      uds_data) ;;
    try_except
      (self_socket ;;;
       Socket.send packet ;;;
       self_socket ;;;
       response <- Socket.recv 4096 ;;
       parse_response response)
      (fun e => logger (LogDiagnosticFailed e) ;;; ret None).

Definition request_seed (ecu_address security_level : Z)
    : M t (option bytes) :=
  uds_request <- lift (bytes_of_ints [0x27; security_level]) ;;
  response <- send_diagnostic_request ecu_address uds_request ;;
  match response with
  | Some ((b0 :: _) as resp) =>
      if negb (Z_of_byte b0 =? 0x67) then
        logger LogSeedRequestFailed ;;; ret None
      else
        let seed := slice 2 6 resp in
        logger (LogSeedReceived seed) ;;;
        ret (Some seed)
  | _ => logger LogSeedRequestFailed ;;; ret None
  end.

Definition send_key (ecu_address security_level : Z) (key : bytes)
    : M t bool :=
  head <- lift (bytes_of_ints [0x27; security_level + 1]) ;;
  let uds_request := head ++ key in
  response <- send_diagnostic_request ecu_address uds_request ;;
  match response with
  | Some (b0 :: _) =>
      if negb (Z_of_byte b0 =? 0x67) then
        logger LogKeyRejected ;;; ret false
      else
        logger LogUnlocked ;;; ret true
  | _ => logger LogKeyRejected ;;; ret false
  end.

Definition read_parameter (ecu_address did : Z) : M t (option bytes) :=
  uds_request <- lift (pack [B; H] [0x22; did]) ;;
  response <- send_diagnostic_request ecu_address uds_request ;;
  match response with
  | Some ((b0 :: _) as resp) =>
      if negb (Z_of_byte b0 =? 0x62) then ret None
      else ret (Some (skipn 3 resp))
  | _ => ret None
  end.

(** The value of [response and response[0] == 0x6E]: [response] itself
    when it is [None] or empty, else the comparison. *)
Inductive and_result : Type :=
| AndNone
| AndEmpty
| AndBool (b : bool).

Definition write_parameter (ecu_address did : Z) (data : bytes)
    : M t and_result :=
  head <- lift (pack [B; H] [0x2E; did]) ;;
  let uds_request := head ++ data in
  response <- send_diagnostic_request ecu_address uds_request ;;
  match response with
  | None => ret AndNone
  | Some [] => ret AndEmpty
  | Some (b0 :: _) => ret (AndBool (Z_of_byte b0 =? 0x6E))
  end.

Definition read_vin : M (t * annex) (option pystr) :=
  uds_request <- lift (bytes_of_ints [0x22; 0xF1; 0x90]) ;;
  response <- on_self (send_diagnostic_request 0x0012 uds_request) ;;
  match response with
  | Some ((b0 :: _) as resp) =>
      if (List.length resp <? 20)%nat then
        note LineInvalidVin ;;; ret None
      else if Z_of_byte b0 =? 0x62 then
        let vin_bytes := slice 3 20 resp in
        let vin := Text.strip (Text.decode_ascii_ignore vin_bytes) in
        note (LineVinRead vin) ;;;
        ret (Some vin)
      else
        (if Z_of_byte b0 =? 0x7F then
           nrc <- (if (2 <? List.length resp)%nat
                   then lift (index resp 2) else ret 0) ;;
           note (LineVinNrc nrc)
         else ret tt) ;;;
        ret None
  | _ => note LineInvalidVin ;;; ret None
  end.

Definition disconnect : M (t * annex) unit :=
  self <- get_self ;;
  match socket self with
  | Some _ =>
      socket_close ;;;
      put_self (mk (socket self) false (source_address self)) ;;;
      note LineDoIPClosed
  | None => ret tt
  end.

End DoIPConnection.

(* ------------------------------------------------------------------ *)
(** ** server.py: class ENETConnection *)

Module ENETConnection.

Record t : Type := mk {
  socket : option socket_handle;
  connected : bool
}.

Definition self_socket : M t unit :=
  self <- get ;;
  match socket self with
  | Some _ => ret tt
  | None => raise AttributeError
  end.

Definition send_uds_request (service_id : Z) (data : bytes) : M t bytes :=
  self <- get ;;
  if negb (connected self) then raise PlainException
  else
    head <- lift (Struct.pack [Struct.B] [service_id]) ;;
    let message := head ++ data in
    try_except
      (self_socket ;;;
       Socket.send message ;;;
       self_socket ;;;
       response <- Socket.recv 4096 ;;
       ret response)
      (fun e => logger (LogUdsRequestFailed e) ;;; raise e).

Definition connect : M (t * annex) bool :=
  try_except
    (self <- get_self ;;
     put_self (mk (Some TcpSocket) (connected self)) ;;;
     Socket.connect ;;;
     self <- get_self ;;
     put_self (mk (socket self) true) ;;;
     note LineENETConnected ;;;
     ret true)
    (fun e =>
       note (LineENETConnectionFailed e) ;;;
       self <- get_self ;;
       put_self (mk (socket self) false) ;;;
       ret false).

Definition disconnect : M (t * annex) unit :=
  self <- get_self ;;
  match socket self with
  | Some _ =>
      socket_close ;;;
      put_self (mk (socket self) false) ;;;
      note LineENETClosed
  | None => ret tt
  end.

(** The bytes literal of [read_vin] is written with doubled backslashes:
    it is the eight characters backslash, x, F, 1, backslash, x, 9, 0. *)
Definition read_vin : M (t * annex) pystr :=
  try_except
    (response <- on_self (send_uds_request 0x22
                            (list_byte_of_string "\xF1\x90")) ;;
     vin <- lift (Text.decode_ascii (slice 3 20 response)) ;;
     ret vin)
    (fun e =>
       note (LineENETVinFailed e) ;;;
       ret (str_of "DEMO_VIN_123456789")).

Definition read_ecu_data (did : Z) : M t bytes :=
  did_bytes <- lift (Struct.pack [Struct.H] [did]) ;;
  send_uds_request 0x22 did_bytes.

Definition write_ecu_data (did : Z) (data : bytes) : M (t * annex) bool :=
  try_except
    (did_bytes <- lift (Struct.pack [Struct.H] [did]) ;;
     response <- on_self (send_uds_request 0x2E (did_bytes ++ data)) ;;
     r0 <- lift (index response 0) ;;
     ret (r0 =? 0x6E))
    (fun e => note (LineECUWriteFailed e) ;;; ret false).

Definition start_diagnostic_session (session_type : Z) : M t bytes :=
  session <- lift (Struct.pack [Struct.B] [session_type]) ;;
  send_uds_request 0x10 session.

(** Here too the literals are the four characters backslash, x, 0, 1 and
    backslash, x, 0, 2. *)
Definition security_access_seed : M t bytes :=
  send_uds_request 0x27 (list_byte_of_string "\x01").

Definition security_access_key (key : bytes) : M t bytes :=
  send_uds_request 0x27 (list_byte_of_string "\x02" ++ key).

End ENETConnection.

(* ------------------------------------------------------------------ *)
(** ** g01_x3_b48_module.py: the configuration tables *)

(** The keys of [G01_X3_B48_CONFIG["ecu_addresses"]]. *)
Inductive ecu_name : Type :=
| DME | KOMBI | FEM | REM | BDC | HU | ZGM | IHKA | PDC | TCU.

Definition ecu_addresses (e : ecu_name) : Z :=
  match e with
  | DME => 0x12 | KOMBI => 0x61 | FEM => 0xB0 | REM => 0xB1 | BDC => 0xF1
  | HU => 0x63 | ZGM => 0xA4 | IHKA => 0x9B | PDC => 0x60 | TCU => 0x18
  end.

(** A parameter either lists its ["options"] or gives ["min"] and
    ["max"]. *)
Inductive param_choice : Type :=
| Options (options : list string)
| Range (min max : Z).

Record coding_param : Type := mkCodingParam {
  name : string;
  address : Z;
  default : string;
  choice : param_choice
}.

Record modification : Type := mkModification {
  ecu : ecu_name;
  cafd : string;
  parameters : list coding_param
}.

Definition G01_CODING_PARAMS : list (string * modification) :=
  [ ("SCR1_REMOTE_START"%string,
     mkModification BDC "000000b5"
       [ mkCodingParam "SCR_VERBAU" 0x3000 "not_active"
           (Options ["not_active"%string; "aktiv"%string]);
         mkCodingParam "SCR_ANZEIGE" 0x3001 "not_active"
           (Options ["not_active"%string; "aktiv"%string]) ]);
    ("ANGEL_EYES_BRIGHTNESS"%string,
     mkModification FEM "000000b5"
       [ mkCodingParam "LICHT_HELLIGKEIT" 0x4000 "50" (Range 0 100) ]);
    ("EXHAUST_FLAPS"%string,
     mkModification DME "0000000f"
       [ mkCodingParam "KLAPPE_OFFEN" 0x5000 "normal"
           (Options ["normal"%string; "dauerhaft"%string]) ]);
    ("VIDEO_IN_MOTION"%string,
     mkModification HU "00000a07"
       [ mkCodingParam "VIDEO_FREIGABE" 0x6000 "not_active"
           (Options ["not_active"%string; "aktiv"%string]) ]) ].

(** [d.get(k)] on a table with [str] keys. *)
Fixpoint table_get {V} (k : string) (d : list (string * V)) : option V :=
  match d with
  | [] => None
  | (k', v) :: d' => if String.eqb k' k then Some v else table_get k d'
  end.

(* ------------------------------------------------------------------ *)
(** ** g01_x3_b48_module.py: class G01ECUManager *)

Module G01ECUManager.

(** The manager holds a reference [self.enet] to the connection object;
    its methods run on that object's state. *)
Definition unlock_ecu (ecu_address security_level : Z)
    : M ENETConnection.t bool :=
  try_except
    (session <- lift (Struct.pack [Struct.B] [0x03]) ;;
     ENETConnection.send_uds_request 0x10 session ;;;
     sub <- lift (Struct.pack [Struct.B] [security_level * 2 - 1]) ;;
     seed_response <- ENETConnection.send_uds_request 0x27 sub ;;
     r0 <- lift (index seed_response 0) ;;
     if negb (r0 =? 0x67) then
       logger (LogG01SeedFailed seed_response) ;;; ret false
     else
       let seed := slice 2 6 seed_response in
       logger (LogG01Seed seed) ;;;
       key <-
         (if security_level =? 3 then
            lift (BMWSeedToKey.calculate_key_level3 seed)
          else if security_level =? 4 then
            lift (BMWSeedToKey.calculate_key_level4 seed)
          else raise ValueError) ;;
       logger (LogG01Key key) ;;;
       sub2 <- lift (Struct.pack [Struct.B] [security_level * 2]) ;;
       key_response <- ENETConnection.send_uds_request 0x27 (sub2 ++ key) ;;
       k0 <- lift (index key_response 0) ;;
       if k0 =? 0x67 then
         logger LogG01Unlocked ;;; ret true
       else
         logger (LogG01KeyRejected key_response) ;;; ret false)
    (fun e => logger (LogG01UnlockFailed e) ;;; ret false).

Definition read_parameter (ecu_address did : Z)
    : M (ENETConnection.t * annex) (option bytes) :=
  try_except
    (did_bytes <- lift (Struct.pack [Struct.H] [did]) ;;
     response <- on_self (ENETConnection.send_uds_request 0x22 did_bytes) ;;
     r0 <- lift (index response 0) ;;
     if r0 =? 0x62 then ret (Some (skipn 3 response))
     else ret None)
    (fun e => note (LineReadParameterFailed e) ;;; ret None).

Definition write_parameter (ecu_address did : Z) (value : bytes)
    : M (ENETConnection.t * annex) bool :=
  try_except
    (did_bytes <- lift (Struct.pack [Struct.H] [did]) ;;
     response <- on_self (ENETConnection.send_uds_request 0x2E
                            (did_bytes ++ value)) ;;
     r0 <- lift (index response 0) ;;
     ret (r0 =? 0x6E))
    (fun e => note (LineWriteParameterFailed e) ;;; ret false).

(** The value written for a parameter: the second of its options, or its
    maximum in decimal. *)
Definition coded_value (param : coding_param) : result bytes :=
  match choice param with
  | Options options =>
      match nth_error options 1 with
      | Some o => Ok (Text.encode o)
      | None => Raise IndexError
      end
  | Range _ max => Ok (Text.encode (Text.str max))
  end.

(** The [for] loop of [apply_coding]. *)
Fixpoint write_each (ecu_addr : Z) (params : list coding_param)
    : M (ENETConnection.t * annex) bool :=
  match params with
  | [] => ret true
  | param :: params' =>
      value <- lift (coded_value param) ;;
      success <- write_parameter ecu_addr (address param) value ;;
      if negb success then
        note (LineFailedToWrite (name param)) ;;; ret false
      else write_each ecu_addr params'
  end.

Definition apply_coding (modification : string)
    : M (ENETConnection.t * annex) bool :=
  match table_get modification G01_CODING_PARAMS with
  | None =>
      note (LineUnknownModification modification) ;;; ret false
  | Some mod_ =>
      let ecu_addr := ecu_addresses (ecu mod_) in
      unlocked <- on_self (unlock_ecu ecu_addr 3) ;;
      if negb unlocked then ret false
      else write_each ecu_addr (parameters mod_)
  end.

End G01ECUManager.

(* ------------------------------------------------------------------ *)
(** ** [bytes] and [str] methods used by the CAFD parser *)

Module Py.

(** One hexadecimal digit [0 <= d < 16] as a code point. *)
Definition hex_digit (upper : bool) (d : Z) : Z :=
  if d <? 10 then 48 + d
  else if upper then 65 + (d - 10) else 97 + (d - 10).

(** [b.hex()] *)
Fixpoint hex (b : bytes) : pystr :=
  match b with
  | [] => []
  | x :: b' =>
      hex_digit false (Z_of_byte x / 16)
        :: hex_digit false (Z_of_byte x mod 16) :: hex b'
  end.

(** [f"{v:04X}"] for [0 <= v < 65536], the values [struct.unpack('>H')]
    yields. *)
Definition format_04X (v : Z) : pystr :=
  map (hex_digit true) [v / 4096 mod 16; v / 256 mod 16; v / 16 mod 16;
                        v mod 16].

Fixpoint lstrip (c : Z) (s : pystr) : pystr :=
  match s with
  | [] => []
  | x :: s' => if x =? c then lstrip c s' else s
  end.

Definition rstrip (c : Z) (s : pystr) : pystr := rev (lstrip c (rev s)).

(** [s.strip(c)] for a one-character [c]: both ends. *)
Definition strip (c : Z) (s : pystr) : pystr := rstrip c (lstrip c s).

Inductive errors : Type := Strict | Ignore.

Definition is_continuation (c : Z) : bool := (0x80 <=? c) && (c <=? 0xBF).

(** At a decoding error: ['strict'] raises UnicodeDecodeError (a
    ValueError); ['ignore'] drops the offending bytes and goes on with
    [resume]. *)
Definition on_error (mode : errors) (resume : result pystr) : result pystr :=
  match mode with
  | Strict => Raise ValueError
  | Ignore => resume
  end.

Definition emit (cp : Z) (rest : result pystr) : result pystr :=
  rbind rest (fun s => Ok (cp :: s)).

(** [b.decode('utf-8', errors=mode)].  An invalid start byte costs one
    byte, an invalid continuation byte costs the bytes before it, a
    sequence cut by the end of the data costs the rest of the data;
    over-long forms, surrogates and code points above 0x10FFFF are
    rejected at their second byte. *)
Fixpoint decode_utf8 (mode : errors) (b : bytes) : result pystr :=
  match b with
  | [] => Ok []
  | b0 :: r0 =>
    let c0 := Z_of_byte b0 in
    if c0 <? 0x80 then emit c0 (decode_utf8 mode r0)
    else if c0 <? 0xC2 then on_error mode (decode_utf8 mode r0)
    else if c0 <? 0xE0 then
      match r0 with
      | [] => on_error mode (Ok [])
      | b1 :: r1 =>
        let c1 := Z_of_byte b1 in
        if negb (is_continuation c1) then on_error mode (decode_utf8 mode r0)
        else emit (Z.lor (Z.shiftl (Z.land c0 0x1F) 6) (Z.land c1 0x3F))
                  (decode_utf8 mode r1)
      end
    else if c0 <? 0xF0 then
      match r0 with
      | [] => on_error mode (Ok [])
      | b1 :: r1 =>
        let c1 := Z_of_byte b1 in
        if negb (is_continuation c1)
           || ((c0 =? 0xE0) && (c1 <? 0xA0))
           || ((c0 =? 0xED) && (0xA0 <=? c1))
        then on_error mode (decode_utf8 mode r0)
        else
          match r1 with
          | [] => on_error mode (Ok [])
          | b2 :: r2 =>
            let c2 := Z_of_byte b2 in
            if negb (is_continuation c2)
            then on_error mode (decode_utf8 mode r1)
            else emit (Z.lor (Z.shiftl (Z.land c0 0x0F) 12)
                        (Z.lor (Z.shiftl (Z.land c1 0x3F) 6)
                               (Z.land c2 0x3F)))
                      (decode_utf8 mode r2)
          end
      end
    else if c0 <? 0xF5 then
      match r0 with
      | [] => on_error mode (Ok [])
      | b1 :: r1 =>
        let c1 := Z_of_byte b1 in
        if negb (is_continuation c1)
           || ((c0 =? 0xF0) && (c1 <? 0x90))
           || ((c0 =? 0xF4) && (0x90 <=? c1))
        then on_error mode (decode_utf8 mode r0)
        else
          match r1 with
          | [] => on_error mode (Ok [])
          | b2 :: r2 =>
            let c2 := Z_of_byte b2 in
            if negb (is_continuation c2)
            then on_error mode (decode_utf8 mode r1)
            else
              match r2 with
              | [] => on_error mode (Ok [])
              | b3 :: r3 =>
                let c3 := Z_of_byte b3 in
                if negb (is_continuation c3)
                then on_error mode (decode_utf8 mode r2)
                else emit (Z.lor (Z.shiftl (Z.land c0 0x07) 18)
                            (Z.lor (Z.shiftl (Z.land c1 0x3F) 12)
                              (Z.lor (Z.shiftl (Z.land c2 0x3F) 6)
                                     (Z.land c3 0x3F))))
                          (decode_utf8 mode r3)
              end
          end
      end
    else on_error mode (decode_utf8 mode r0)
  end.

End Py.

(* ------------------------------------------------------------------ *)
(** ** g01_x3_b48_module.py: class CAFDParser *)

Module CAFDParser.

(** The value stored per parameter:
    [{"id": ..., "value": ..., "raw": ..., "length": ...}]. *)
Record param : Type := mkParam {
  id : Z;
  value : pystr;
  raw : pystr;
  length : Z
}.

(** A [dict] with [str] keys, in insertion order. *)
Definition dict := list (pystr * param).

Definition pystr_eqb (a b : pystr) : bool :=
  if list_eq_dec Z.eq_dec a b then true else false.

(** [d[k] = v]: replaces the value of an existing key in place, else
    appends. *)
Fixpoint dict_set (k : pystr) (v : param) (d : dict) : dict :=
  match d with
  | [] => [(k, v)]
  | (k', v') :: d' =>
      if pystr_eqb k' k then (k', v) :: d' else (k', v') :: dict_set k v d'
  end.

(** Lines 153-156: the inner [try] around the decoding. *)
Definition param_value (param_data : bytes) : pystr :=
  match Py.decode_utf8 Py.Ignore param_data with
  | Ok s => Py.strip 0 s
  | Raise _ => Py.hex param_data
  end.

(** The body of the [while] loop, lines 140-163: [Ok None] is [break],
    [Ok (Some (offset, params))] goes round again. *)
Definition body (data : bytes) (offset : nat) (params : dict)
    : result (option (nat * dict)) :=
  rbind (Struct.unpack1 Struct.H (slice offset (offset + 2) data))
    (fun param_id =>
  rbind (Struct.unpack1 Struct.H (slice (offset + 2) (offset + 4) data))
    (fun param_len =>
  let offset := (offset + 4)%nat in
  if Z.of_nat offset + param_len >? Z.of_nat (List.length data) then Ok None
  else
    let param_data := slice offset (offset + Z.to_nat param_len) data in
    let offset := (offset + Z.to_nat param_len)%nat in
    let param_value := param_value param_data in
    Ok (Some (offset,
              dict_set (str_of "param_" ++ Py.format_04X param_id)
                       (mkParam param_id param_value (Py.hex param_data)
                                param_len)
                       params)))).

(** The [while] loop; an exception in the body is caught by the bare
    [except] and breaks.  Each round moves [offset] forward by at least
    4, so [fuel] rounds are never needed beyond the length of the data. *)
Fixpoint loop (fuel : nat) (data : bytes) (offset : nat) (params : dict)
    : dict :=
  match fuel with
  | O => params
  | S fuel' =>
      if Z.of_nat offset <? Z.of_nat (List.length data) - 4 then
        match body data offset params with
        | Ok (Some (offset', params')) => loop fuel' data offset' params'
        | Ok None => params
        | Raise _ => params
        end
      else params
  end.

Definition _parse_cafd_binary (data : bytes) : dict :=
  loop (List.length data) data 32 [].

End CAFDParser.

(* ================================================================== *)
(** * Vocabulary of the statements *)

(** The request the header comment of [send_routing_activation] describes:
    version, inverse version, payload type 0x0005, length 7, then source
    address, activation type and reserved word. *)
Definition routing_activation_request (source_address : Z) : bytes :=
  [x02; xfd; x00; x05; x00; x00; x00; x07]
    ++ Struct.be_bytes 2 source_address ++ [x00; x00; x00; x00; x00].

Definition add_log (w : world) (m : log_msg) : world :=
  mkWorld (connect_raises w) (send_raises w) (recv_yields w) (wire w)
          (log w ++ [m]).

(** The world after one request/response exchange on the socket. *)
Definition exchanged (w : world) (packet : bytes) (bufsize : nat) : world :=
  mkWorld (connect_raises w) (tl (send_raises w)) (tl (recv_yields w))
          (wire w ++ [SockSend packet; SockRecv bufsize]) (log w).

(** The payload type of a frame and its declared payload length, read as
    the code reads header fields. *)
Definition payload_type (frame : bytes) : Z := Struct.be_int (slice 2 4 frame).
Definition declared_length (frame : bytes) : Z :=
  Struct.be_int (slice 4 8 frame).

Definition sent (w : world) (packet : bytes) : world :=
  mkWorld (connect_raises w) (tl (send_raises w)) (recv_yields w)
          (wire w ++ [SockSend packet]) (log w).

Definition received (w : world) (bufsize : nat) : world :=
  mkWorld (connect_raises w) (send_raises w) (tl (recv_yields w))
          (wire w ++ [SockRecv bufsize]) (log w).

(** A session on which routing has been activated and whose socket is
    open. *)
Definition active_session : DoIPConnection.t :=
  DoIPConnection.mk (Some TcpSocket) true 0x0E00.

(** A peer that answers the next [recv] with [response] and nothing
    after. *)
Definition peer_answering (response : bytes) : world :=
  mkWorld false [] [Some response] [] [].

(** A type-0x8001 response whose length field declares 0 payload bytes
    while 7 are present. *)
Definition frame_declaring_zero : bytes :=
  [x02; xfd; x80; x01; x00; x00; x00; x00; x00; x12; x0e; x00;
   x62; xf1; x90].

(** The DoIP frame carrying the negative response [0x7F, 0x22, nrc]. *)
Definition negative_reply (nrc : byte) : bytes :=
  [x02; xfd; x80; x01; x00; x00; x00; x07; x00; x12; x0e; x00;
   x7f; x22; nrc].

(** Everything [read_parameter] leaves behind when the ECU answers DID
    0xF190 with that negative response: return value, object, log, wire. *)
Definition read_outcome (nrc : byte)
    : result (option bytes) * (DoIPConnection.t * world) :=
  DoIPConnection.read_parameter 0x12 0xF190
    (active_session, peer_answering (negative_reply nrc)).

(** A failure that surfaces the NRC: the NRC can be got back from what
    the call leaves to its caller. *)
Definition surfaces_nrc : Prop :=
  exists extract : result (option bytes) * (DoIPConnection.t * world) -> Z,
    forall nrc, extract (read_outcome nrc) = Z_of_byte nrc.

(** The first two steps of [unlock_ecu], as the method performs them. *)
Definition session_step : M ENETConnection.t bytes :=
  session <- lift (Struct.pack [Struct.B] [0x03]) ;;
  ENETConnection.send_uds_request 0x10 session.

Definition seed_step (security_level : Z) : M ENETConnection.t bytes :=
  sub <- lift (Struct.pack [Struct.B] [security_level * 2 - 1]) ;;
  ENETConnection.send_uds_request 0x27 sub.

(** The seed-request step fails: it raised (no response, a socket error,
    a sub-function that does not fit a byte), or the response is empty,
    or its first byte is not 0x67. *)
Definition seed_step_failed (r : result bytes) : Prop :=
  match r with
  | Raise _ => True
  | Ok [] => True
  | Ok (b :: _) => Z_of_byte b <> 0x67
  end.

Definition enet_session : ENETConnection.t :=
  ENETConnection.mk (Some TcpSocket) true.

(** A peer that answers successive [recv] calls with the given
    responses. *)
Definition peer_answering_all (responses : list bytes) : world :=
  mkWorld false [] (map Some responses) [] [].

Definition key_for (security_level : Z) (seed : bytes) : result bytes :=
  if security_level =? 3 then BMWSeedToKey.calculate_key_level3 seed
  else BMWSeedToKey.calculate_key_level4 seed.

(** The DoIP frame that answers a diagnostic request with [uds]. *)
Definition reply_frame (uds : bytes) : bytes :=
  [x02; xfd; x80; x01; x00; x00; x00; x0a; x00; x12; x0e; x00] ++ uds.

(** The record loop with the bound the specification words:
    [while offset + 4 <= len(data)]; the body is the method's. *)
Fixpoint loop_as_specified (fuel : nat) (data : bytes) (offset : nat)
    (params : CAFDParser.dict) : CAFDParser.dict :=
  match fuel with
  | O => params
  | S fuel' =>
      if Z.of_nat offset + 4 <=? Z.of_nat (List.length data) then
        match CAFDParser.body data offset params with
        | Ok (Some (offset', params')) =>
            loop_as_specified fuel' data offset' params'
        | Ok None => params
        | Raise _ => params
        end
      else params
  end.

Definition parse_as_specified (data : bytes) : CAFDParser.dict :=
  loop_as_specified (List.length data) data 32 [].

(** A blob of 36 bytes: the 32-byte header, then one record with
    paramId 0x3000 and paramLen 0 that ends exactly at the end. *)
Definition blob_ending_in_empty_record : bytes :=
  repeat x00 32 ++ [x30; x00; x00; x00].

(** The decoded value as the specification words it: the strict UTF-8
    decoding with the
    trailing NULs stripped, and the lowercase hexadecimal string of the
    raw bytes when that decoding fails. *)
Definition value_as_specified (param_data : bytes) : pystr :=
  match Py.decode_utf8 Py.Strict param_data with
  | Ok s => Py.rstrip 0 s
  | Raise _ => Py.hex param_data
  end.

(** A parameter block as the CAFD format lays it out: identifier (2
    bytes), length (2 bytes), data. *)
Definition record_bytes (r : Z * bytes) : bytes :=
  Struct.be_bytes 2 (fst r)
    ++ Struct.be_bytes 2 (Z.of_nat (List.length (snd r))) ++ snd r.

Definition blocks (rs : list (Z * bytes)) : bytes :=
  List.concat (map record_bytes rs).

(** A block whose identifier and length fit their 16-bit fields. *)
Definition fits_block (r : Z * bytes) : Prop :=
  0 <= fst r < 65536 /\ Z.of_nat (List.length (snd r)) < 65536.

(** The dictionary entry the parser makes of a block. *)
Definition entry_of (r : Z * bytes) : pystr * CAFDParser.param :=
  (str_of "param_" ++ Py.format_04X (fst r),
   CAFDParser.mkParam (fst r) (CAFDParser.param_value (snd r))
     (Py.hex (snd r)) (Z.of_nat (List.length (snd r)))).

Definition store (params : CAFDParser.dict) (r : Z * bytes)
    : CAFDParser.dict :=
  CAFDParser.dict_set (fst (entry_of r)) (snd (entry_of r)) params.

(** The last block carries data, or there is no block. *)
Definition last_block_not_empty (rs : list (Z * bytes)) : Prop :=
  rs = [] \/ snd (last rs (0, [])) <> [].

(** Bytes at which the record loop stops: too few for a block with
    data, or a block that declares more data than is left. *)
Definition halts_at (tail : bytes) : Prop :=
  (List.length tail <= 4)%nat \/
  exists i l rest,
    tail = i ++ l ++ rest /\ List.length i = 2%nat /\ List.length l = 2%nat /\
    Struct.be_int l > Z.of_nat (List.length rest).

(** The world after the three exchanges of a complete unlock: session
    start, seed request, key message; the seed and the key are logged
    between the last two. *)
Definition after_unlock (w : world) (security_level : Z) (seed key : bytes)
    : world :=
  exchanged
    (add_log
       (add_log
          (exchanged (exchanged w [x10; x03] 4096)
                     [x27; byte_of_Z (2 * security_level - 1)] 4096)
          (LogG01Seed seed))
       (LogG01Key key))
    (x27 :: byte_of_Z (2 * security_level) :: key) 4096.

(** Successive request/response exchanges. *)
Definition exchanges (w : world) (packets : list bytes) : world :=
  fold_left (fun w' packet => exchanged w' packet 4096) packets w.

(** The UDS bytes [G01ECUManager.write_parameter] sends for a coding
    parameter. *)
Definition write_message (param : coding_param) : bytes :=
  (x2e :: Struct.be_bytes 2 (address param))
    ++ match G01ECUManager.coded_value param with
       | Ok value => value
       | Raise _ => []
       end.

(** A coding parameter that can be written: its identifier fits 16 bits
    and it has a value to write. *)
Definition writable (param : coding_param) : Prop :=
  0 <= address param < 65536 /\
  exists value, G01ECUManager.coded_value param = Ok value.

(** The entry "SCR1_REMOTE_START" of the table, and a peer that grants
    the unlock at level 3 and then answers the given responses. *)
Definition scr1_remote_start : modification :=
  mkModification BDC "000000b5"
    [mkCodingParam "SCR_VERBAU" 0x3000 "not_active"
       (Options ["not_active"%string; "aktiv"%string]);
     mkCodingParam "SCR_ANZEIGE" 0x3001 "not_active"
       (Options ["not_active"%string; "aktiv"%string])].

Definition peer_granting_unlock (responses : list bytes) : world :=
  mkWorld false []
    (Some [x50; x03] :: Some [x67; x05; x01; x02; x03; x04]
       :: Some [x67; x06] :: map Some responses ++ [])
    [] [].

(** [d.get(k)] on the parser's dictionary. *)
Fixpoint dict_get (k : pystr) (d : CAFDParser.dict)
    : option CAFDParser.param :=
  match d with
  | [] => None
  | (k', v) :: d' => if CAFDParser.pystr_eqb k' k then Some v else dict_get k d'
  end.

(* ================================================================== *)
(** * Properties *)

(* ------------------------------------------------------------------ *)
(** ** Bytes and [struct] *)

Lemma Z_of_byte_range (b : byte) : 0 <= Z_of_byte b < 256.
Proof.
  unfold Z_of_byte. pose proof (Byte.to_N_bounded b). lia.
Qed.

Lemma Z_of_byte_of_Z (z : Z) : 0 <= z < 256 -> Z_of_byte (byte_of_Z z) = z.
Proof.
  intros Hz. unfold Z_of_byte, byte_of_Z.
  destruct (Byte.of_N (Z.to_N z)) as [b|] eqn:E.
  - apply Byte.to_of_N in E. rewrite E. lia.
  - apply Byte.of_N_None_iff in E. lia.
Qed.

Lemma byte_of_Z_of_byte (b : byte) : byte_of_Z (Z_of_byte b) = b.
Proof.
  unfold Z_of_byte, byte_of_Z. rewrite N2Z.id, Byte.of_to_N. reflexivity.
Qed.

Lemma be_bytes_length (n : nat) (v : Z) :
  List.length (Struct.be_bytes n v) = n.
Proof.
  revert v. induction n as [|n IH]; intros v; simpl.
  - reflexivity.
  - rewrite length_app, IH. simpl. lia.
Qed.

Lemma be_int_snoc (l : bytes) (b : byte) :
  Struct.be_int (l ++ [b]) = Struct.be_int l * 256 + Z_of_byte b.
Proof.
  unfold Struct.be_int. rewrite fold_left_app. reflexivity.
Qed.

Lemma be_int_be_bytes (n : nat) (v : Z) :
  0 <= v -> Struct.be_int (Struct.be_bytes n v) = v mod 256 ^ Z.of_nat n.
Proof.
  revert v. induction n as [|n IH]; intros v Hv.
  - simpl. rewrite Z.mod_1_r. reflexivity.
  - cbn [Struct.be_bytes]. rewrite be_int_snoc, IH
      by (apply Z.div_pos; lia).
    rewrite Z_of_byte_of_Z by (apply Z.mod_pos_bound; lia).
    rewrite Nat2Z.inj_succ, Z.pow_succ_r by lia.
    rewrite Z.rem_mul_r by lia.
    lia.
Qed.

Lemma in_range_spec (f : Struct.fmt) (v : Z) :
  Struct.in_range f v = true <-> 0 <= v < 2 ^ (8 * Z.of_nat (Struct.size f)).
Proof.
  unfold Struct.in_range. rewrite andb_true_iff, Z.leb_le, Z.ltb_lt.
  reflexivity.
Qed.

Lemma be_int_range (bs : bytes) :
  0 <= Struct.be_int bs < 256 ^ Z.of_nat (List.length bs).
Proof.
  induction bs as [|b bs IH] using rev_ind.
  - simpl. unfold Struct.be_int. simpl. lia.
  - rewrite be_int_snoc, length_app. simpl List.length.
    replace (Z.of_nat (List.length bs + 1)) with (Z.succ (Z.of_nat (List.length bs)))
      by lia.
    rewrite Z.pow_succ_r by lia.
    pose proof (Z_of_byte_range b). lia.
Qed.

Lemma pack1_ok (f : Struct.fmt) (v : Z) :
  0 <= v < 2 ^ (8 * Z.of_nat (Struct.size f)) ->
  Struct.pack [f] [v] = Ok (Struct.be_bytes (Struct.size f) v).
Proof.
  intros Hv. simpl. apply in_range_spec in Hv. rewrite Hv. simpl.
  rewrite app_nil_r. reflexivity.
Qed.

Lemma lxor_lt_pow2 (a b n : Z) :
  0 <= a < 2 ^ n -> 0 <= b < 2 ^ n -> 0 <= Z.lxor a b < 2 ^ n.
Proof.
  intros Ha Hb.
  assert (Hnn : 0 <= Z.lxor a b) by (apply Z.lxor_nonneg; lia).
  split; [exact Hnn|].
  destruct (Z.eq_dec (Z.lxor a b) 0) as [E|E]; [lia|].
  assert (Hn : 0 < n).
  { destruct (Z_lt_le_dec 0 n) as [H|H]; [exact H|].
    exfalso. apply E.
    assert (2 ^ n <= 1).
    { destruct (Z.eq_dec n 0) as [->|]; [simpl; lia|].
      rewrite Z.pow_neg_r by lia. lia. }
    replace a with 0 by lia. replace b with 0 by lia. reflexivity. }
  apply Z.log2_lt_pow2; [lia|].
  eapply Z.le_lt_trans; [apply Z.log2_lxor; lia|].
  apply Z.max_lub_lt.
  - destruct (Z.eq_dec a 0) as [->|]; [simpl; lia|].
    apply Z.log2_lt_pow2; lia.
  - destruct (Z.eq_dec b 0) as [->|]; [simpl; lia|].
    apply Z.log2_lt_pow2; lia.
Qed.

Lemma land_mask32_range (x : Z) : 0 <= Z.land x 0xFFFFFFFF < 2 ^ 32.
Proof.
  change 0xFFFFFFFF with (Z.ones 32). rewrite Z.land_ones by lia.
  apply Z.mod_pos_bound. lia.
Qed.

(* ------------------------------------------------------------------ *)
(** ** BMWSeedToKey *)

Section SeedToKey.

Import BMWSeedToKey.

Lemma unpack_seed (seed : bytes) :
  List.length seed = 4%nat ->
  Struct.unpack1 Struct.I seed = Ok (Struct.be_int seed).
Proof.
  intros H. unfold Struct.unpack1. rewrite H. reflexivity.
Qed.

Lemma level3_on_4_bytes (seed : bytes) :
  List.length seed = 4%nat ->
  exists key, calculate_key_level3 seed = Ok key /\ List.length key = 4%nat.
Proof.
  intros H. unfold calculate_key_level3.
  rewrite H, (unpack_seed _ H). cbn [negb Nat.eqb rbind].
  rewrite pack1_ok by apply land_mask32_range.
  eexists. split; [reflexivity|]. apply be_bytes_length.
Qed.

Lemma level4_on_4_bytes (seed : bytes) :
  List.length seed = 4%nat ->
  exists key, calculate_key_level4 seed = Ok key /\ List.length key = 4%nat.
Proof.
  intros H. unfold calculate_key_level4.
  rewrite H, (unpack_seed _ H). cbn [negb Nat.eqb rbind].
  rewrite pack1_ok.
  - eexists. split; [reflexivity|]. apply be_bytes_length.
  - apply lxor_lt_pow2; [apply land_mask32_range|].
    cbn. lia.
Qed.

Lemma wrong_length_raises (seed : bytes) :
  List.length seed <> 4%nat ->
  calculate_key_level3 seed = Raise ValueError /\
  calculate_key_level4 seed = Raise ValueError.
Proof.
  intros H. unfold calculate_key_level3, calculate_key_level4.
  apply Nat.eqb_neq in H. rewrite H. split; reflexivity.
Qed.

End SeedToKey.

(** C10: the seed-to-key transforms are functions of the seed alone: on a
    seed of exactly 4 bytes both return a key of exactly 4 bytes (the
    packing as an unsigned 32-bit integer succeeds, so every intermediate
    value is within 32 bits); on a seed of any other length both raise
    ValueError; equal seeds give equal keys. *)
Theorem seed_to_key_total (seed : bytes) :
  (List.length seed = 4%nat ->
   exists k3 k4,
     BMWSeedToKey.calculate_key_level3 seed = Ok k3 /\
     List.length k3 = 4%nat /\
     BMWSeedToKey.calculate_key_level4 seed = Ok k4 /\
     List.length k4 = 4%nat) /\
  (List.length seed <> 4%nat ->
   BMWSeedToKey.calculate_key_level3 seed = Raise ValueError /\
   BMWSeedToKey.calculate_key_level4 seed = Raise ValueError) /\
  (forall seed', seed' = seed ->
   BMWSeedToKey.calculate_key_level3 seed' =
     BMWSeedToKey.calculate_key_level3 seed /\
   BMWSeedToKey.calculate_key_level4 seed' =
     BMWSeedToKey.calculate_key_level4 seed).
Proof.
  split; [|split].
  - intros H.
    destruct (level3_on_4_bytes seed H) as (k3 & E3 & L3).
    destruct (level4_on_4_bytes seed H) as (k4 & E4 & L4).
    exists k3, k4. auto.
  - apply wrong_length_raises.
  - intros seed' ->. split; reflexivity.
Qed.

Lemma seed_to_key_total_witness :
  (exists k3 k4,
     BMWSeedToKey.calculate_key_level3 [x12; x34; x56; x78] = Ok k3 /\
     List.length k3 = 4%nat /\
     BMWSeedToKey.calculate_key_level4 [x12; x34; x56; x78] = Ok k4 /\
     List.length k4 = 4%nat) /\
  BMWSeedToKey.calculate_key_level3 [x12; x34; x56] = Raise ValueError.
Proof.
  split.
  - apply (proj1 (seed_to_key_total [x12; x34; x56; x78])). reflexivity.
  - apply (proj1 (proj2 (seed_to_key_total [x12; x34; x56]))).
    simpl. lia.
Defined.

(* ------------------------------------------------------------------ *)
(** ** DoIPConnection: routing activation *)

(** C1 (the code departs from it): the format ['>BBHII'] names five fields
    and is given four values, so [struct.pack] raises before the [try] is
    entered: whatever the state, [send_routing_activation] raises
    struct.error and leaves the object, the wire and the log as they were.
    No request is sent, in particular not the 15-byte request. *)
Theorem send_routing_activation_raises (st : DoIPConnection.t * world) :
  DoIPConnection.send_routing_activation st = (Raise StructError, st) /\
  ~ In (SockSend (routing_activation_request
                    (DoIPConnection.source_address (fst st))))
       (skipn (List.length (wire (snd st)))
              (wire (snd (snd (DoIPConnection.send_routing_activation st))))).
Proof.
  assert (E : DoIPConnection.send_routing_activation st = (Raise StructError, st))
    by reflexivity.
  split; [exact E|].
  rewrite E. cbn [snd]. rewrite skipn_all. intros [].
Qed.

(** With the four-field format the comment describes, the header is the
    eight bytes of the specification. *)
Lemma routing_activation_header_as_documented :
  Struct.pack [Struct.B; Struct.B; Struct.H; Struct.I]
              [0x02; 0xFD; 0x0005; 0x00000007]
  = Ok [x02; xfd; x00; x05; x00; x00; x00; x07].
Proof. reflexivity. Qed.

(** Hence [connect] never succeeds: it answers [False] and leaves
    [connected] as it was, and no [send] reaches the socket. *)
Lemma connect_never_succeeds (self : DoIPConnection.t) (w : world) :
  fst (DoIPConnection.connect (self, w)) = Ok false /\
  DoIPConnection.connected (fst (snd (DoIPConnection.connect (self, w))))
    = DoIPConnection.connected self /\
  wire (snd (snd (DoIPConnection.connect (self, w)))) = wire w ++ [SockConnect].
Proof.
  unfold DoIPConnection.connect, try_except, bind, get, put, logger,
    Socket.connect, ret.
  cbn [fst snd].
  destruct (connect_raises w); cbn; auto.
Qed.

(* ------------------------------------------------------------------ *)
(** ** DoIPConnection: diagnostic messages *)

(** C6: while the [connected] flag is false, [send_diagnostic_request]
    answers [None]; the object is unchanged, no socket call is made (the
    wire is as before) and nothing the peer holds ready is consumed; only
    the error is logged. *)
Theorem diagnostic_rejected_before_activation
    (self : DoIPConnection.t) (w : world) (target_ecu : Z) (uds_data : bytes) :
  DoIPConnection.connected self = false ->
  DoIPConnection.send_diagnostic_request target_ecu uds_data (self, w) =
    (Ok None,
     (self, mkWorld (connect_raises w) (send_raises w) (recv_yields w)
                    (wire w) (log w ++ [LogNotConnected]))).
Proof.
  intros H.
  unfold DoIPConnection.send_diagnostic_request, bind, get.
  cbn [fst snd]. rewrite H. reflexivity.
Qed.

Lemma diagnostic_rejected_before_activation_witness :
  DoIPConnection.send_diagnostic_request 0x12 [x22; xf1; x90]
    (DoIPConnection.init,
     mkWorld false [] [Some [x02; xfd; x80; x01]] [] []) =
    (Ok None,
     (DoIPConnection.init,
      mkWorld false [] [Some [x02; xfd; x80; x01]] [] [LogNotConnected])).
Proof.
  apply (diagnostic_rejected_before_activation DoIPConnection.init
           (mkWorld false [] [Some [x02; xfd; x80; x01]] [] [])).
  reflexivity.
Defined.

Lemma slice_length {A} (lo hi : nat) (l : list A) :
  (hi <= List.length l)%nat -> List.length (slice lo hi l) = (hi - lo)%nat.
Proof.
  intros H. unfold slice. rewrite length_firstn, length_skipn. lia.
Qed.

Lemma unpack_H_slice (lo : nat) (l : bytes) :
  (lo + 2 <= List.length l)%nat ->
  Struct.unpack1 Struct.H (slice lo (lo + 2) l)
    = Ok (Struct.be_int (slice lo (lo + 2) l)).
Proof.
  intros H. unfold Struct.unpack1. rewrite slice_length by lia.
  replace (lo + 2 - lo)%nat with 2%nat by lia. reflexivity.
Qed.

Lemma parse_response_eq (response : bytes) (st : DoIPConnection.t * world) :
  DoIPConnection.parse_response response st =
    if (List.length response <? 12)%nat then
      (Ok None, (fst st, add_log (snd st) LogResponseTooShort))
    else if payload_type response =? 0x8001 then
      (Ok (Some (skipn 12 response)), st)
    else
      (Ok None,
       (fst st, add_log (snd st) (LogUnexpectedType (payload_type response)))).
Proof.
  unfold DoIPConnection.parse_response.
  destruct (List.length response <? 12)%nat eqn:E; [reflexivity|].
  apply Nat.ltb_ge in E.
  unfold bind, lift. rewrite (unpack_H_slice 2) by lia.
  change (2 + 2)%nat with 4%nat. fold (payload_type response).
  destruct (payload_type response =? 0x8001); reflexivity.
Qed.

Lemma send_ok {S} (s : S) (w : world) (packet : bytes) :
  hd false (send_raises w) = false ->
  Socket.send packet (s, w) = (Ok tt, (s, sent w packet)).
Proof.
  intros H. unfold Socket.send, sent. cbn [fst snd].
  destruct (send_raises w) as [|[] ?]; simpl in *; congruence.
Qed.

Lemma send_fails {S} (s : S) (w : world) (packet : bytes) :
  hd false (send_raises w) = true ->
  Socket.send packet (s, w) = (Raise OSError, (s, sent w packet)).
Proof.
  intros H. unfold Socket.send, sent. cbn [fst snd].
  destruct (send_raises w) as [|[] ?]; simpl in *; congruence.
Qed.

Lemma recv_ok {S} (s : S) (w : world) (bufsize : nat) (data : bytes)
    (rest : list (option bytes)) :
  recv_yields w = Some data :: rest ->
  Socket.recv bufsize (s, w) = (Ok (firstn bufsize data), (s, received w bufsize)).
Proof.
  intros H. unfold Socket.recv, received. cbn [fst snd]. rewrite H.
  reflexivity.
Qed.

Lemma recv_fails {S} (s : S) (w : world) (bufsize : nat) :
  hd None (recv_yields w) = None ->
  Socket.recv bufsize (s, w) = (Raise OSError, (s, received w bufsize)).
Proof.
  intros H. unfold Socket.recv, received. cbn [fst snd].
  destruct (recv_yields w) as [|[d|] ?]; cbn [hd] in H;
    [reflexivity | discriminate H | reflexivity].
Qed.

Lemma DoIP_self_socket_ok (self : DoIPConnection.t) (w : world) :
  DoIPConnection.socket self = Some TcpSocket ->
  DoIPConnection.self_socket (self, w) = (Ok tt, (self, w)).
Proof.
  intros H. unfold DoIPConnection.self_socket, bind, get. cbn [fst snd].
  rewrite H. reflexivity.
Qed.

(** One round trip of a connected session whose socket calls do not
    raise: the packet goes out, [recv] yields at most 4096 bytes, and the
    outcome is what [parse_response] makes of them. *)
Lemma send_diagnostic_request_exchange
    (self : DoIPConnection.t) (w : world) (target_ecu : Z)
    (uds_data packet response : bytes) (rest : list (option bytes)) :
  DoIPConnection.connected self = true ->
  DoIPConnection.socket self = Some TcpSocket ->
  DoIPConnection.diagnostic_packet (DoIPConnection.source_address self)
                                   target_ecu uds_data = Ok packet ->
  hd false (send_raises w) = false ->
  recv_yields w = Some response :: rest ->
  DoIPConnection.send_diagnostic_request target_ecu uds_data (self, w) =
    DoIPConnection.parse_response (firstn 4096 response)
                                  (self, exchanged w packet 4096).
Proof.
  intros Hc Hs Hp Hsend Hrecv.
  unfold DoIPConnection.send_diagnostic_request, try_except, bind, get, lift.
  cbv beta. cbn [fst snd]. rewrite Hc, Hp. cbn [negb].
  rewrite (DoIP_self_socket_ok _ _ Hs). cbv beta iota.
  rewrite (send_ok _ _ _ Hsend). cbv beta iota.
  rewrite (DoIP_self_socket_ok _ _ Hs). cbv beta iota.
  rewrite (recv_ok _ _ _ response rest) by exact Hrecv. cbv beta iota.
  unfold sent, received, exchanged.
  cbn [connect_raises send_raises recv_yields wire log].
  rewrite <- app_assoc. cbn [app].
  rewrite parse_response_eq. cbn [fst snd].
  destruct (List.length (firstn 4096 response) <? 12)%nat; [reflexivity|].
  destruct (payload_type (firstn 4096 response) =? 0x8001); reflexivity.
Qed.

Lemma pack_cons (f : Struct.fmt) (fs : list Struct.fmt) (v : Z) (vs : list Z) :
  Struct.in_range f v = true ->
  Struct.pack (f :: fs) (v :: vs) =
    rbind (Struct.pack fs vs)
          (fun r => Ok (Struct.be_bytes (Struct.size f) v ++ r)).
Proof.
  intros H. cbn [Struct.pack]. rewrite H. reflexivity.
Qed.

Lemma diagnostic_packet_ok (source_address target_ecu : Z) (uds_data : bytes) :
  0 <= source_address < 65536 ->
  0 <= target_ecu < 65536 ->
  4 + Z.of_nat (List.length uds_data) < 2 ^ 32 ->
  DoIPConnection.diagnostic_packet source_address target_ecu uds_data =
    Ok ([x02; xfd; x80; x01]
          ++ Struct.be_bytes 4 (4 + Z.of_nat (List.length uds_data))
          ++ Struct.be_bytes 2 source_address
          ++ Struct.be_bytes 2 target_ecu
          ++ uds_data).
Proof.
  intros Hs Ht Hl. unfold DoIPConnection.diagnostic_packet.
  change (2 ^ 32) with 4294967296 in Hl.
  rewrite !pack_cons by reflexivity.
  rewrite pack1_ok
    by (change (2 ^ (8 * Z.of_nat (Struct.size Struct.I))) with 4294967296; lia).
  rewrite (pack_cons Struct.H)
    by (apply in_range_spec;
        change (2 ^ (8 * Z.of_nat (Struct.size Struct.H))) with 65536; lia).
  rewrite pack1_ok
    by (change (2 ^ (8 * Z.of_nat (Struct.size Struct.H))) with 65536; lia).
  cbn [rbind Struct.size]. cbn [Struct.be_bytes app].
  reflexivity.
Qed.

(** C9: for every UDS byte string (and addresses that fit their 16-bit
    fields), the type-0x8001 frame built by [send_diagnostic_request]
    starts with version 0x02 and inverse 0xFD, declares payload type 0x8001
    and a payload length of 4 + len(uds), which is the number of bytes that
    follow the 8-byte header (source address, target address, UDS bytes);
    parsing that frame as a response (length check, payload-type check,
    12 bytes stripped) gives back exactly the UDS bytes, with nothing
    logged. *)
Theorem diagnostic_frame_roundtrip
    (source_address target_ecu : Z) (uds_data : bytes) :
  0 <= source_address < 65536 ->
  0 <= target_ecu < 65536 ->
  4 + Z.of_nat (List.length uds_data) < 2 ^ 32 ->
  exists packet,
    DoIPConnection.diagnostic_packet source_address target_ecu uds_data
      = Ok packet /\
    firstn 2 packet = [x02; xfd] /\
    payload_type packet = 0x8001 /\
    declared_length packet = 4 + Z.of_nat (List.length uds_data) /\
    declared_length packet = Z.of_nat (List.length packet) - 8 /\
    skipn 8 packet =
      Struct.be_bytes 2 source_address ++ Struct.be_bytes 2 target_ecu
        ++ uds_data /\
    forall st, DoIPConnection.parse_response packet st = (Ok (Some uds_data), st).
Proof.
  intros Hs Ht Hl.
  rewrite (diagnostic_packet_ok _ _ _ Hs Ht Hl).
  eexists. split; [reflexivity|].
  set (plen := 4 + Z.of_nat (List.length uds_data)) in *.
  pose proof (be_int_be_bytes 4 plen ltac:(subst plen; lia)) as Hlen.
  pose proof (be_bytes_length 4 plen) as L4.
  pose proof (be_bytes_length 2 source_address) as Ls.
  pose proof (be_bytes_length 2 target_ecu) as Lt.
  destruct (Struct.be_bytes 4 plen) as [|l0 [|l1 [|l2 [|l3 [|]]]]];
    try discriminate L4.
  destruct (Struct.be_bytes 2 source_address) as [|s0 [|s1 [|]]];
    try discriminate Ls.
  destruct (Struct.be_bytes 2 target_ecu) as [|t0 [|t1 [|]]];
    try discriminate Lt.
  assert (Hdecl : declared_length
            ([x02; xfd; x80; x01] ++ [l0; l1; l2; l3] ++ [s0; s1]
               ++ [t0; t1] ++ uds_data) = plen).
  { unfold declared_length, slice. cbn [app skipn firstn Nat.sub].
    rewrite Hlen. apply Z.mod_small.
    change (256 ^ Z.of_nat 4) with (2 ^ 32). subst plen. lia. }
  split; [reflexivity|]. split; [reflexivity|].
  split; [exact Hdecl|]. split; [|split].
  - rewrite Hdecl. cbn [app List.length]. subst plen. lia.
  - reflexivity.
  - intros st. rewrite parse_response_eq.
    cbn [app List.length]. reflexivity.
Qed.

Lemma diagnostic_frame_roundtrip_witness :
  exists packet,
    DoIPConnection.diagnostic_packet 0x0E00 0x0012 [x22; xf1; x90]
      = Ok packet /\
    firstn 2 packet = [x02; xfd] /\
    payload_type packet = 0x8001 /\
    declared_length packet = 4 + Z.of_nat (List.length [x22; xf1; x90]) /\
    declared_length packet = Z.of_nat (List.length packet) - 8 /\
    skipn 8 packet =
      Struct.be_bytes 2 0x0E00 ++ Struct.be_bytes 2 0x0012
        ++ [x22; xf1; x90] /\
    forall st,
      DoIPConnection.parse_response packet st = (Ok (Some [x22; xf1; x90]), st).
Proof.
  apply (diagnostic_frame_roundtrip 0x0E00 0x0012 [x22; xf1; x90]);
    simpl; lia.
Defined.

(** C2 fails on the code: a response whose declared payload length (0)
    is not the number of payload bytes present (7) is accepted, and its
    UDS bytes are returned as the successful result. *)
Lemma length_mismatch_accepted :
  declared_length frame_declaring_zero
    <> Z.of_nat (List.length frame_declaring_zero) - 8 /\
  fst (DoIPConnection.send_diagnostic_request 0x12 [x22; xf1; x90]
         (active_session, peer_answering frame_declaring_zero))
    = Ok (Some [x62; xf1; x90]).
Proof.
  split.
  - vm_compute. discriminate.
  - vm_compute. reflexivity.
Qed.

(** C2 as amended: [send_diagnostic_request] never looks at the declared
    payload length.  On a connected session whose exchange goes through, a
    received response is refused exactly when it is shorter than 12 bytes
    or its payload type (bytes 2-3) is not 0x8001; otherwise the bytes from
    offset 12 on are the result, whatever bytes 4-7 declare. *)
Theorem response_accepted_on_size_and_type
    (self : DoIPConnection.t) (w : world) (target_ecu : Z)
    (uds_data packet response : bytes) (rest : list (option bytes)) :
  DoIPConnection.connected self = true ->
  DoIPConnection.socket self = Some TcpSocket ->
  DoIPConnection.diagnostic_packet (DoIPConnection.source_address self)
                                   target_ecu uds_data = Ok packet ->
  hd false (send_raises w) = false ->
  recv_yields w = Some response :: rest ->
  (List.length response <= 4096)%nat ->
  fst (DoIPConnection.send_diagnostic_request target_ecu uds_data (self, w)) =
    Ok (if (List.length response <? 12)%nat
           || negb (payload_type response =? 0x8001)
        then None
        else Some (skipn 12 response)).
Proof.
  intros Hc Hs Hp Hsend Hrecv Hlen.
  rewrite (send_diagnostic_request_exchange _ _ _ _ _ _ _ Hc Hs Hp Hsend Hrecv).
  rewrite firstn_all2 by exact Hlen.
  rewrite parse_response_eq.
  destruct (List.length response <? 12)%nat; [reflexivity|].
  destruct (payload_type response =? 0x8001); reflexivity.
Qed.

Lemma response_accepted_on_size_and_type_witness :
  fst (DoIPConnection.send_diagnostic_request 0x12 [x22; xf1; x90]
         (active_session, peer_answering frame_declaring_zero)) =
    Ok (if (List.length frame_declaring_zero <? 12)%nat
           || negb (payload_type frame_declaring_zero =? 0x8001)
        then None
        else Some (skipn 12 frame_declaring_zero)).
Proof.
  apply (response_accepted_on_size_and_type active_session
           (peer_answering frame_declaring_zero) 0x12 [x22; xf1; x90]
           [x02; xfd; x80; x01; x00; x00; x00; x07; x0e; x00; x00; x12;
            x22; xf1; x90]
           frame_declaring_zero []);
    try reflexivity.
  simpl. lia.
Defined.

(* ------------------------------------------------------------------ *)
(** ** DoIPConnection: read_parameter and negative responses *)

(** C3 fails on the code: NRC 0x31 and NRC 0x10 leave exactly the same
    outcome, so no caller can tell which one the ECU sent. *)
Lemma nrc_not_surfaced :
  read_outcome x31 = read_outcome x10 /\ ~ surfaces_nrc.
Proof.
  assert (E : read_outcome x31 = read_outcome x10) by (vm_compute; reflexivity).
  split; [exact E|].
  intros [extract H].
  pose proof (H x31) as H1. pose proof (H x10) as H2.
  rewrite E, H2 in H1. vm_compute in H1. discriminate H1.
Qed.

Lemma pack_read_request (did : Z) :
  0 <= did < 65536 ->
  Struct.pack [Struct.B; Struct.H] [0x22; did] = Ok (x22 :: Struct.be_bytes 2 did).
Proof.
  intros H. rewrite pack_cons by reflexivity.
  rewrite pack1_ok
    by (change (2 ^ (8 * Z.of_nat (Struct.size Struct.H))) with 65536; lia).
  reflexivity.
Qed.

(** C3 as amended: a negative response [0x7F, 0x22, nrc] to
    [read_parameter] is never taken for success: the call returns [None].
    Nothing else comes of it: besides the request sent and the [recv]
    made, the object and the log are as before, the same for every NRC. *)
Theorem negative_response_is_none
    (self : DoIPConnection.t) (w : world) (ecu_address did : Z)
    (packet response : bytes) (rest : list (option bytes)) (nrc : byte) :
  DoIPConnection.connected self = true ->
  DoIPConnection.socket self = Some TcpSocket ->
  0 <= did < 65536 ->
  DoIPConnection.diagnostic_packet (DoIPConnection.source_address self)
    ecu_address (x22 :: Struct.be_bytes 2 did) = Ok packet ->
  hd false (send_raises w) = false ->
  recv_yields w = Some response :: rest ->
  (12 <= List.length response <= 4096)%nat ->
  payload_type response = 0x8001 ->
  skipn 12 response = [x7f; x22; nrc] ->
  DoIPConnection.read_parameter ecu_address did (self, w) =
    (Ok None, (self, exchanged w packet 4096)).
Proof.
  intros Hc Hs Hdid Hp Hsend Hrecv Hlen Hty Huds.
  unfold DoIPConnection.read_parameter, bind, lift.
  rewrite (pack_read_request _ Hdid).
  rewrite (send_diagnostic_request_exchange _ _ _ _ _ _ _ Hc Hs Hp Hsend Hrecv).
  rewrite firstn_all2 by lia.
  rewrite parse_response_eq.
  destruct (Nat.ltb_spec (List.length response) 12) as [Hlt|_]; [lia|].
  rewrite Hty, Huds. reflexivity.
Qed.

Lemma negative_response_is_none_witness :
  DoIPConnection.read_parameter 0x12 0xF190
    (active_session, peer_answering (negative_reply x31)) =
    (Ok None,
     (active_session,
      exchanged (peer_answering (negative_reply x31))
        [x02; xfd; x80; x01; x00; x00; x00; x07; x0e; x00; x00; x12;
         x22; xf1; x90] 4096)).
Proof.
  apply (negative_response_is_none active_session
           (peer_answering (negative_reply x31)) 0x12 0xF190
           [x02; xfd; x80; x01; x00; x00; x00; x07; x0e; x00; x00; x12;
            x22; xf1; x90]
           (negative_reply x31) [] x31);
    try reflexivity; simpl; lia.
Defined.

(* ------------------------------------------------------------------ *)
(** ** ENETConnection and the unlock sequence of G01ECUManager *)

Lemma ENET_self_socket_ok (self : ENETConnection.t) (w : world) :
  ENETConnection.socket self = Some TcpSocket ->
  ENETConnection.self_socket (self, w) = (Ok tt, (self, w)).
Proof.
  intros H. unfold ENETConnection.self_socket, bind, get. cbn [fst snd].
  rewrite H. reflexivity.
Qed.

(** One request/response exchange of a connected ENET session. *)
Lemma send_uds_request_exchange
    (self : ENETConnection.t) (w : world) (service_id : Z)
    (data response : bytes) (rest : list (option bytes)) :
  ENETConnection.connected self = true ->
  ENETConnection.socket self = Some TcpSocket ->
  0 <= service_id < 256 ->
  hd false (send_raises w) = false ->
  recv_yields w = Some response :: rest ->
  ENETConnection.send_uds_request service_id data (self, w) =
    (Ok (firstn 4096 response),
     (self, exchanged w (byte_of_Z service_id :: data) 4096)).
Proof.
  intros Hc Hs Hid Hsend Hrecv.
  unfold ENETConnection.send_uds_request, try_except, bind, get, lift.
  cbv beta. cbn [fst snd]. rewrite Hc. cbn [negb].
  rewrite pack1_ok
    by (change (2 ^ (8 * Z.of_nat (Struct.size Struct.B))) with 256; lia).
  cbn [Struct.size Struct.be_bytes app].
  rewrite (ENET_self_socket_ok _ _ Hs). cbv beta iota.
  rewrite (send_ok _ _ _ Hsend). cbv beta iota.
  rewrite (ENET_self_socket_ok _ _ Hs). cbv beta iota.
  rewrite (recv_ok _ _ _ response rest) by exact Hrecv. cbv beta iota.
  unfold ret, sent, received, exchanged.
  cbn [connect_raises send_raises recv_yields wire log].
  rewrite <- app_assoc. cbn [app].
  rewrite Z.mod_small by lia. reflexivity.
Qed.

(** C5: whenever the seed-request step of [unlock_ecu] fails, the method
    returns [False], and the state it leaves is the state right after the
    seed-request step with one more log line: the wire shows no socket call
    after that step, so no key message and no further protocol step. *)
Theorem unlock_aborts_on_seed_failure
    (st st1 : ENETConnection.t * world) (ecu_address security_level : Z)
    (session_response : bytes) :
  session_step st = (Ok session_response, st1) ->
  seed_step_failed (fst (seed_step security_level st1)) ->
  exists m,
    G01ECUManager.unlock_ecu ecu_address security_level st =
      (Ok false,
       (fst (snd (seed_step security_level st1)),
        add_log (snd (snd (seed_step security_level st1))) m)).
Proof.
  intros Hsess Hfail.
  destruct (seed_step security_level st1) as [r2 st2] eqn:Hseed.
  cbn [fst snd] in *.
  unfold G01ECUManager.unlock_ecu, try_except.
  unfold session_step in Hsess.
  unfold bind at 1. unfold bind at 1 in Hsess.
  destruct (lift (Struct.pack [Struct.B] [3]) st) as [[session|e] st0];
    [|discriminate Hsess].
  unfold bind at 1. rewrite Hsess.
  unfold seed_step in Hseed.
  unfold bind at 1. unfold bind at 1 in Hseed.
  destruct (lift (Struct.pack [Struct.B] [security_level * 2 - 1]) st1)
    as [[sub|e] st1'].
  - unfold bind at 1. rewrite Hseed.
    destruct r2 as [[|b seed_response]|e].
    + eexists. reflexivity.
    + cbn [seed_step_failed] in Hfail. apply Z.eqb_neq in Hfail.
      unfold bind at 1. unfold lift, index. cbn [nth_error].
      rewrite Hfail. eexists. reflexivity.
    + eexists. reflexivity.
  - injection Hseed as <- <-. eexists. reflexivity.
Qed.

Lemma unlock_aborts_on_seed_failure_witness :
  exists m,
    G01ECUManager.unlock_ecu 0x12 3
      (enet_session, peer_answering_all [[x50; x03]; [x7f; x27; x35]]) =
    (Ok false,
     (enet_session,
      add_log
        (mkWorld false [] []
           [SockSend [x10; x03]; SockRecv 4096;
            SockSend [x27; x05]; SockRecv 4096] [])
        m)).
Proof.
  apply (unlock_aborts_on_seed_failure
           (enet_session, peer_answering_all [[x50; x03]; [x7f; x27; x35]])
           (enet_session,
            exchanged (peer_answering_all [[x50; x03]; [x7f; x27; x35]])
                      [x10; x03] 4096)
           0x12 3 [x50; x03]).
  - reflexivity.
  - vm_compute. discriminate.
Defined.

Lemma send_uds_request_no_answer
    (self : ENETConnection.t) (w : world) (service_id : Z) (data : bytes) :
  ENETConnection.connected self = true ->
  ENETConnection.socket self = Some TcpSocket ->
  0 <= service_id < 256 ->
  hd false (send_raises w) = false ->
  hd None (recv_yields w) = None ->
  ENETConnection.send_uds_request service_id data (self, w) =
    (Raise OSError,
     (self,
      add_log (received (sent w (byte_of_Z service_id :: data)) 4096)
              (LogUdsRequestFailed OSError))).
Proof.
  intros Hc Hs Hid Hsend Hrecv.
  unfold ENETConnection.send_uds_request, try_except, bind, get, lift.
  cbv beta. cbn [fst snd]. rewrite Hc. cbn [negb].
  rewrite pack1_ok
    by (change (2 ^ (8 * Z.of_nat (Struct.size Struct.B))) with 256; lia).
  cbn [Struct.size Struct.be_bytes app].
  rewrite (ENET_self_socket_ok _ _ Hs). cbv beta iota.
  rewrite (send_ok _ _ _ Hsend). cbv beta iota.
  rewrite (ENET_self_socket_ok _ _ Hs). cbv beta iota.
  rewrite recv_fails by exact Hrecv.
  cbv beta iota. rewrite Z.mod_small by lia. reflexivity.
Qed.

(** A request of a connected ENET session whose [send] does not raise
    reaches the wire and is followed by one [recv], whatever that [recv]
    does. *)
Lemma send_uds_request_sends
    (self : ENETConnection.t) (w : world) (service_id : Z) (data : bytes) :
  ENETConnection.connected self = true ->
  ENETConnection.socket self = Some TcpSocket ->
  0 <= service_id < 256 ->
  hd false (send_raises w) = false ->
  exists r w',
    ENETConnection.send_uds_request service_id data (self, w) = (r, (self, w')) /\
    wire w' = wire w ++ [SockSend (byte_of_Z service_id :: data); SockRecv 4096] /\
    send_raises w' = tl (send_raises w).
Proof.
  intros Hc Hs Hid Hsend.
  destruct (recv_yields w) as [|[d|] rest] eqn:Hrecv.
  - rewrite (send_uds_request_no_answer self w service_id data Hc Hs Hid Hsend)
      by (rewrite Hrecv; reflexivity).
    eexists. eexists. split; [reflexivity|].
    cbn [add_log received sent wire send_raises].
    rewrite <- app_assoc. split; reflexivity.
  - rewrite (send_uds_request_exchange self w service_id data d rest
               Hc Hs Hid Hsend Hrecv).
    eexists. eexists. split; [reflexivity|]. split; reflexivity.
  - rewrite (send_uds_request_no_answer self w service_id data Hc Hs Hid Hsend)
      by (rewrite Hrecv; reflexivity).
    eexists. eexists. split; [reflexivity|].
    cbn [add_log received sent wire send_raises].
    rewrite <- app_assoc. split; reflexivity.
Qed.

(** The socket calls of [unlock_ecu] once the session start is answered:
    the seed request goes out for every level whose sub-function fits a
    byte; a key message can only follow at level 3 or 4. *)
Lemma unlock_wire
    (self : ENETConnection.t) (w : world) (ecu_address security_level : Z)
    (r0 : bytes) (rest : list (option bytes)) :
  ENETConnection.connected self = true ->
  ENETConnection.socket self = Some TcpSocket ->
  1 <= security_level <= 128 ->
  send_raises w = [] ->
  recv_yields w = Some r0 :: rest ->
  exists more,
    wire (snd (snd (G01ECUManager.unlock_ecu ecu_address security_level
                      (self, w)))) =
      wire w ++
        [SockSend [x10; x03]; SockRecv 4096;
         SockSend [x27; byte_of_Z (2 * security_level - 1)]; SockRecv 4096]
        ++ more /\
    (more = [] \/
     exists key,
       (security_level = 3 \/ security_level = 4) /\
       more = [SockSend (x27 :: byte_of_Z (2 * security_level) :: key);
               SockRecv 4096]).
Proof.
  intros Hc Hs Hlevel Hsend Hrecv.
  set (w1 := exchanged w [x10; x03] 4096).
  assert (E1 : ENETConnection.send_uds_request 0x10 [x03] (self, w) =
               (Ok (firstn 4096 r0), (self, w1))).
  { eapply (send_uds_request_exchange self w 0x10 [x03] r0 _ Hc Hs);
      [lia | rewrite Hsend; reflexivity | exact Hrecv]. }
  assert (Hs1 : send_raises w1 = []) by (subst w1; cbn; rewrite Hsend; reflexivity).
  destruct (send_uds_request_sends self w1 0x27
              [byte_of_Z (2 * security_level - 1)] Hc Hs ltac:(lia)
              ltac:(rewrite Hs1; reflexivity))
    as (r1 & w2 & E2 & Hw2 & Hs2).
  rewrite Hs1 in Hs2. cbn [tl] in Hs2.
  assert (Hw2' : wire w2 = wire w ++
            [SockSend [x10; x03]; SockRecv 4096;
             SockSend [x27; byte_of_Z (2 * security_level - 1)]; SockRecv 4096]).
  { rewrite Hw2. subst w1. cbn [exchanged wire]. rewrite <- app_assoc.
    reflexivity. }
  assert (Hsub : Struct.pack [Struct.B] [security_level * 2 - 1] =
                 Ok [byte_of_Z (2 * security_level - 1)]).
  { rewrite pack1_ok
      by (change (2 ^ (8 * Z.of_nat (Struct.size Struct.B))) with 256; lia).
    cbn [Struct.size Struct.be_bytes app].
    rewrite Z.mod_small by lia. do 3 f_equal. lia. }
  unfold G01ECUManager.unlock_ecu, try_except.
  change (Struct.pack [Struct.B] [3]) with (@Ok bytes [x03]).
  rewrite Hsub.
  unfold bind at 1. unfold lift at 1. cbv beta iota.
  unfold bind at 1. rewrite E1. cbv beta iota.
  unfold bind at 1. unfold lift at 1. cbv beta iota.
  unfold bind at 1. rewrite E2.
  destruct r1 as [[|b0 t]|e].
  - exists []. rewrite app_nil_r. split; [exact Hw2'|left; reflexivity].
  - cbv beta iota. unfold bind at 1. unfold lift at 1.
    unfold index. cbn [nth_error]. cbv beta iota.
    destruct (Z_of_byte b0 =? 103).
    2:{ exists []. rewrite app_nil_r. split; [exact Hw2'|left; reflexivity]. }
    cbn [negb].
    unfold bind at 1. unfold logger at 1. cbn [fst snd]. cbv beta iota.
    set (seed := slice 2 6 (b0 :: t)).
    set (w2s := {| connect_raises := connect_raises w2;
                   send_raises := send_raises w2;
                   recv_yields := recv_yields w2;
                   wire := wire w2;
                   log := log w2 ++ [LogG01Seed seed] |}).
    assert (Hkeymsg : forall key,
              security_level = 3 \/ security_level = 4 ->
              exists more,
                wire (snd (snd
                  (let (r, st') :=
                     (logger (LogG01Key key) ;;;
                      sub2 <- lift (Struct.pack [Struct.B] [security_level * 2]) ;;
                      key_response <-
                        ENETConnection.send_uds_request 39 (sub2 ++ key) ;;
                      k0 <- lift (index key_response 0) ;;
                      (if k0 =? 103
                       then logger LogG01Unlocked ;;; ret true
                       else logger (LogG01KeyRejected key_response) ;;;
                            ret false)) (self, w2s) in
                   match r with
                   | Ok a => (Ok a, st')
                   | Raise e =>
                       (logger (LogG01UnlockFailed e) ;;; ret false) st'
                   end))) =
                wire w ++
                 [SockSend [x10; x03]; SockRecv 4096;
                  SockSend [x27; byte_of_Z (2 * security_level - 1)];
                  SockRecv 4096] ++ more /\
                (more = [] \/
                 exists key0,
                   (security_level = 3 \/ security_level = 4) /\
                   more = [SockSend (x27 :: byte_of_Z (2 * security_level) :: key0);
                           SockRecv 4096])).
    { intros key Hl34.
      destruct (send_uds_request_sends self (add_log w2s (LogG01Key key)) 0x27
                  ([byte_of_Z (2 * security_level)] ++ key) Hc Hs ltac:(lia)
                  ltac:(cbn; rewrite Hs2; reflexivity))
        as (r3 & w3 & E3 & Hw3 & _).
      assert (Hw3' : wire w3 =
                wire w ++
                 [SockSend [x10; x03]; SockRecv 4096;
                  SockSend [x27; byte_of_Z (2 * security_level - 1)];
                  SockRecv 4096] ++
                [SockSend (x27 :: byte_of_Z (2 * security_level) :: key);
                 SockRecv 4096]).
      { rewrite Hw3. cbn [add_log wire]. subst w2s. cbn [wire].
        rewrite Hw2', <- app_assoc. reflexivity. }
      exists [SockSend (x27 :: byte_of_Z (2 * security_level) :: key);
              SockRecv 4096].
      split; [|right; exists key; auto].
      assert (Hsub2 : Struct.pack [Struct.B] [security_level * 2] =
                      Ok [byte_of_Z (2 * security_level)])
        by (destruct Hl34 as [-> | ->]; reflexivity).
      rewrite Hsub2.
      unfold bind at 1. unfold logger at 1. cbn [fst snd]. cbv beta iota.
      unfold bind at 1. unfold lift at 1. cbv beta iota.
      unfold bind at 1.
      fold (add_log w2s (LogG01Key key)). rewrite E3.
      destruct r3 as [[|k0 kr]|e].
      - exact Hw3'.
      - cbv beta iota. unfold bind at 1. unfold lift at 1.
        unfold index. cbn [nth_error]. cbv beta iota.
        destruct (Z_of_byte k0 =? 103); exact Hw3'.
      - exact Hw3'. }
    destruct (Z.eqb_spec security_level 3) as [H3|H3].
    { destruct (BMWSeedToKey.calculate_key_level3 seed) as [key|e].
      - unfold bind at 1. unfold lift at 1. cbv beta iota.
        apply (Hkeymsg key). left. exact H3.
      - exists []. rewrite app_nil_r. split; [exact Hw2'|left; reflexivity]. }
    destruct (Z.eqb_spec security_level 4) as [H4|H4].
    { destruct (BMWSeedToKey.calculate_key_level4 seed) as [key|e].
      - unfold bind at 1. unfold lift at 1. cbv beta iota.
        apply (Hkeymsg key). right. exact H4.
      - exists []. rewrite app_nil_r. split; [exact Hw2'|left; reflexivity]. }
    exists []. rewrite app_nil_r. split; [exact Hw2'|left; reflexivity].
  - exists []. rewrite app_nil_r. split; [exact Hw2'|left; reflexivity].
Qed.

(** The key message of [unlock_ecu] at the levels it supports, when the
    seed response is positive and carries a 4-byte seed; what the ECU
    answers to the key message plays no part. *)
Lemma unlock_key_message
    (self : ENETConnection.t) (w : world) (ecu_address security_level : Z)
    (r0 tail : bytes) (sub s0 s1 s2 s3 : byte) (rest : list (option bytes)) :
  ENETConnection.connected self = true ->
  ENETConnection.socket self = Some TcpSocket ->
  security_level = 3 \/ security_level = 4 ->
  send_raises w = [] ->
  recv_yields w =
    Some r0 :: Some (x67 :: sub :: s0 :: s1 :: s2 :: s3 :: tail) :: rest ->
  (List.length tail + 6 <= 4096)%nat ->
  exists key,
    key_for security_level [s0; s1; s2; s3] = Ok key /\
    List.length key = 4%nat /\
    wire (snd (snd (G01ECUManager.unlock_ecu ecu_address security_level
                      (self, w)))) =
      wire w ++
        [SockSend [x10; x03]; SockRecv 4096;
         SockSend [x27; byte_of_Z (2 * security_level - 1)]; SockRecv 4096;
         SockSend (x27 :: byte_of_Z (2 * security_level) :: key);
         SockRecv 4096].
Proof.
  intros Hc Hs Hlevel Hsend Hrecv Hlen.
  assert (Hkey : exists key,
             key_for security_level [s0; s1; s2; s3] = Ok key /\
             List.length key = 4%nat).
  { unfold key_for. destruct Hlevel as [-> | ->]; cbn [Z.eqb Pos.eqb].
    - apply level3_on_4_bytes. reflexivity.
    - apply level4_on_4_bytes. reflexivity. }
  destruct Hkey as (key & Hkey & Hkl).
  exists key. split; [exact Hkey|]. split; [exact Hkl|].
  set (r1 := x67 :: sub :: s0 :: s1 :: s2 :: s3 :: tail) in *.
  assert (Hr1 : firstn 4096 r1 = r1)
    by (apply firstn_all2; subst r1; cbn [List.length]; lia).
  set (w1 := exchanged w [x10; x03] 4096).
  set (w2 := exchanged w1 [x27; byte_of_Z (2 * security_level - 1)] 4096).
  set (w2' := add_log (add_log w2 (LogG01Seed [s0; s1; s2; s3]))
                      (LogG01Key key)).
  assert (E1 : ENETConnection.send_uds_request 0x10 [x03] (self, w) =
               (Ok (firstn 4096 r0), (self, w1))).
  { eapply (send_uds_request_exchange self w 0x10 [x03] r0 _ Hc Hs);
      [lia | rewrite Hsend; reflexivity | exact Hrecv]. }
  assert (E2 : ENETConnection.send_uds_request 0x27
                 [byte_of_Z (2 * security_level - 1)] (self, w1) =
               (Ok r1, (self, w2))).
  { rewrite <- Hr1 at 1.
    eapply (send_uds_request_exchange self w1 0x27 _ r1 _ Hc Hs);
      [lia | subst w1; cbn; rewrite Hsend; reflexivity
           | subst w1; cbn; rewrite Hrecv; reflexivity]. }
  destruct (send_uds_request_sends self w2' 0x27
              (byte_of_Z (2 * security_level) :: key) Hc Hs ltac:(lia)
              ltac:(subst w2' w2 w1; cbn; rewrite Hsend; reflexivity))
    as (r3 & w3 & E3 & Hw3 & _).
  assert (Hw3' : wire w3 =
      wire w ++
        [SockSend [x10; x03]; SockRecv 4096;
         SockSend [x27; byte_of_Z (2 * security_level - 1)]; SockRecv 4096;
         SockSend (x27 :: byte_of_Z (2 * security_level) :: key);
         SockRecv 4096]).
  { rewrite Hw3. subst w2' w2 w1. cbn [exchanged add_log wire].
    rewrite <- !app_assoc. reflexivity. }
  rewrite <- Hw3'.
  assert (Hsub : Struct.pack [Struct.B] [security_level * 2 - 1] =
                 Ok [byte_of_Z (2 * security_level - 1)])
    by (destruct Hlevel as [-> | ->]; reflexivity).
  assert (Hsub2 : Struct.pack [Struct.B] [security_level * 2] =
                  Ok [byte_of_Z (2 * security_level)])
    by (destruct Hlevel as [-> | ->]; reflexivity).
  assert (Hk : (if security_level =? 3
                then lift (BMWSeedToKey.calculate_key_level3 [s0; s1; s2; s3])
                else if security_level =? 4
                     then lift (BMWSeedToKey.calculate_key_level4
                                  [s0; s1; s2; s3])
                     else raise ValueError)
               = (lift (Ok key) : M ENETConnection.t bytes)).
  { unfold key_for in Hkey.
    destruct Hlevel as [-> | ->]; cbn [Z.eqb Pos.eqb] in *; rewrite Hkey;
      reflexivity. }
  unfold G01ECUManager.unlock_ecu, try_except.
  change (Struct.pack [Struct.B] [3]) with (@Ok bytes [x03]).
  rewrite Hsub, Hsub2.
  unfold bind at 1. unfold lift at 1. cbv beta iota.
  unfold bind at 1. rewrite E1. cbv beta iota.
  unfold bind at 1. unfold lift at 1. cbv beta iota.
  unfold bind at 1. rewrite E2. cbv beta iota.
  unfold bind at 1. unfold lift at 1.
  change (index r1 0) with (@Ok Z 103). cbv beta iota.
  change (negb (103 =? 103)) with false. cbv iota.
  change (slice 2 6 r1) with [s0; s1; s2; s3].
  rewrite Hk.
  unfold bind at 1. unfold logger at 1. cbn [fst snd]. cbv beta iota.
  unfold bind at 1. unfold lift at 1. cbv beta iota.
  unfold bind at 1. unfold logger at 1. cbn [fst snd]. cbv beta iota.
  unfold bind at 1. unfold lift at 1. cbv beta iota.
  unfold bind at 1. cbn [app].
  fold (add_log w2 (LogG01Seed [s0; s1; s2; s3])).
  fold (add_log (add_log w2 (LogG01Seed [s0; s1; s2; s3])) (LogG01Key key)).
  fold w2'. rewrite E3.
  destruct r3 as [[|k0 kr]|e].
  - reflexivity.
  - cbv beta iota. unfold bind at 1. unfold lift at 1.
    unfold index. cbn [nth_error]. cbv beta iota.
    destruct (Z_of_byte k0 =? 103); reflexivity.
  - reflexivity.
Qed.

Lemma bytes_of_subfunction (v : Z) :
  0 <= v < 256 -> bytes_of_ints [0x27; v] = Ok [x27; byte_of_Z v].
Proof.
  intros H. cbn [bytes_of_ints].
  change ((0 <=? 39) && (39 <? 256)) with true. cbv iota.
  replace ((0 <=? v) && (v <? 256)) with true
    by (symmetry; apply andb_true_iff; split;
        [apply Z.leb_le | apply Z.ltb_lt]; lia).
  reflexivity.
Qed.

(** A diagnostic request of a connected session whose [send] does not
    raise reaches the wire and is followed by one [recv], whatever that
    [recv] does. *)
Lemma send_diagnostic_request_sends
    (self : DoIPConnection.t) (w : world) (target_ecu : Z)
    (uds_data packet : bytes) :
  DoIPConnection.connected self = true ->
  DoIPConnection.socket self = Some TcpSocket ->
  DoIPConnection.diagnostic_packet (DoIPConnection.source_address self)
                                   target_ecu uds_data = Ok packet ->
  hd false (send_raises w) = false ->
  exists r w',
    DoIPConnection.send_diagnostic_request target_ecu uds_data (self, w)
      = (Ok r, (self, w')) /\
    wire w' = wire w ++ [SockSend packet; SockRecv 4096].
Proof.
  intros Hc Hs Hp Hsend.
  destruct (recv_yields w) as [|y rest] eqn:Hrecv; [|destruct y as [d|]].
  2:{ rewrite (send_diagnostic_request_exchange _ _ _ _ _ _ _
                 Hc Hs Hp Hsend Hrecv).
      rewrite parse_response_eq. cbn [fst snd].
      destruct (List.length (firstn 4096 d) <? 12)%nat;
        [eexists; eexists; split; reflexivity|].
      destruct (payload_type (firstn 4096 d) =? 0x8001);
        eexists; eexists; split; reflexivity. }
  all: unfold DoIPConnection.send_diagnostic_request, try_except, bind, get,
         lift;
       cbv beta; cbn [fst snd]; rewrite Hc, Hp; cbn [negb];
       rewrite (DoIP_self_socket_ok _ _ Hs); cbv beta iota;
       rewrite (send_ok _ _ _ Hsend); cbv beta iota;
       rewrite (DoIP_self_socket_ok _ _ Hs); cbv beta iota;
       rewrite recv_fails by (cbn; rewrite Hrecv; reflexivity);
       cbv beta iota;
       eexists; eexists; split; [reflexivity|];
       cbn [logger fst snd wire sent received];
       rewrite <- app_assoc; reflexivity.
Qed.

(** What [DoIPConnection.request_seed] sends: the value passed as
    [security_level] is itself the sub-function byte. *)
Lemma request_seed_sends
    (self : DoIPConnection.t) (w : world) (ecu_address security_level : Z)
    (packet : bytes) :
  DoIPConnection.connected self = true ->
  DoIPConnection.socket self = Some TcpSocket ->
  0 <= security_level < 256 ->
  DoIPConnection.diagnostic_packet (DoIPConnection.source_address self)
    ecu_address [x27; byte_of_Z security_level] = Ok packet ->
  hd false (send_raises w) = false ->
  wire (snd (snd (DoIPConnection.request_seed ecu_address security_level
                    (self, w)))) =
    wire w ++ [SockSend packet; SockRecv 4096].
Proof.
  intros Hc Hs Hl Hp Hsend.
  destruct (send_diagnostic_request_sends self w ecu_address _ packet
              Hc Hs Hp Hsend) as (r & w' & E & Hw).
  unfold DoIPConnection.request_seed.
  rewrite (bytes_of_subfunction _ Hl).
  unfold bind at 1. unfold lift at 1. cbv beta iota.
  unfold bind at 1. rewrite E.
  destruct r as [[|b0 t]|]; try exact Hw.
  destruct (negb (Z_of_byte b0 =? 0x67)); exact Hw.
Qed.

(** What [DoIPConnection.send_key] sends: sub-function
    [security_level + 1], then the key. *)
Lemma send_key_sends
    (self : DoIPConnection.t) (w : world) (ecu_address security_level : Z)
    (key packet : bytes) :
  DoIPConnection.connected self = true ->
  DoIPConnection.socket self = Some TcpSocket ->
  0 <= security_level + 1 < 256 ->
  DoIPConnection.diagnostic_packet (DoIPConnection.source_address self)
    ecu_address ([x27; byte_of_Z (security_level + 1)] ++ key) = Ok packet ->
  hd false (send_raises w) = false ->
  wire (snd (snd (DoIPConnection.send_key ecu_address security_level key
                    (self, w)))) =
    wire w ++ [SockSend packet; SockRecv 4096].
Proof.
  intros Hc Hs Hl Hp Hsend.
  destruct (send_diagnostic_request_sends self w ecu_address _ packet
              Hc Hs Hp Hsend) as (r & w' & E & Hw).
  unfold DoIPConnection.send_key.
  rewrite (bytes_of_subfunction _ Hl).
  unfold bind at 1. unfold lift at 1. cbv beta iota.
  unfold bind at 1. rewrite E.
  destruct r as [[|b0 t]|]; try exact Hw.
  destruct (negb (Z_of_byte b0 =? 0x67)); exact Hw.
Qed.

(** C4 fails on the code as stated for every level.
    [DoIPConnection.request_seed] called with level 3 sends the UDS bytes
    [0x27, 0x03], not [0x27, 0x05]; [G01ECUManager.unlock_ecu] called
    with level 5 sends its seed request and, the seed granted, raises on
    the unsupported level: no key message follows; called with level 129,
    whose sub-function 257 does not fit a byte, it sends no seed request
    at all. *)
Lemma level_is_not_always_doubled :
  wire (snd (snd (DoIPConnection.request_seed 0x12 3
                    (active_session,
                     peer_answering
                       (reply_frame [x67; x03; xaa; xbb; xcc; xdd])))))
    = [SockSend ([x02; xfd; x80; x01; x00; x00; x00; x06;
                  x0e; x00; x00; x12] ++ [x27; x03]);
       SockRecv 4096] /\
  [x27; x03] <> [x27; byte_of_Z (2 * 3 - 1)] /\
  G01ECUManager.unlock_ecu 0x12 5
    (enet_session,
     peer_answering_all [[x50; x03]; [x67; x09; xaa; xbb; xcc; xdd];
                         [x67; x0a]])
    = (Ok false,
       (enet_session,
        mkWorld false [] [Some [x67; x0a]]
          [SockSend [x10; x03]; SockRecv 4096;
           SockSend [x27; x09]; SockRecv 4096]
          [LogG01Seed [xaa; xbb; xcc; xdd]; LogG01UnlockFailed ValueError])) /\
  G01ECUManager.unlock_ecu 0x12 129
    (enet_session,
     peer_answering_all [[x50; x03]; [x67; x01; xaa; xbb; xcc; xdd]])
    = (Ok false,
       (enet_session,
        mkWorld false [] [Some [x67; x01; xaa; xbb; xcc; xdd]]
          [SockSend [x10; x03]; SockRecv 4096]
          [LogG01UnlockFailed StructError])).
Proof.
  split; [vm_compute; reflexivity|].
  split; [vm_compute; discriminate|].
  split; vm_compute; reflexivity.
Qed.

(** C4 as amended.  On a connected session whose sends do not raise and
    whose session start is answered, [G01ECUManager.unlock_ecu] sends the
    seed request [0x27, 2*level-1] for every security level from 1 to 128
    (the levels whose sub-function fits a byte), whatever the ECU answers
    to it.  A key message can follow only at levels 3 and 4, the levels
    the method supports; it does follow there whenever the seed response
    is positive and carries a 4-byte seed, and it is [0x27, 2*level]
    followed by the 4 key bytes computed from that seed.
    [DoIPConnection.request_seed] and [DoIPConnection.send_key] take the
    sub-function byte itself: on a connected session whose send does not
    raise they wrap and send the UDS bytes [0x27, security_level] and
    [0x27, security_level+1] followed by the key. *)
Theorem security_access_messages :
  (forall (self : ENETConnection.t) (w : world)
          (ecu_address security_level : Z) (r0 : bytes)
          (rest : list (option bytes)),
      ENETConnection.connected self = true ->
      ENETConnection.socket self = Some TcpSocket ->
      1 <= security_level <= 128 ->
      send_raises w = [] ->
      recv_yields w = Some r0 :: rest ->
      exists more,
        wire (snd (snd (G01ECUManager.unlock_ecu ecu_address security_level
                          (self, w)))) =
          wire w ++
            [SockSend [x10; x03]; SockRecv 4096;
             SockSend [x27; byte_of_Z (2 * security_level - 1)];
             SockRecv 4096]
            ++ more /\
        (more = [] \/
         exists key,
           (security_level = 3 \/ security_level = 4) /\
           more = [SockSend (x27 :: byte_of_Z (2 * security_level) :: key);
                   SockRecv 4096])) /\
  (forall (self : ENETConnection.t) (w : world)
          (ecu_address security_level : Z) (r0 tail : bytes)
          (sub s0 s1 s2 s3 : byte) (rest : list (option bytes)),
      ENETConnection.connected self = true ->
      ENETConnection.socket self = Some TcpSocket ->
      security_level = 3 \/ security_level = 4 ->
      send_raises w = [] ->
      recv_yields w =
        Some r0 :: Some (x67 :: sub :: s0 :: s1 :: s2 :: s3 :: tail)
          :: rest ->
      (List.length tail + 6 <= 4096)%nat ->
      exists key,
        key_for security_level [s0; s1; s2; s3] = Ok key /\
        List.length key = 4%nat /\
        wire (snd (snd (G01ECUManager.unlock_ecu ecu_address security_level
                          (self, w)))) =
          wire w ++
            [SockSend [x10; x03]; SockRecv 4096;
             SockSend [x27; byte_of_Z (2 * security_level - 1)];
             SockRecv 4096;
             SockSend (x27 :: byte_of_Z (2 * security_level) :: key);
             SockRecv 4096]) /\
  (forall (self : DoIPConnection.t) (w : world)
          (ecu_address security_level : Z) (packet : bytes),
      DoIPConnection.connected self = true ->
      DoIPConnection.socket self = Some TcpSocket ->
      0 <= security_level < 256 ->
      DoIPConnection.diagnostic_packet (DoIPConnection.source_address self)
        ecu_address [x27; byte_of_Z security_level] = Ok packet ->
      hd false (send_raises w) = false ->
      wire (snd (snd (DoIPConnection.request_seed ecu_address security_level
                        (self, w)))) =
        wire w ++ [SockSend packet; SockRecv 4096]) /\
  (forall (self : DoIPConnection.t) (w : world)
          (ecu_address security_level : Z) (key packet : bytes),
      DoIPConnection.connected self = true ->
      DoIPConnection.socket self = Some TcpSocket ->
      0 <= security_level + 1 < 256 ->
      DoIPConnection.diagnostic_packet (DoIPConnection.source_address self)
        ecu_address ([x27; byte_of_Z (security_level + 1)] ++ key)
        = Ok packet ->
      hd false (send_raises w) = false ->
      wire (snd (snd (DoIPConnection.send_key ecu_address security_level key
                        (self, w)))) =
        wire w ++ [SockSend packet; SockRecv 4096]).
Proof.
  split; [|split; [|split]].
  - exact unlock_wire.
  - exact unlock_key_message.
  - exact request_seed_sends.
  - exact send_key_sends.
Qed.

Lemma security_access_messages_witness :
  (exists more,
     wire (snd (snd (G01ECUManager.unlock_ecu 0x12 1
                       (enet_session,
                        peer_answering_all [[x50; x03]; [x7f; x27; x12]])))) =
       wire (peer_answering_all [[x50; x03]; [x7f; x27; x12]]) ++
         [SockSend [x10; x03]; SockRecv 4096;
          SockSend [x27; byte_of_Z (2 * 1 - 1)]; SockRecv 4096]
         ++ more /\
     (more = [] \/
      exists key,
        (1 = 3 \/ 1 = 4) /\
        more = [SockSend (x27 :: byte_of_Z (2 * 1) :: key); SockRecv 4096])) /\
  (exists key,
     key_for 3 [xaa; xbb; xcc; xdd] = Ok key /\
     List.length key = 4%nat /\
     wire (snd (snd (G01ECUManager.unlock_ecu 0x12 3
                       (enet_session,
                        peer_answering_all
                          [[x50; x03]; [x67; x05; xaa; xbb; xcc; xdd]])))) =
       wire (peer_answering_all
               [[x50; x03]; [x67; x05; xaa; xbb; xcc; xdd]]) ++
         [SockSend [x10; x03]; SockRecv 4096;
          SockSend [x27; byte_of_Z (2 * 3 - 1)]; SockRecv 4096;
          SockSend (x27 :: byte_of_Z (2 * 3) :: key); SockRecv 4096]) /\
  wire (snd (snd (DoIPConnection.request_seed 0x12 5
                    (active_session,
                     peer_answering
                       (reply_frame [x67; x05; xaa; xbb; xcc; xdd]))))) =
    wire (peer_answering (reply_frame [x67; x05; xaa; xbb; xcc; xdd])) ++
      [SockSend [x02; xfd; x80; x01; x00; x00; x00; x06;
                 x0e; x00; x00; x12; x27; x05];
       SockRecv 4096] /\
  wire (snd (snd (DoIPConnection.send_key 0x12 5 [x01; x02; x03; x04]
                    (active_session, peer_answering [])))) =
    wire (peer_answering []) ++
      [SockSend [x02; xfd; x80; x01; x00; x00; x00; x0a;
                 x0e; x00; x00; x12; x27; x06; x01; x02; x03; x04];
       SockRecv 4096].
Proof.
  destruct security_access_messages as (HA & HB & HC & HD).
  split; [|split; [|split]].
  - apply (HA enet_session
              (peer_answering_all [[x50; x03]; [x7f; x27; x12]])
              0x12 1 [x50; x03] [Some [x7f; x27; x12]]);
      try reflexivity.
    lia.
  - apply (HB enet_session
              (peer_answering_all
                 [[x50; x03]; [x67; x05; xaa; xbb; xcc; xdd]])
              0x12 3 [x50; x03] [] x05 xaa xbb xcc xdd []);
      try reflexivity.
    + left. reflexivity.
    + simpl. lia.
  - apply (HC active_session
              (peer_answering (reply_frame [x67; x05; xaa; xbb; xcc; xdd]))
              0x12 5
              [x02; xfd; x80; x01; x00; x00; x00; x06;
               x0e; x00; x00; x12; x27; x05]);
      try reflexivity.
    lia.
  - apply (HD active_session (peer_answering [])
              0x12 5 [x01; x02; x03; x04]
              [x02; xfd; x80; x01; x00; x00; x00; x0a;
               x0e; x00; x00; x12; x27; x06; x01; x02; x03; x04]);
      try reflexivity.
    lia.
Defined.

(* ------------------------------------------------------------------ *)
(** ** CAFDParser: the record loop *)

Section CafdLoop.

Import CAFDParser.

Lemma body_progress (data : bytes) (offset offset' : nat)
    (params params' : dict) :
  body data offset params = Ok (Some (offset', params')) ->
  (offset + 4 <= offset')%nat.
Proof.
  unfold body. intros H.
  destruct (Struct.unpack1 Struct.H (slice offset (offset + 2) data))
    as [param_id|e]; [|discriminate H].
  destruct (Struct.unpack1 Struct.H (slice (offset + 2) (offset + 4) data))
    as [param_len|e]; [|discriminate H].
  cbn [rbind] in H.
  destruct (Z.of_nat (offset + 4) + param_len >? Z.of_nat (List.length data));
    [discriminate H|].
  injection H as <- _. lia.
Qed.

(** The loop ends by itself: beyond [len(data) - offset] rounds, more
    fuel changes nothing. *)
Lemma loop_fuel_enough (f1 : nat) :
  forall (f2 : nat) (data : bytes) (offset : nat) (params : dict),
    (List.length data - offset <= f1)%nat ->
    (List.length data - offset <= f2)%nat ->
    loop f1 data offset params = loop f2 data offset params.
Proof.
  induction f1 as [|f1 IH]; intros f2 data offset params H1 H2.
  - destruct f2 as [|f2]; [reflexivity|]. cbn [loop].
    destruct (Z.ltb_spec (Z.of_nat offset) (Z.of_nat (List.length data) - 4));
      [lia|reflexivity].
  - destruct f2 as [|f2]; cbn [loop].
    + destruct (Z.ltb_spec (Z.of_nat offset)
                           (Z.of_nat (List.length data) - 4));
        [lia|reflexivity].
    + destruct (Z.ltb_spec (Z.of_nat offset)
                           (Z.of_nat (List.length data) - 4)) as [Hlt|_];
        [|reflexivity].
      destruct (body data offset params) as [[[offset' params']|]|e] eqn:Hb;
        try reflexivity.
      apply body_progress in Hb. apply IH; lia.
Qed.

(** A record whose declared length runs past the end of the data stops
    the loop, and the records decoded before it are returned as they
    are. *)
Lemma loop_stops_at_truncated_record
    (fuel : nat) (data : bytes) (offset : nat) (params : dict) :
  Z.of_nat offset < Z.of_nat (List.length data) - 4 ->
  Z.of_nat (offset + 4)
    + Struct.be_int (slice (offset + 2) (offset + 4) data)
    > Z.of_nat (List.length data) ->
  loop (S fuel) data offset params = params.
Proof.
  intros Hlt Hover. cbn [loop].
  apply Z.ltb_lt in Hlt. rewrite Hlt.
  apply Z.ltb_lt in Hlt.
  unfold body.
  rewrite (unpack_H_slice offset) by lia.
  replace (offset + 4)%nat with (offset + 2 + 2)%nat in * by lia.
  rewrite (unpack_H_slice (offset + 2)) by lia.
  cbn [rbind].
  apply Z.gtb_gt in Hover. rewrite Hover. reflexivity.
Qed.

End CafdLoop.

(** C7 (the code departs from it): the loop of [_parse_cafd_binary] runs
    while [offset < len(data) - 4], that is while offset + 4 < length,
    not offset + 4 <= length.  On a blob whose last record has length 0
    and ends exactly at the end of the data, offset + 4 = length: the
    method returns no record, while the loop bound of the specification
    reads that record. *)
Theorem final_empty_record_is_dropped :
  (Z.of_nat 32 + 4 <=? Z.of_nat (List.length blob_ending_in_empty_record))
    = true /\
  CAFDParser._parse_cafd_binary blob_ending_in_empty_record = [] /\
  parse_as_specified blob_ending_in_empty_record =
    [(str_of "param_3000", CAFDParser.mkParam 0x3000 [] [] 0)].
Proof.
  split; [reflexivity|]. split; vm_compute; reflexivity.
Qed.

(** The example of the specification: one record, "not_active". *)
Lemma cafd_not_active_example :
  CAFDParser._parse_cafd_binary
    (repeat x00 32 ++ [x30; x00; x00; x0a]
       ++ list_byte_of_string "not_active") =
    [(str_of "param_3000",
      CAFDParser.mkParam 0x3000 (str_of "not_active")
        (str_of "6e6f745f616374697665") 10)].
Proof. vm_compute. reflexivity. Qed.

(** A truncated last record: the record before it is returned. *)
Lemma cafd_truncated_tail_example :
  CAFDParser._parse_cafd_binary
    (repeat x00 32 ++ [x30; x00; x00; x01; x41]
       ++ [x30; x01; x00; x09; x41]) =
    [(str_of "param_3000", CAFDParser.mkParam 0x3000 [65] (str_of "41") 1)].
Proof. vm_compute. reflexivity. Qed.

(* ------------------------------------------------------------------ *)
(** ** CAFDParser: the decoded value *)

Section DecodedValue.

Import Py.

Ltac decode_cases IH :=
  repeat match goal with
  | H : on_error Strict _ = Ok _ |- _ => discriminate H
  | H : emit _ (decode_utf8 Strict ?r) = Ok _ |- _ =>
      let E := fresh "E" in
      destruct (decode_utf8 Strict r) eqn:E; [|discriminate H];
      rewrite (IH r _ ltac:(cbn [List.length] in *; lia) E); exact H
  | H : context [if ?c then _ else _] |- _ => destruct c eqn:?
  | H : context [match ?r with [] => _ | _ :: _ => _ end] |- _ =>
      destruct r
  end.

Lemma decode_ignore_of_strict_bounded (n : nat) :
  forall (b : bytes) (s : pystr),
    (List.length b <= n)%nat ->
    decode_utf8 Strict b = Ok s -> decode_utf8 Ignore b = Ok s.
Proof.
  induction n as [|n IH]; intros b s Hn H.
  - destruct b; [exact H | cbn [List.length] in Hn; lia].
  - destruct b as [|b0 r0]; [exact H|].
    cbn [decode_utf8] in *.
    decode_cases IH.
Qed.

(** On bytes that are valid UTF-8, ['ignore'] decodes as ['strict']. *)
Lemma decode_ignore_of_strict (b : bytes) (s : pystr) :
  decode_utf8 Strict b = Ok s -> decode_utf8 Ignore b = Ok s.
Proof.
  apply (decode_ignore_of_strict_bounded (List.length b)). lia.
Qed.

Lemma decode_ignore_total_bounded (n : nat) :
  forall b : bytes,
    (List.length b <= n)%nat -> exists s, decode_utf8 Ignore b = Ok s.
Proof.
  induction n as [|n IH]; intros b Hn.
  - destruct b; [exists []; reflexivity | cbn [List.length] in Hn; lia].
  - destruct b as [|b0 r0]; [exists []; reflexivity|].
    cbn [decode_utf8 on_error].
    repeat match goal with
    | |- exists s, Ok ?x = Ok s => exists x; reflexivity
    | |- exists s, decode_utf8 Ignore ?r = Ok s =>
        apply IH; cbn [List.length] in *; lia
    | |- exists s, emit ?c (decode_utf8 Ignore ?r) = Ok s =>
        let s' := fresh "s" in
        let E := fresh "E" in
        destruct (IH r ltac:(cbn [List.length] in *; lia)) as [s' E];
        rewrite E; exists (c :: s'); reflexivity
    | |- context [if ?c then _ else _] => destruct c
    | |- context [match ?r with [] => _ | _ :: _ => _ end] => destruct r
    end.
Qed.

(** With [errors='ignore'] the decoding never raises: the [except]
    branch of the parser, the hexadecimal string, is never taken. *)
Lemma decode_ignore_total (b : bytes) :
  exists s, decode_utf8 Ignore b = Ok s.
Proof.
  apply (decode_ignore_total_bounded (List.length b)). lia.
Qed.

Lemma param_value_is_stripped_decoding (param_data : bytes) :
  exists s,
    decode_utf8 Ignore param_data = Ok s /\
    CAFDParser.param_value param_data = strip 0 s.
Proof.
  destruct (decode_ignore_total param_data) as [s E].
  exists s. split; [exact E|].
  unfold CAFDParser.param_value. rewrite E. reflexivity.
Qed.

End DecodedValue.

(** C8 fails on the code.  The raw bytes 00 41 are valid UTF-8; stripping
    trailing NULs leaves both characters, but the parser strips at both
    ends and stores "A".  (And on the raw byte FF, which is not valid
    UTF-8, the parser stores the empty string, not "ff".) *)
Lemma value_is_not_as_specified :
  Py.decode_utf8 Py.Strict [x00; x41] = Ok [0; 65] /\
  value_as_specified [x00; x41] = [0; 65] /\
  CAFDParser.param_value [x00; x41] = [65] /\
  CAFDParser.param_value [x00; x41] <> value_as_specified [x00; x41] /\
  Py.decode_utf8 Py.Strict [xff] = Raise ValueError /\
  CAFDParser.param_value [xff] = [] /\
  value_as_specified [xff] = str_of "ff".
Proof.
  repeat split; try (vm_compute; reflexivity).
  vm_compute. discriminate.
Qed.

(** C8 as amended: for a record body whose raw bytes are valid UTF-8, the
    decoded value is the UTF-8 decoding of the raw bytes with the NUL
    characters stripped from both ends. *)
Theorem value_of_valid_utf8 (param_data : bytes) (s : pystr) :
  Py.decode_utf8 Py.Strict param_data = Ok s ->
  CAFDParser.param_value param_data = Py.strip 0 s.
Proof.
  intros H. unfold CAFDParser.param_value.
  rewrite (decode_ignore_of_strict _ _ H). reflexivity.
Qed.

Lemma value_of_valid_utf8_witness :
  CAFDParser.param_value [x00; x41; xc3; xa9; x00] = Py.strip 0 [0; 65; 233; 0].
Proof.
  apply (value_of_valid_utf8 [x00; x41; xc3; xa9; x00] [0; 65; 233; 0]).
  vm_compute. reflexivity.
Defined.

(* ------------------------------------------------------------------ *)
(** ** CAFDParser: well-formed and truncated blobs *)

Section CafdBlocks.

Import CAFDParser.

Lemma slice_app_exact {A} (pre a rest : list A) (n : nat) :
  List.length a = n ->
  slice (List.length pre) (List.length pre + n) (pre ++ a ++ rest) = a.
Proof.
  intros H. unfold slice.
  rewrite skipn_app, skipn_all, Nat.sub_diag. cbn [skipn app].
  replace (List.length pre + n - List.length pre)%nat with n by lia.
  rewrite firstn_app, H, Nat.sub_diag, firstn_O, app_nil_r.
  apply firstn_all2. lia.
Qed.

Lemma unpack_H_be_bytes (v : Z) :
  0 <= v < 65536 ->
  Struct.unpack1 Struct.H (Struct.be_bytes 2 v) = Ok v.
Proof.
  intros H. unfold Struct.unpack1. rewrite be_bytes_length. cbn [Struct.size Nat.eqb].
  rewrite be_int_be_bytes by lia.
  rewrite Z.mod_small; [reflexivity|]. change (256 ^ Z.of_nat 2) with 65536. lia.
Qed.

Lemma record_bytes_length (r : Z * bytes) :
  List.length (record_bytes r) = (4 + List.length (snd r))%nat.
Proof.
  unfold record_bytes. rewrite !length_app, !be_bytes_length. lia.
Qed.

(** One round of the loop on a complete block. *)
Lemma body_on_block (pre post : bytes) (r : Z * bytes) (params : dict) :
  fits_block r ->
  body (pre ++ record_bytes r ++ post) (List.length pre) params =
    Ok (Some (List.length (pre ++ record_bytes r), store params r)).
Proof.
  intros [Hid Hlen]. destruct r as [i d]. cbn [fst snd] in *.
  unfold body, record_bytes. cbn [fst snd].
  set (ib := Struct.be_bytes 2 i).
  set (lb := Struct.be_bytes 2 (Z.of_nat (List.length d))).
  assert (Li : List.length ib = 2%nat) by apply be_bytes_length.
  assert (Ll : List.length lb = 2%nat) by apply be_bytes_length.
  replace (pre ++ (ib ++ lb ++ d) ++ post)
    with (pre ++ ib ++ (lb ++ d ++ post))
    by (rewrite <- !app_assoc; reflexivity).
  rewrite (slice_app_exact pre ib _ 2 Li).
  subst ib. rewrite (unpack_H_be_bytes i Hid). cbn [rbind].
  fold (Struct.be_bytes 2 i). set (ib := Struct.be_bytes 2 i) in *.
  replace (slice (List.length pre + 2) (List.length pre + 4)
             (pre ++ ib ++ lb ++ d ++ post))
    with lb.
  2:{ replace (pre ++ ib ++ lb ++ d ++ post)
        with ((pre ++ ib) ++ lb ++ (d ++ post))
        by (rewrite <- !app_assoc; reflexivity).
      replace (List.length pre + 2)%nat with (List.length (pre ++ ib))
        by (rewrite length_app; lia).
      replace (List.length pre + 4)%nat with (List.length (pre ++ ib) + 2)%nat
        by (rewrite length_app; lia).
      symmetry. apply slice_app_exact. exact Ll. }
  subst lb. rewrite unpack_H_be_bytes by lia. cbn [rbind].
  set (lb := Struct.be_bytes 2 (Z.of_nat (List.length d))) in *.
  destruct (Z.gtb_spec (Z.of_nat (List.length pre + 4) + Z.of_nat (List.length d))
              (Z.of_nat (List.length (pre ++ ib ++ lb ++ d ++ post))))
    as [Hgt|_].
  { rewrite !length_app in Hgt. lia. }
  rewrite Nat2Z.id.
  replace (slice (List.length pre + 4) (List.length pre + 4 + List.length d)
             (pre ++ ib ++ lb ++ d ++ post))
    with d.
  2:{ replace (pre ++ ib ++ lb ++ d ++ post)
        with ((pre ++ ib ++ lb) ++ d ++ post)
        by (rewrite <- !app_assoc; reflexivity).
      replace (List.length pre + 4)%nat with (List.length (pre ++ ib ++ lb))
        by (rewrite !length_app; lia).
      symmetry. apply slice_app_exact. reflexivity. }
  unfold store, entry_of. cbn [fst snd].
  do 3 f_equal. rewrite !length_app. lia.
Qed.

Lemma loop_on_tail (fuel : nat) (pre tail : bytes) (params : dict) :
  halts_at tail ->
  (List.length tail <= fuel)%nat ->
  loop fuel (pre ++ tail) (List.length pre) params = params.
Proof.
  intros Hhalt Hfuel.
  assert (Hshort : (List.length tail <= 4)%nat ->
            loop fuel (pre ++ tail) (List.length pre) params = params).
  { intros Hs. destruct fuel as [|fuel]; [reflexivity|]. cbn [loop].
    destruct (Z.ltb_spec (Z.of_nat (List.length pre))
                (Z.of_nat (List.length (pre ++ tail)) - 4)) as [Hlt|_];
      [|reflexivity].
    rewrite length_app in Hlt. lia. }
  destruct Hhalt as [Hs | (i & l & rest & -> & Li & Ll & Hover)];
    [exact (Hshort Hs)|].
  destruct rest as [|b rest].
  { apply Hshort. rewrite !length_app, Li, Ll. cbn. lia. }
  rewrite !length_app in Hfuel. cbn [List.length] in Hfuel.
  destruct fuel as [|fuel]; [lia|].
  apply loop_stops_at_truncated_record.
  - rewrite !length_app. cbn [List.length]. lia.
  - replace (slice (List.length pre + 2) (List.length pre + 4)
               (pre ++ i ++ l ++ b :: rest))
      with l.
    + rewrite !length_app, Li, Ll. lia.
    + replace (pre ++ i ++ l ++ b :: rest)
        with ((pre ++ i) ++ l ++ (b :: rest))
        by (rewrite <- !app_assoc; reflexivity).
      replace (List.length pre + 2)%nat with (List.length (pre ++ i))
        by (rewrite length_app; lia).
      replace (List.length pre + 4)%nat with (List.length (pre ++ i) + 2)%nat
        by (rewrite length_app; lia).
      symmetry. apply slice_app_exact. exact Ll.
Qed.

Lemma loop_on_blocks (rs : list (Z * bytes)) :
  forall (fuel : nat) (pre tail : bytes) (params : dict),
    Forall fits_block rs ->
    halts_at tail ->
    (rs <> [] -> snd (last rs (0, [])) <> [] \/ tail <> []) ->
    (List.length (blocks rs ++ tail) <= fuel)%nat ->
    loop fuel (pre ++ blocks rs ++ tail) (List.length pre) params =
      fold_left store rs params.
Proof.
  induction rs as [|r rs IH]; intros fuel pre tail params Hfit Hhalt Hlast Hfuel.
  - cbn [blocks map List.concat app fold_left] in *.
    apply loop_on_tail; assumption.
  - inversion Hfit as [|? ? Hr Hrs]; subst.
    change (blocks (r :: rs)) with (record_bytes r ++ blocks rs) in *.
    rewrite <- app_assoc in *.
    rewrite length_app, record_bytes_length in Hfuel.
    destruct fuel as [|fuel]; [lia|].
    cbn [loop fold_left].
    assert (Hmore : (0 < List.length (snd r)
                         + List.length (blocks rs ++ tail))%nat).
    { destruct rs as [|r' rs'].
      - destruct (Hlast ltac:(discriminate)) as [H|H]; cbn [last] in *.
        + destruct (snd r); [congruence | cbn; lia].
        + cbn [blocks map List.concat app]. destruct tail; [congruence | cbn; lia].
      - change (blocks (r' :: rs')) with (record_bytes r' ++ blocks rs').
        rewrite !length_app, record_bytes_length. lia. }
    destruct (Z.ltb_spec (Z.of_nat (List.length pre))
                (Z.of_nat (List.length (pre ++ record_bytes r
                                          ++ blocks rs ++ tail)) - 4))
      as [_|Hge].
    2:{ rewrite !length_app, record_bytes_length in Hge.
        rewrite length_app in Hmore. lia. }
    rewrite (body_on_block pre (blocks rs ++ tail) r params Hr).
    replace (pre ++ record_bytes r ++ blocks rs ++ tail)
      with ((pre ++ record_bytes r) ++ blocks rs ++ tail)
      by (rewrite <- !app_assoc; reflexivity).
    apply IH; try assumption.
    + intros Hne. destruct rs as [|r' rs']; [congruence|].
      apply Hlast. discriminate.
    + lia.
Qed.

End CafdBlocks.

(** X1: a blob of at most 36 bytes (the 32-byte header and up to four
    more) yields no record: the loop needs at least five bytes after the
    header. *)
Theorem short_blob_has_no_record (data : bytes) :
  (List.length data <= 36)%nat ->
  CAFDParser._parse_cafd_binary data = [].
Proof.
  intros H. unfold CAFDParser._parse_cafd_binary.
  destruct (List.length data) as [|n] eqn:E; [reflexivity|].
  cbn [CAFDParser.loop]. rewrite E.
  destruct (Z.ltb_spec (Z.of_nat 32) (Z.of_nat (S n) - 4)); [lia|reflexivity].
Qed.

Lemma short_blob_has_no_record_witness :
  CAFDParser._parse_cafd_binary (repeat x00 32 ++ [x30; x00; x00; x01]) = [].
Proof.
  apply (short_blob_has_no_record (repeat x00 32 ++ [x30; x00; x00; x01])).
  simpl. lia.
Defined.

(** X2: decoding undoes the block layout.  A blob made of any 32 header
    bytes followed by complete blocks (identifier and length within 16
    bits), the last of which carries data, is decoded into one entry per
    block, stored in block order under the key "param_XXXX"; a later
    block with the same identifier replaces the earlier value. *)
Theorem parse_of_blocks (header : bytes) (rs : list (Z * bytes)) :
  List.length header = 32%nat ->
  Forall fits_block rs ->
  last_block_not_empty rs ->
  CAFDParser._parse_cafd_binary (header ++ blocks rs) = fold_left store rs [].
Proof.
  intros Hh Hfit Hlast. unfold CAFDParser._parse_cafd_binary.
  pose proof (loop_on_blocks rs (List.length (header ++ blocks rs))
                header [] [] Hfit) as H.
  rewrite app_nil_r, Hh in H. apply H.
  - left. cbn. lia.
  - intros Hne. destruct Hlast as [Hl|Hl]; [congruence | left; exact Hl].
  - rewrite !length_app. lia.
Qed.

Lemma parse_of_blocks_witness :
  CAFDParser._parse_cafd_binary
    (repeat xff 32 ++ blocks [(0x3000, []); (0x3001, [x61; x62])]) =
    fold_left store [(0x3000, []); (0x3001, [x61; x62])] [].
Proof.
  apply (parse_of_blocks (repeat xff 32) [(0x3000, []); (0x3001, [x61; x62])]).
  - reflexivity.
  - repeat constructor; cbn; lia.
  - right. cbn. discriminate.
Defined.

(** X3: truncation is not fatal.  When the complete blocks are followed
    by a block whose declared length exceeds the bytes left, the result
    is exactly what the complete blocks give; the truncated block adds
    nothing and raises nothing. *)
Theorem parse_of_truncated_blob
    (header : bytes) (rs : list (Z * bytes)) (i n : Z) (rest : bytes) :
  List.length header = 32%nat ->
  Forall fits_block rs ->
  0 <= i < 65536 ->
  Z.of_nat (List.length rest) < n < 65536 ->
  CAFDParser._parse_cafd_binary
    (header ++ blocks rs
       ++ Struct.be_bytes 2 i ++ Struct.be_bytes 2 n ++ rest)
    = fold_left store rs [].
Proof.
  intros Hh Hfit Hi Hn. unfold CAFDParser._parse_cafd_binary.
  rewrite <- Hh.
  apply loop_on_blocks.
  - exact Hfit.
  - right. exists (Struct.be_bytes 2 i), (Struct.be_bytes 2 n), rest.
    repeat split; try apply be_bytes_length.
    rewrite be_int_be_bytes by lia.
    rewrite Z.mod_small; [lia|]. change (256 ^ Z.of_nat 2) with 65536. lia.
  - intros _. right.
    pose proof (be_bytes_length 2 i) as L.
    destruct (Struct.be_bytes 2 i); [discriminate L | discriminate].
  - rewrite !length_app. lia.
Qed.

Lemma parse_of_truncated_blob_witness :
  CAFDParser._parse_cafd_binary
    (repeat x00 32 ++ blocks [(0x3000, [x41])]
       ++ Struct.be_bytes 2 0x3001 ++ Struct.be_bytes 2 9 ++ [x41])
    = fold_left store [(0x3000, [x41])] [].
Proof.
  apply (parse_of_truncated_blob (repeat x00 32) [(0x3000, [x41])]
           0x3001 9 [x41]).
  - reflexivity.
  - repeat constructor; cbn; lia.
  - lia.
  - simpl. lia.
Defined.

(* ------------------------------------------------------------------ *)
(** ** CAFDParser: what every returned entry is *)

Section CafdEntries.

Import CAFDParser.

Lemma unpack_H_range (bs : bytes) (v : Z) :
  Struct.unpack1 Struct.H bs = Ok v -> 0 <= v < 65536.
Proof.
  unfold Struct.unpack1.
  destruct (Nat.eqb_spec (List.length bs) (Struct.size Struct.H)) as [E|_];
    [|discriminate].
  intros [= <-]. pose proof (be_int_range bs) as R. rewrite E in R.
  exact R.
Qed.

(** A round that goes on has stored one block cut out of the data. *)
Lemma body_some_inv (data : bytes) (offset offset' : nat)
    (params params' : dict) :
  body data offset params = Ok (Some (offset', params')) ->
  exists (i : Z) (n : nat),
    0 <= i < 65536 /\ Z.of_nat n < 65536 /\
    (offset + 4 + n <= List.length data)%nat /\
    offset' = (offset + 4 + n)%nat /\
    List.length (slice (offset + 4) (offset + 4 + n) data) = n /\
    params' = store params (i, slice (offset + 4) (offset + 4 + n) data).
Proof.
  unfold body. intros H.
  destruct (Struct.unpack1 Struct.H (slice offset (offset + 2) data))
    as [param_id|e] eqn:Eid; [|discriminate H].
  destruct (Struct.unpack1 Struct.H (slice (offset + 2) (offset + 4) data))
    as [param_len|e] eqn:Elen; [|discriminate H].
  cbn [rbind] in H.
  apply unpack_H_range in Eid. apply unpack_H_range in Elen.
  destruct (Z.gtb_spec (Z.of_nat (offset + 4) + param_len)
              (Z.of_nat (List.length data))) as [|Hle]; [discriminate H|].
  injection H as <- <-.
  exists param_id, (Z.to_nat param_len).
  assert (Hsl : List.length (slice (offset + 4)
                               (offset + 4 + Z.to_nat param_len) data)
                = Z.to_nat param_len).
  { rewrite slice_length by lia. lia. }
  split; [exact Eid|]. split; [lia|]. split; [lia|].
  split; [reflexivity|]. split; [exact Hsl|].
  unfold store, entry_of. cbn [fst snd]. rewrite Hsl.
  rewrite Z2Nat.id by lia. reflexivity.
Qed.

Lemma pystr_eqb_eq (a b : pystr) : pystr_eqb a b = true -> a = b.
Proof.
  unfold pystr_eqb. destruct (list_eq_dec Z.eq_dec a b); [auto|discriminate].
Qed.

Lemma dict_set_In (k : pystr) (v : param) (d : dict) (e : pystr * param) :
  In e (dict_set k v d) -> e = (k, v) \/ In e d.
Proof.
  induction d as [|[k' v'] d IH]; cbn [dict_set].
  - intros [<-|[]]. left. reflexivity.
  - destruct (pystr_eqb k' k) eqn:E.
    + apply pystr_eqb_eq in E. subst k'.
      intros [<-|H]; [left; reflexivity | right; right; exact H].
    + intros [<-|H]; [right; left; reflexivity|].
      destruct (IH H) as [->|H']; [left; reflexivity | right; right; exact H'].
Qed.

(** The loop keeps every property of the dictionary that storing a block
    cut out of the data, at or after [offset + 4], keeps. *)
Lemma loop_invariant (P : dict -> Prop) (data : bytes) :
  (forall params (i : Z) (o n : nat),
      P params -> 0 <= i < 65536 -> Z.of_nat n < 65536 ->
      (36 <= o)%nat -> (o + n <= List.length data)%nat ->
      List.length (slice o (o + n) data) = n ->
      P (store params (i, slice o (o + n) data))) ->
  forall (fuel offset : nat) (params : dict),
    (32 <= offset)%nat -> P params -> P (loop fuel data offset params).
Proof.
  intros Hstep. induction fuel as [|fuel IH]; intros offset params Ho HP.
  - exact HP.
  - cbn [loop].
    destruct (Z.of_nat offset <? Z.of_nat (List.length data) - 4);
      [|exact HP].
    destruct (body data offset params) as [[[offset' params']|]|e] eqn:Hb;
      try exact HP.
    apply body_some_inv in Hb.
    destruct Hb as (i & n & Hi & Hn & Hend & -> & Hsl & ->).
    apply IH; [lia|].
    apply Hstep; try assumption; lia.
Qed.

End CafdEntries.




(* ------------------------------------------------------------------ *)
(** ** CAFDParser: the stored value has no NUL at either end *)

Section Stripped.

Import Py.

Lemma lstrip_hd (c : Z) (s : pystr) : hd_error (lstrip c s) <> Some c.
Proof.
  induction s as [|x s IH]; cbn [lstrip].
  - discriminate.
  - destruct (Z.eqb_spec x c) as [->|Hne]; [exact IH|].
    cbn. congruence.
Qed.

Lemma lstrip_suffix (c : Z) (s : pystr) : exists t, s = t ++ lstrip c s.
Proof.
  induction s as [|x s [t IH]]; cbn [lstrip].
  - exists []. reflexivity.
  - destruct (x =? c).
    + exists (x :: t). cbn. f_equal. exact IH.
    + exists []. reflexivity.
Qed.

Lemma rstrip_prefix (c : Z) (s : pystr) : exists t, s = rstrip c s ++ t.
Proof.
  unfold rstrip. destruct (lstrip_suffix c (rev s)) as [t E].
  exists (rev t). rewrite <- rev_app_distr, <- E, rev_involutive.
  reflexivity.
Qed.

Lemma rstrip_last (c : Z) (s : pystr) : hd_error (rev (rstrip c s)) <> Some c.
Proof.
  unfold rstrip. rewrite rev_involutive. apply lstrip_hd.
Qed.

Lemma rstrip_hd (c : Z) (s : pystr) :
  hd_error s <> Some c -> hd_error (rstrip c s) <> Some c.
Proof.
  intros H. destruct (rstrip_prefix c s) as [t E].
  destruct (rstrip c s) as [|x r]; [discriminate|].
  rewrite E in H. exact H.
Qed.

Lemma strip_ends (c : Z) (s : pystr) :
  hd_error (strip c s) <> Some c /\ hd_error (rev (strip c s)) <> Some c.
Proof.
  unfold strip. split.
  - apply rstrip_hd, lstrip_hd.
  - apply rstrip_last.
Qed.

End Stripped.

(** X6: whatever the raw bytes of a record, decoding with
    [errors='ignore'] succeeds, so the stored value is that decoding
    stripped of NULs and never the hexadecimal fallback; it neither begins
    nor ends with a NUL character. *)
Theorem stored_value_is_stripped (param_data : bytes) :
  exists s,
    Py.decode_utf8 Py.Ignore param_data = Ok s /\
    CAFDParser.param_value param_data = Py.strip 0 s /\
    hd_error (CAFDParser.param_value param_data) <> Some 0 /\
    hd_error (rev (CAFDParser.param_value param_data)) <> Some 0.
Proof.
  destruct (param_value_is_stripped_decoding param_data) as (s & E & V).
  exists s. split; [exact E|]. split; [exact V|].
  rewrite V. apply strip_ends.
Qed.

(* ------------------------------------------------------------------ *)
(** ** BMWSeedToKey: different seeds, different keys *)

Section SeedToKeyInjective.

Import BMWSeedToKey.

Lemma Z_of_byte_inj (a b : byte) : Z_of_byte a = Z_of_byte b -> a = b.
Proof.
  intros H. rewrite <- (byte_of_Z_of_byte a), <- (byte_of_Z_of_byte b), H.
  reflexivity.
Qed.

Lemma be_int_inj_4 (s t : bytes) :
  List.length s = 4%nat -> List.length t = 4%nat ->
  Struct.be_int s = Struct.be_int t -> s = t.
Proof.
  intros Ls Lt.
  destruct s as [|s0 [|s1 [|s2 [|s3 [|]]]]]; try discriminate Ls.
  destruct t as [|t0 [|t1 [|t2 [|t3 [|]]]]]; try discriminate Lt.
  unfold Struct.be_int. cbn [fold_left]. intros H.
  pose proof (Z_of_byte_range s0). pose proof (Z_of_byte_range s1).
  pose proof (Z_of_byte_range s2). pose proof (Z_of_byte_range s3).
  pose proof (Z_of_byte_range t0). pose proof (Z_of_byte_range t1).
  pose proof (Z_of_byte_range t2). pose proof (Z_of_byte_range t3).
  assert (Z_of_byte s0 = Z_of_byte t0) by lia.
  assert (Z_of_byte s1 = Z_of_byte t1) by lia.
  assert (Z_of_byte s2 = Z_of_byte t2) by lia.
  assert (Z_of_byte s3 = Z_of_byte t3) by lia.
  repeat f_equal; apply Z_of_byte_inj; assumption.
Qed.

Lemma be_bytes_4_inj (u v : Z) :
  0 <= u < 2 ^ 32 -> 0 <= v < 2 ^ 32 ->
  Struct.be_bytes 4 u = Struct.be_bytes 4 v -> u = v.
Proof.
  intros Hu Hv H. apply (f_equal Struct.be_int) in H.
  rewrite !be_int_be_bytes in H by lia.
  change (256 ^ Z.of_nat 4) with (2 ^ 32) in H.
  rewrite !Z.mod_small in H by lia. exact H.
Qed.

Lemma lxor_cancel_r (a b c : Z) : Z.lxor a c = Z.lxor b c -> a = b.
Proof.
  intros H. apply (f_equal (fun x => Z.lxor x c)) in H.
  rewrite !Z.lxor_assoc, Z.lxor_nilpotent, !Z.lxor_0_r in H. exact H.
Qed.

(** Multiplying by an odd constant and adding, modulo 2^32, loses
    nothing: [m * m' = 1 + j * 2^32]. *)
Lemma affine_mod_inj (m m' j a x y : Z) :
  m * m' = 1 + j * 2 ^ 32 ->
  0 <= x < 2 ^ 32 -> 0 <= y < 2 ^ 32 ->
  Z.land (x * m + a) 0xFFFFFFFF = Z.land (y * m + a) 0xFFFFFFFF ->
  x = y.
Proof.
  intros Hinv Hx Hy H.
  change 0xFFFFFFFF with (Z.ones 32) in H.
  rewrite !Z.land_ones in H by lia.
  assert (Hd : ((x - y) * m) mod 2 ^ 32 = 0).
  { replace ((x - y) * m) with ((x * m + a) - (y * m + a)) by ring.
    rewrite Zminus_mod, H, Z.sub_diag. reflexivity. }
  apply Z.mod_divide in Hd; [|lia]. destruct Hd as [k Hk].
  assert (Hxy : x - y = (k * m' - (x - y) * j) * 2 ^ 32).
  { transitivity ((x - y) * (m * m') - (x - y) * j * 2 ^ 32).
    - rewrite Hinv. ring.
    - replace ((x - y) * (m * m')) with ((x - y) * m * m') by ring.
      rewrite Hk. ring. }
  change (2 ^ 32) with 4294967296 in *. lia.
Qed.

Lemma level4_inj (s t : bytes) :
  List.length s = 4%nat -> List.length t = 4%nat ->
  calculate_key_level4 s = calculate_key_level4 t -> s = t.
Proof.
  intros Ls Lt. unfold calculate_key_level4.
  rewrite Ls, Lt, (unpack_seed _ Ls), (unpack_seed _ Lt).
  cbn [negb Nat.eqb rbind].
  assert (Hr : forall x,
             0 <= Z.lxor (Z.land ((Z.lxor x 0x4F2A) * 0xABCD + 0x5678)
                                 0xFFFFFFFF) 0xFF00FF00 < 2 ^ 32).
  { intros x. apply lxor_lt_pow2; [apply land_mask32_range | cbn; lia]. }
  rewrite !pack1_ok by apply Hr.
  intros H.
  apply (f_equal (fun r => match r with Ok k => k | Raise _ => [] end)) in H.
  cbv beta iota in H. change (Struct.size Struct.I) with 4%nat in H.
  apply be_bytes_4_inj in H; try apply Hr.
  apply lxor_cancel_r in H.
  pose proof (be_int_range s) as Rs. pose proof (be_int_range t) as Rt.
  rewrite Ls in Rs. rewrite Lt in Rt.
  change (256 ^ Z.of_nat 4) with (2 ^ 32) in *.
  apply (affine_mod_inj 0xABCD 481048837 4926) in H;
    [| reflexivity
     | apply lxor_lt_pow2; [exact Rs | cbn; lia]
     | apply lxor_lt_pow2; [exact Rt | cbn; lia]].
  apply lxor_cancel_r in H. apply be_int_inj_4; assumption.
Qed.

Lemma high_bits_clear (k n : Z) :
  0 <= k < 2 ^ 32 -> 32 <= n -> Z.testbit k n = false.
Proof.
  intros Hk Hn. destruct (Z.eq_dec k 0) as [->|Hne].
  - apply Z.testbit_0_l.
  - apply Z.bits_above_log2; [lia|].
    assert (Z.log2 k < 32) by (apply Z.log2_lt_pow2; lia). lia.
Qed.

(** The half-word swap of level 3 moves bit [j] to bit [j + 16] or
    [j - 16]. *)
Lemma swap_halves_bit (k j : Z) :
  0 <= k < 2 ^ 32 -> 0 <= j < 32 ->
  Z.testbit k j =
    Z.testbit (Z.land (Z.lor (Z.shiftl k 16) (Z.shiftr k 16)) 0xFFFFFFFF)
              (if j <? 16 then j + 16 else j - 16).
Proof.
  intros Hk Hj. change 0xFFFFFFFF with (Z.ones 32).
  rewrite Z.land_spec, Z.lor_spec.
  destruct (Z.ltb_spec j 16) as [Hlt|Hge].
  - rewrite Z.shiftl_spec, Z.shiftr_spec by lia.
    rewrite Z.ones_spec_low by lia.
    replace (j + 16 - 16) with j by lia.
    rewrite (high_bits_clear k (j + 16 + 16)) by lia.
    rewrite orb_false_r, andb_true_r. reflexivity.
  - rewrite Z.shiftl_spec, Z.shiftr_spec by lia.
    rewrite Z.ones_spec_low by lia.
    replace (j - 16 + 16) with j by lia.
    rewrite (Z.testbit_neg_r k (j - 16 - 16)) by lia.
    rewrite orb_false_l, andb_true_r. reflexivity.
Qed.

Lemma swap_halves_inj (k k' : Z) :
  0 <= k < 2 ^ 32 -> 0 <= k' < 2 ^ 32 ->
  Z.land (Z.lor (Z.shiftl k 16) (Z.shiftr k 16)) 0xFFFFFFFF =
    Z.land (Z.lor (Z.shiftl k' 16) (Z.shiftr k' 16)) 0xFFFFFFFF ->
  k = k'.
Proof.
  intros Hk Hk' H. apply Z.bits_inj'. intros n Hn.
  destruct (Z_lt_le_dec n 32) as [Hlt|Hge].
  - rewrite (swap_halves_bit k n), (swap_halves_bit k' n), H by lia.
    reflexivity.
  - rewrite !high_bits_clear by lia. reflexivity.
Qed.

Lemma level3_inj (s t : bytes) :
  List.length s = 4%nat -> List.length t = 4%nat ->
  calculate_key_level3 s = calculate_key_level3 t -> s = t.
Proof.
  intros Ls Lt. unfold calculate_key_level3.
  rewrite Ls, Lt, (unpack_seed _ Ls), (unpack_seed _ Lt).
  cbn [negb Nat.eqb rbind].
  rewrite !pack1_ok by apply land_mask32_range.
  intros H.
  apply (f_equal (fun r => match r with Ok k => k | Raise _ => [] end)) in H.
  cbv beta iota in H. change (Struct.size Struct.I) with 4%nat in H.
  apply be_bytes_4_inj in H; try apply land_mask32_range.
  apply swap_halves_inj in H; try apply land_mask32_range.
  pose proof (be_int_range s) as Rs. pose proof (be_int_range t) as Rt.
  rewrite Ls in Rs. rewrite Lt in Rt.
  change (256 ^ Z.of_nat 4) with (2 ^ 32) in *.
  apply (affine_mod_inj 0x8765 3225965165 26034) in H;
    [| reflexivity
     | apply lxor_lt_pow2; [exact Rs | cbn; lia]
     | apply lxor_lt_pow2; [exact Rt | cbn; lia]].
  apply lxor_cancel_r in H. apply be_int_inj_4; assumption.
Qed.

End SeedToKeyInjective.

(** X7: both seed-to-key transforms are one-to-one on 4-byte seeds: two
    different seeds never give the same level-3 key, nor the same level-4
    key. *)
Theorem seed_to_key_injective (s t : bytes) :
  List.length s = 4%nat -> List.length t = 4%nat ->
  s <> t ->
  BMWSeedToKey.calculate_key_level3 s <> BMWSeedToKey.calculate_key_level3 t /\
  BMWSeedToKey.calculate_key_level4 s <> BMWSeedToKey.calculate_key_level4 t.
Proof.
  intros Ls Lt Hne. split; intros H; apply Hne.
  - exact (level3_inj s t Ls Lt H).
  - exact (level4_inj s t Ls Lt H).
Qed.

Lemma seed_to_key_injective_witness :
  BMWSeedToKey.calculate_key_level3 [x12; x34; x56; x78]
    <> BMWSeedToKey.calculate_key_level3 [x12; x34; x56; x79] /\
  BMWSeedToKey.calculate_key_level4 [x12; x34; x56; x78]
    <> BMWSeedToKey.calculate_key_level4 [x12; x34; x56; x79].
Proof.
  apply (seed_to_key_injective [x12; x34; x56; x78] [x12; x34; x56; x79]);
    try reflexivity.
  discriminate.
Defined.

(* ------------------------------------------------------------------ *)
(** ** DoIPConnection: connecting, failures of the socket, bounds *)

Lemma not_connected_rejects
    (self : DoIPConnection.t) (w : world) (target_ecu : Z) (uds_data : bytes) :
  DoIPConnection.connected self = false ->
  DoIPConnection.send_diagnostic_request target_ecu uds_data (self, w) =
    (Ok None, (self, add_log w LogNotConnected)).
Proof.
  intros H.
  unfold DoIPConnection.send_diagnostic_request, bind, get.
  cbn [fst snd]. rewrite H. reflexivity.
Qed.

(** X8: a connection object as [__init__] makes it can never be used:
    [connect] returns [False] whatever the gateway does, and every
    diagnostic request made afterwards is rejected with [None]; the only
    socket call ever made is the TCP connect. *)
Theorem fresh_connection_rejects_requests
    (w : world) (target_ecu : Z) (uds_data : bytes) :
  fst (DoIPConnection.connect (DoIPConnection.init, w)) = Ok false /\
  fst (DoIPConnection.send_diagnostic_request target_ecu uds_data
         (snd (DoIPConnection.connect (DoIPConnection.init, w)))) = Ok None /\
  wire (snd (snd (DoIPConnection.send_diagnostic_request target_ecu uds_data
                    (snd (DoIPConnection.connect (DoIPConnection.init, w))))))
    = wire w ++ [SockConnect].
Proof.
  destruct (connect_never_succeeds DoIPConnection.init w) as (Hr & Hc & Hw).
  destruct (DoIPConnection.connect (DoIPConnection.init, w)) as [r [self' w']].
  cbn [fst snd] in *.
  rewrite (not_connected_rejects self' w' _ _ Hc).
  cbn [fst snd add_log wire]. auto.
Qed.

(** X9: on a connected session, a request whose target address does not
    fit 16 bits is not caught by the method: the packing is outside its
    [try], so struct.error reaches the caller; nothing is sent or
    logged. *)
Theorem target_out_of_range_raises
    (self : DoIPConnection.t) (w : world) (target_ecu : Z) (uds_data : bytes) :
  DoIPConnection.connected self = true ->
  ~ (0 <= target_ecu < 65536) ->
  DoIPConnection.send_diagnostic_request target_ecu uds_data (self, w) =
    (Raise StructError, (self, w)).
Proof.
  intros Hc Hr.
  unfold DoIPConnection.send_diagnostic_request, bind, get, lift.
  cbn [fst snd]. rewrite Hc. cbn [negb].
  assert (E : DoIPConnection.diagnostic_packet
                (DoIPConnection.source_address self) target_ecu uds_data
              = Raise StructError).
  { unfold DoIPConnection.diagnostic_packet.
    destruct (Struct.pack [Struct.B; Struct.B; Struct.H; Struct.I]
                [2; 253; 32769; 4 + Z.of_nat (List.length uds_data)])
      as [header|e] eqn:Eh.
    - cbn [rbind]. cbn [Struct.pack].
      destruct (Struct.in_range Struct.H (DoIPConnection.source_address self));
        [|reflexivity].
      destruct (Struct.in_range Struct.H target_ecu) eqn:Et; [|reflexivity].
      apply in_range_spec in Et.
      change (2 ^ (8 * Z.of_nat (Struct.size Struct.H))) with 65536 in Et.
      contradiction.
    - cbn [rbind]. cbn [Struct.pack] in Eh.
      change (Struct.in_range Struct.B 2) with true in Eh.
      change (Struct.in_range Struct.B 253) with true in Eh.
      change (Struct.in_range Struct.H 32769) with true in Eh.
      cbv iota in Eh.
      destruct (Struct.in_range Struct.I
                  (4 + Z.of_nat (List.length uds_data)));
        cbn [rbind] in Eh; congruence. }
  rewrite E. reflexivity.
Qed.

Lemma target_out_of_range_raises_witness :
  DoIPConnection.send_diagnostic_request 0x10000 [x22; xf1; x90]
    (active_session, peer_answering []) =
    (Raise StructError, (active_session, peer_answering [])).
Proof.
  apply (target_out_of_range_raises active_session (peer_answering [])
           0x10000 [x22; xf1; x90]).
  - reflexivity.
  - lia.
Defined.

(** X10: on a connected session, every failure of the socket during the
    exchange is caught: if the object has no socket, or [send] raises, or
    [recv] raises, the method returns [None] and does not raise. *)
Theorem socket_failure_gives_none
    (self : DoIPConnection.t) (w : world) (target_ecu : Z)
    (uds_data packet : bytes) :
  DoIPConnection.connected self = true ->
  DoIPConnection.diagnostic_packet (DoIPConnection.source_address self)
                                   target_ecu uds_data = Ok packet ->
  DoIPConnection.socket self = None
  \/ hd false (send_raises w) = true
  \/ hd None (recv_yields w) = None ->
  fst (DoIPConnection.send_diagnostic_request target_ecu uds_data (self, w))
    = Ok None.
Proof.
  intros Hc Hp Hfail.
  unfold DoIPConnection.send_diagnostic_request, try_except, bind, get, lift.
  cbv beta. cbn [fst snd]. rewrite Hc, Hp. cbn [negb].
  destruct (DoIPConnection.socket self) as [[]|] eqn:Hs.
  2:{ unfold DoIPConnection.self_socket, bind, get. cbn [fst snd].
      rewrite Hs. reflexivity. }
  rewrite (DoIP_self_socket_ok _ _ Hs). cbv beta iota.
  destruct (hd false (send_raises w)) eqn:Hsend.
  { rewrite (send_fails _ _ _ Hsend). reflexivity. }
  rewrite (send_ok _ _ _ Hsend). cbv beta iota.
  rewrite (DoIP_self_socket_ok _ _ Hs). cbv beta iota.
  destruct Hfail as [H|[H|H]]; try discriminate H.
  rewrite recv_fails by exact H. reflexivity.
Qed.

Lemma socket_failure_gives_none_witness :
  fst (DoIPConnection.send_diagnostic_request 0x12 [x22; xf1; x90]
         (active_session, mkWorld false [] [None] [] [])) = Ok None.
Proof.
  apply (socket_failure_gives_none active_session
           (mkWorld false [] [None] [] []) 0x12 [x22; xf1; x90]
           [x02; xfd; x80; x01; x00; x00; x00; x07; x0e; x00; x00; x12;
            x22; xf1; x90]).
  - reflexivity.
  - reflexivity.
  - right. right. reflexivity.
Defined.

(* ------------------------------------------------------------------ *)
(** ** DoIPConnection: what the derived requests return *)

(** A connected session that gets a well-formed diagnostic response
    carrying [uds]. *)
Lemma send_diagnostic_request_answer
    (self : DoIPConnection.t) (w : world) (target_ecu : Z)
    (uds_data packet response uds : bytes) (rest : list (option bytes)) :
  DoIPConnection.connected self = true ->
  DoIPConnection.socket self = Some TcpSocket ->
  DoIPConnection.diagnostic_packet (DoIPConnection.source_address self)
                                   target_ecu uds_data = Ok packet ->
  hd false (send_raises w) = false ->
  recv_yields w = Some response :: rest ->
  (12 <= List.length response <= 4096)%nat ->
  payload_type response = 0x8001 ->
  skipn 12 response = uds ->
  DoIPConnection.send_diagnostic_request target_ecu uds_data (self, w) =
    (Ok (Some uds), (self, exchanged w packet 4096)).
Proof.
  intros Hc Hs Hp Hsend Hrecv Hlen Hty Huds.
  rewrite (send_diagnostic_request_exchange _ _ _ _ _ _ _ Hc Hs Hp Hsend Hrecv).
  rewrite firstn_all2 by lia.
  rewrite parse_response_eq.
  destruct (Nat.ltb_spec (List.length response) 12) as [Hlt|_]; [lia|].
  rewrite Hty, Huds. reflexivity.
Qed.

Lemma slice_2_6_length (l : bytes) :
  List.length (slice 2 6 l) = Nat.min 4 (List.length l - 2).
Proof.
  unfold slice. rewrite length_firstn, length_skipn. reflexivity.
Qed.

(** X11: what [request_seed] returns.  When the ECU's UDS response is
    [uds], the result is [None] unless [uds] starts with 0x67; then it is
    the bytes 2 to 5 of [uds]: four bytes when the response has at least
    six, fewer (down to none) when it is shorter.  The length of the seed
    is not checked. *)
Theorem request_seed_result
    (self : DoIPConnection.t) (w : world) (ecu_address security_level : Z)
    (packet response uds : bytes) (rest : list (option bytes)) :
  DoIPConnection.connected self = true ->
  DoIPConnection.socket self = Some TcpSocket ->
  0 <= security_level < 256 ->
  DoIPConnection.diagnostic_packet (DoIPConnection.source_address self)
    ecu_address [x27; byte_of_Z security_level] = Ok packet ->
  hd false (send_raises w) = false ->
  recv_yields w = Some response :: rest ->
  (12 <= List.length response <= 4096)%nat ->
  payload_type response = 0x8001 ->
  skipn 12 response = uds ->
  fst (DoIPConnection.request_seed ecu_address security_level (self, w)) =
    Ok (match uds with
        | b0 :: _ =>
            if Z_of_byte b0 =? 0x67 then Some (slice 2 6 uds) else None
        | [] => None
        end) /\
  List.length (slice 2 6 uds) = Nat.min 4 (List.length uds - 2).
Proof.
  intros Hc Hs Hl Hp Hsend Hrecv Hlen Hty Huds.
  split; [|apply slice_2_6_length].
  unfold DoIPConnection.request_seed.
  rewrite (bytes_of_subfunction _ Hl).
  unfold bind at 1. unfold lift at 1. cbv beta iota.
  unfold bind at 1.
  rewrite (send_diagnostic_request_answer _ _ _ _ _ _ _ _
             Hc Hs Hp Hsend Hrecv Hlen Hty Huds).
  destruct uds as [|b0 uds']; [reflexivity|].
  destruct (Z_of_byte b0 =? 0x67); reflexivity.
Qed.

Lemma request_seed_result_witness :
  fst (DoIPConnection.request_seed 0x12 1
         (active_session, peer_answering (reply_frame [x67; x01; xaa]))) =
    Ok (match [x67; x01; xaa] with
        | b0 :: _ =>
            if Z_of_byte b0 =? 0x67 then Some (slice 2 6 [x67; x01; xaa])
            else None
        | [] => None
        end) /\
  List.length (slice 2 6 [x67; x01; xaa])
    = Nat.min 4 (List.length [x67; x01; xaa] - 2).
Proof.
  apply (request_seed_result active_session
           (peer_answering (reply_frame [x67; x01; xaa])) 0x12 1
           [x02; xfd; x80; x01; x00; x00; x00; x06; x0e; x00; x00; x12;
            x27; x01]
           (reply_frame [x67; x01; xaa]) [x67; x01; xaa] []);
    try reflexivity; simpl; lia.
Defined.

(** X12: what [read_parameter] returns.  When the ECU's UDS response is
    [uds], the result is the bytes of [uds] from offset 3 on if [uds]
    starts with 0x62, and [None] otherwise; the identifier echoed in bytes
    1 and 2 is not compared with the one requested. *)
Theorem read_parameter_result
    (self : DoIPConnection.t) (w : world) (ecu_address did : Z)
    (packet response uds : bytes) (rest : list (option bytes)) :
  DoIPConnection.connected self = true ->
  DoIPConnection.socket self = Some TcpSocket ->
  0 <= did < 65536 ->
  DoIPConnection.diagnostic_packet (DoIPConnection.source_address self)
    ecu_address (x22 :: Struct.be_bytes 2 did) = Ok packet ->
  hd false (send_raises w) = false ->
  recv_yields w = Some response :: rest ->
  (12 <= List.length response <= 4096)%nat ->
  payload_type response = 0x8001 ->
  skipn 12 response = uds ->
  DoIPConnection.read_parameter ecu_address did (self, w) =
    (Ok (match uds with
         | b0 :: _ => if Z_of_byte b0 =? 0x62 then Some (skipn 3 uds) else None
         | [] => None
         end),
     (self, exchanged w packet 4096)).
Proof.
  intros Hc Hs Hdid Hp Hsend Hrecv Hlen Hty Huds.
  unfold DoIPConnection.read_parameter, bind, lift.
  rewrite (pack_read_request _ Hdid).
  rewrite (send_diagnostic_request_answer _ _ _ _ _ _ _ _
             Hc Hs Hp Hsend Hrecv Hlen Hty Huds).
  destruct uds as [|b0 uds']; [reflexivity|].
  destruct (Z_of_byte b0 =? 0x62); reflexivity.
Qed.

Lemma read_parameter_result_witness :
  DoIPConnection.read_parameter 0x12 0xF190
    (active_session, peer_answering (reply_frame [x62; x00; x00; x41; x42])) =
    (Ok (match [x62; x00; x00; x41; x42] with
         | b0 :: _ =>
             if Z_of_byte b0 =? 0x62
             then Some (skipn 3 [x62; x00; x00; x41; x42]) else None
         | [] => None
         end),
     (active_session,
      exchanged (peer_answering (reply_frame [x62; x00; x00; x41; x42]))
        [x02; xfd; x80; x01; x00; x00; x00; x07; x0e; x00; x00; x12;
         x22; xf1; x90] 4096)).
Proof.
  apply (read_parameter_result active_session
           (peer_answering (reply_frame [x62; x00; x00; x41; x42]))
           0x12 0xF190
           [x02; xfd; x80; x01; x00; x00; x00; x07; x0e; x00; x00; x12;
            x22; xf1; x90]
           (reply_frame [x62; x00; x00; x41; x42])
           [x62; x00; x00; x41; x42] []);
    try reflexivity; simpl; lia.
Defined.

Lemma pack_write_request (did : Z) :
  0 <= did < 65536 ->
  Struct.pack [Struct.B; Struct.H] [0x2E; did] = Ok (x2e :: Struct.be_bytes 2 did).
Proof.
  intros H. rewrite pack_cons by reflexivity.
  rewrite pack1_ok
    by (change (2 ^ (8 * Z.of_nat (Struct.size Struct.H))) with 65536; lia).
  reflexivity.
Qed.

(** X13: [write_parameter] wraps the UDS bytes 0x2E, the identifier
    (big-endian, 2 bytes) and the data.  Its result is truthy exactly when
    the UDS response starts with 0x6E: an empty response gives the empty
    bytes back, any other first byte gives [False]. *)
Theorem write_parameter_result
    (self : DoIPConnection.t) (w : world) (ecu_address did : Z)
    (data packet response uds : bytes) (rest : list (option bytes)) :
  DoIPConnection.connected self = true ->
  DoIPConnection.socket self = Some TcpSocket ->
  0 <= did < 65536 ->
  DoIPConnection.diagnostic_packet (DoIPConnection.source_address self)
    ecu_address ((x2e :: Struct.be_bytes 2 did) ++ data) = Ok packet ->
  hd false (send_raises w) = false ->
  recv_yields w = Some response :: rest ->
  (12 <= List.length response <= 4096)%nat ->
  payload_type response = 0x8001 ->
  skipn 12 response = uds ->
  DoIPConnection.write_parameter ecu_address did data (self, w) =
    (Ok (match uds with
         | b0 :: _ => DoIPConnection.AndBool (Z_of_byte b0 =? 0x6E)
         | [] => DoIPConnection.AndEmpty
         end),
     (self, exchanged w packet 4096)).
Proof.
  intros Hc Hs Hdid Hp Hsend Hrecv Hlen Hty Huds.
  unfold DoIPConnection.write_parameter, bind, lift.
  rewrite (pack_write_request _ Hdid).
  rewrite (send_diagnostic_request_answer _ _ _ _ _ _ _ _
             Hc Hs Hp Hsend Hrecv Hlen Hty Huds).
  destruct uds as [|b0 uds']; reflexivity.
Qed.

Lemma write_parameter_result_witness :
  DoIPConnection.write_parameter 0x12 0x3000 [x61]
    (active_session, peer_answering (reply_frame [x6e; x30; x00])) =
    (Ok (match [x6e; x30; x00] with
         | b0 :: _ => DoIPConnection.AndBool (Z_of_byte b0 =? 0x6E)
         | [] => DoIPConnection.AndEmpty
         end),
     (active_session,
      exchanged (peer_answering (reply_frame [x6e; x30; x00]))
        [x02; xfd; x80; x01; x00; x00; x00; x08; x0e; x00; x00; x12;
         x2e; x30; x00; x61] 4096)).
Proof.
  apply (write_parameter_result active_session
           (peer_answering (reply_frame [x6e; x30; x00])) 0x12 0x3000 [x61]
           [x02; xfd; x80; x01; x00; x00; x00; x08; x0e; x00; x00; x12;
            x2e; x30; x00; x61]
           (reply_frame [x6e; x30; x00]) [x6e; x30; x00] []);
    try reflexivity; simpl; lia.
Defined.

(** X14: before routing activation [write_parameter] answers [None], not
    [False], and makes no socket call. *)
Theorem write_parameter_before_activation
    (self : DoIPConnection.t) (w : world) (ecu_address did : Z) (data : bytes) :
  DoIPConnection.connected self = false ->
  0 <= did < 65536 ->
  DoIPConnection.write_parameter ecu_address did data (self, w) =
    (Ok DoIPConnection.AndNone, (self, add_log w LogNotConnected)).
Proof.
  intros Hc Hdid.
  unfold DoIPConnection.write_parameter, bind, lift.
  rewrite (pack_write_request _ Hdid).
  rewrite (not_connected_rejects _ _ _ _ Hc). reflexivity.
Qed.

Lemma write_parameter_before_activation_witness :
  DoIPConnection.write_parameter 0x12 0x3000 [x61]
    (DoIPConnection.init, peer_answering []) =
    (Ok DoIPConnection.AndNone,
     (DoIPConnection.init, add_log (peer_answering []) LogNotConnected)).
Proof.
  apply (write_parameter_before_activation DoIPConnection.init
           (peer_answering []) 0x12 0x3000 [x61]).
  - reflexivity.
  - lia.
Defined.

(* ------------------------------------------------------------------ *)
(** ** DoIPConnection: reading the VIN, disconnecting *)

Lemma on_self_eq {S A} (m : M S A) (s : S) (a : annex) (w : world) :
  on_self m ((s, a), w) =
    (fst (m (s, w)), ((fst (snd (m (s, w))), a), snd (snd (m (s, w))))).
Proof. reflexivity. Qed.

Section TextLemmas.

Import Text.

Lemma decode_ascii_ignore_length (b : bytes) :
  (List.length (decode_ascii_ignore b) <= List.length b)%nat.
Proof.
  induction b as [|x b IH]; cbn [decode_ascii_ignore List.length]; [lia|].
  destruct (Z_of_byte x <? 0x80); cbn [List.length]; lia.
Qed.

Lemma decode_ascii_ignore_range (b : bytes) :
  Forall (fun c => 0 <= c < 128) (decode_ascii_ignore b).
Proof.
  induction b as [|x b IH]; cbn [decode_ascii_ignore]; [constructor|].
  destruct (Z.ltb_spec (Z_of_byte x) 0x80); [|exact IH].
  constructor; [|exact IH]. pose proof (Z_of_byte_range x). lia.
Qed.

Lemma text_lstrip_suffix (s : pystr) : exists t, s = t ++ lstrip s.
Proof.
  induction s as [|x s [t IH]]; cbn [lstrip].
  - exists []. reflexivity.
  - destruct (isspace x).
    + exists (x :: t). cbn. f_equal. exact IH.
    + exists []. reflexivity.
Qed.

Lemma text_lstrip_hd (s : pystr) (c : Z) :
  hd_error (lstrip s) = Some c -> isspace c = false.
Proof.
  induction s as [|x s IH]; cbn [lstrip].
  - discriminate.
  - destruct (isspace x) eqn:E; [exact IH|].
    cbn. intros [= <-]. exact E.
Qed.

(** What [strip()] leaves is a middle part of the string. *)
Lemma text_strip_middle (s : pystr) :
  exists t u, s = t ++ strip s ++ u.
Proof.
  unfold strip, rstrip.
  destruct (text_lstrip_suffix s) as [t Et].
  destruct (text_lstrip_suffix (rev (lstrip s))) as [u Eu].
  exists t, (rev u).
  rewrite <- rev_app_distr, <- Eu, rev_involutive. exact Et.
Qed.

Lemma text_strip_ends (s : pystr) (c : Z) :
  hd_error (strip s) = Some c \/ hd_error (rev (strip s)) = Some c ->
  isspace c = false.
Proof.
  unfold strip, rstrip. intros [H|H].
  - destruct (text_lstrip_suffix (rev (lstrip s))) as [u Eu].
    apply (f_equal (@rev Z)) in Eu. rewrite rev_involutive, rev_app_distr in Eu.
    destruct (rev (lstrip (rev (lstrip s)))) as [|x r]; [discriminate H|].
    apply (text_lstrip_hd s). rewrite Eu. exact H.
  - rewrite rev_involutive in H. exact (text_lstrip_hd _ _ H).
Qed.

End TextLemmas.

(** X15: what [read_vin] returns on a connected session.  When the ECU's
    UDS response is [uds], a VIN is returned only if [uds] has at least
    20 bytes and starts with 0x62; it is then the ASCII characters among
    bytes 3 to 19, with white space stripped at both ends.  Any other
    response gives [None]. *)
Theorem read_vin_result
    (self : DoIPConnection.t) (a : annex) (w : world)
    (packet response uds : bytes) (rest : list (option bytes)) :
  DoIPConnection.connected self = true ->
  DoIPConnection.socket self = Some TcpSocket ->
  DoIPConnection.diagnostic_packet (DoIPConnection.source_address self)
    0x0012 [x22; xf1; x90] = Ok packet ->
  hd false (send_raises w) = false ->
  recv_yields w = Some response :: rest ->
  (12 <= List.length response <= 4096)%nat ->
  payload_type response = 0x8001 ->
  skipn 12 response = uds ->
  fst (DoIPConnection.read_vin ((self, a), w)) =
    Ok (match uds with
        | b0 :: _ =>
            if (List.length uds <? 20)%nat then None
            else if Z_of_byte b0 =? 0x62
                 then Some (Text.strip
                              (Text.decode_ascii_ignore (slice 3 20 uds)))
                 else None
        | [] => None
        end).
Proof.
  intros Hc Hs Hp Hsend Hrecv Hlen Hty Huds.
  unfold DoIPConnection.read_vin.
  change (bytes_of_ints [34; 241; 144]) with (@Ok bytes [x22; xf1; x90]).
  unfold bind at 1. unfold lift at 1. cbv beta iota.
  unfold bind at 1. rewrite on_self_eq.
  rewrite (send_diagnostic_request_answer _ _ _ _ _ _ _ _
             Hc Hs Hp Hsend Hrecv Hlen Hty Huds).
  cbn [fst snd].
  destruct uds as [|b0 uds']; [reflexivity|].
  destruct (List.length (b0 :: uds') <? 20)%nat; [reflexivity|].
  destruct (Z_of_byte b0 =? 0x62); [reflexivity|].
  destruct (Z_of_byte b0 =? 0x7F); [|reflexivity].
  destruct uds' as [|b1 [|b2 uds'']]; reflexivity.
Qed.

Lemma read_vin_result_witness :
  fst (DoIPConnection.read_vin
         ((active_session, mkAnnex [] 0),
          peer_answering
            (reply_frame ([x62; xf1; x90]
                            ++ list_byte_of_string "WBA3A5C5XFP123456")))) =
    Ok (Some (str_of "WBA3A5C5XFP123456")).
Proof.
  apply (read_vin_result active_session (mkAnnex [] 0)
           (peer_answering
              (reply_frame ([x62; xf1; x90]
                              ++ list_byte_of_string "WBA3A5C5XFP123456")))
           [x02; xfd; x80; x01; x00; x00; x00; x07; x0e; x00; x00; x12;
            x22; xf1; x90]
           (reply_frame ([x62; xf1; x90]
                           ++ list_byte_of_string "WBA3A5C5XFP123456"))
           ([x62; xf1; x90] ++ list_byte_of_string "WBA3A5C5XFP123456") []);
    try reflexivity; simpl; lia.
Defined.

(** X16: whatever the session and the peer do, a VIN returned by
    [read_vin] has at most 17 characters, all of them ASCII, and neither
    begins nor ends with white space. *)
Theorem returned_vin_shape
    (st : DoIPConnection.t * annex * world) (vin : pystr) :
  fst (DoIPConnection.read_vin st) = Ok (Some vin) ->
  (List.length vin <= 17)%nat /\
  Forall (fun c => 0 <= c < 128) vin /\
  (forall c, hd_error vin = Some c \/ hd_error (rev vin) = Some c ->
             Text.isspace c = false).
Proof.
  unfold DoIPConnection.read_vin.
  change (bytes_of_ints [34; 241; 144]) with (@Ok bytes [x22; xf1; x90]).
  unfold bind at 1. unfold lift at 1. cbv beta iota.
  unfold bind at 1.
  destruct (on_self (DoIPConnection.send_diagnostic_request 18
                       [x22; xf1; x90]) st) as [[response|e] st'];
    [|discriminate].
  destruct response as [[|b0 resp]|]; try discriminate.
  destruct (List.length (b0 :: resp) <? 20)%nat; [discriminate|].
  destruct (Z_of_byte b0 =? 0x62).
  - unfold bind, note, ret. cbn [fst snd]. intros [= <-].
    set (raw := slice 3 20 (b0 :: resp)).
    assert (Hraw : (List.length raw <= 17)%nat).
    { subst raw. unfold slice. rewrite length_firstn. lia. }
    destruct (text_strip_middle (Text.decode_ascii_ignore raw)) as (t & u & E).
    pose proof (decode_ascii_ignore_length raw) as Hl.
    pose proof (decode_ascii_ignore_range raw) as Hr.
    rewrite E in Hl, Hr. rewrite !length_app in Hl.
    apply Forall_app in Hr. destruct Hr as [_ Hr].
    apply Forall_app in Hr. destruct Hr as [Hr _].
    split; [lia|]. split; [exact Hr|].
    intros c. apply text_strip_ends.
  - unfold bind at 1.
    destruct (Z_of_byte b0 =? 0x7F).
    + destruct resp as [|b1 [|b2 resp']]; discriminate.
    + discriminate.
Qed.

Lemma returned_vin_shape_witness :
  (List.length (str_of "WBA3A5C5XFP123456") <= 17)%nat /\
  Forall (fun c => 0 <= c < 128) (str_of "WBA3A5C5XFP123456") /\
  (forall c,
      hd_error (str_of "WBA3A5C5XFP123456") = Some c
      \/ hd_error (rev (str_of "WBA3A5C5XFP123456")) = Some c ->
      Text.isspace c = false).
Proof.
  apply (returned_vin_shape
           ((active_session, mkAnnex [] 0),
            peer_answering
              (reply_frame ([x62; xf1; x90]
                              ++ list_byte_of_string "WBA3A5C5XFP123456")))).
  reflexivity.
Defined.



(* ------------------------------------------------------------------ *)
(** ** ENETConnection: connecting; the unlock sequence again *)

(** X18: [ENETConnection.connect] returns [True] exactly when the TCP
    connect does not raise, and leaves [connected] equal to the value it
    returns; it never raises, and the TCP connect is its only socket
    call. *)
Theorem enet_connect_sets_flag
    (self : ENETConnection.t) (a : annex) (w : world) :
  fst (ENETConnection.connect ((self, a), w))
    = Ok (negb (connect_raises w)) /\
  ENETConnection.connected
    (fst (fst (snd (ENETConnection.connect ((self, a), w)))))
    = negb (connect_raises w) /\
  ENETConnection.socket
    (fst (fst (snd (ENETConnection.connect ((self, a), w)))))
    = Some TcpSocket /\
  wire (snd (snd (ENETConnection.connect ((self, a), w))))
    = wire w ++ [SockConnect].
Proof.
  unfold ENETConnection.connect, try_except, bind, get_self, put_self,
    Socket.connect, note, ret.
  cbn [fst snd].
  destruct (connect_raises w); cbn; auto.
Qed.

Lemma send_uds_request_not_connected
    (self : ENETConnection.t) (w : world) (service_id : Z) (data : bytes) :
  ENETConnection.connected self = false ->
  ENETConnection.send_uds_request service_id data (self, w) =
    (Raise PlainException, (self, w)).
Proof.
  intros H. unfold ENETConnection.send_uds_request, bind, get.
  cbn [fst snd]. rewrite H. reflexivity.
Qed.

(** X19: on a session that is not connected, [unlock_ecu] returns [False]
    at once: the exception of the first request is caught, nothing is
    sent, only the failure is logged. *)
Theorem unlock_needs_connection
    (self : ENETConnection.t) (w : world) (ecu_address security_level : Z) :
  ENETConnection.connected self = false ->
  G01ECUManager.unlock_ecu ecu_address security_level (self, w) =
    (Ok false, (self, add_log w (LogG01UnlockFailed PlainException))).
Proof.
  intros H. unfold G01ECUManager.unlock_ecu, try_except.
  change (Struct.pack [Struct.B] [3]) with (@Ok bytes [x03]).
  unfold bind at 1. unfold lift at 1. cbv beta iota.
  unfold bind at 1.
  rewrite (send_uds_request_not_connected _ _ _ _ H). reflexivity.
Qed.

Lemma unlock_needs_connection_witness :
  G01ECUManager.unlock_ecu 0x12 3
    (ENETConnection.mk None false, peer_answering_all [[x50; x03]]) =
    (Ok false,
     (ENETConnection.mk None false,
      add_log (peer_answering_all [[x50; x03]])
              (LogG01UnlockFailed PlainException))).
Proof.
  apply (unlock_needs_connection (ENETConnection.mk None false)
           (peer_answering_all [[x50; x03]]) 0x12 3).
  reflexivity.
Defined.

Lemma try_except_total {S A} (body : M S A) (handler : exn -> M S A) :
  (forall e st, exists a, fst (handler e st) = Ok a) ->
  forall st, exists a, fst (try_except body handler st) = Ok a.
Proof.
  intros Hh st. unfold try_except.
  destruct (body st) as [[a|e] st']; [exists a; reflexivity|apply Hh].
Qed.

Lemma unlock_never_raises
    (st : ENETConnection.t * world) (ecu_address security_level : Z) :
  exists b, fst (G01ECUManager.unlock_ecu ecu_address security_level st) = Ok b.
Proof.
  unfold G01ECUManager.unlock_ecu. apply try_except_total.
  intros e st'. exists false. reflexivity.
Qed.

(** X20: [unlock_ecu] never raises, and it reports success only for the
    security levels 3 and 4: for any other level the result is [False],
    whatever the ECU answers. *)
Theorem unlock_only_supported_levels
    (st : ENETConnection.t * world) (ecu_address security_level : Z) :
  (exists b,
      fst (G01ECUManager.unlock_ecu ecu_address security_level st) = Ok b) /\
  (fst (G01ECUManager.unlock_ecu ecu_address security_level st) = Ok true ->
   security_level = 3 \/ security_level = 4).
Proof.
  split; [apply unlock_never_raises|].
  destruct (Z.eqb_spec security_level 3) as [|H3]; [auto|].
  destruct (Z.eqb_spec security_level 4) as [|H4]; [auto|].
  intros H. exfalso. revert H.
  unfold G01ECUManager.unlock_ecu, try_except.
  apply Z.eqb_neq in H3, H4. rewrite H3, H4.
  unfold bind at 1.
  destruct (lift (Struct.pack [Struct.B] [3]) st) as [[session|e] s0];
    [|discriminate].
  unfold bind at 1.
  destruct (ENETConnection.send_uds_request 16 session s0) as [[r0|e] s1];
    [|discriminate].
  unfold bind at 1.
  destruct (lift (Struct.pack [Struct.B] [security_level * 2 - 1]) s1)
    as [[sub|e] s2]; [|discriminate].
  unfold bind at 1.
  destruct (ENETConnection.send_uds_request 39 sub s2) as [[r1|e] s3];
    [|discriminate].
  unfold bind at 1.
  destruct (lift (index r1 0) s3) as [[b|e] s4]; [|discriminate].
  destruct (negb (b =? 103)); [discriminate|].
  unfold bind at 1. unfold logger at 1. cbv beta iota.
  unfold bind at 1. unfold raise at 1. discriminate.
Qed.

Lemma unlock_only_supported_levels_witness :
  fst (G01ECUManager.unlock_ecu 0x12 3
         (enet_session,
          peer_answering_all
            [[x50; x03]; [x67; x05; xaa; xbb; xcc; xdd]; [x67; x06]]))
    = Ok true /\ (3 = 3 \/ 3 = 4).
Proof.
  split; [reflexivity|].
  apply (proj2 (unlock_only_supported_levels
                  (enet_session,
                   peer_answering_all
                     [[x50; x03]; [x67; x05; xaa; xbb; xcc; xdd]; [x67; x06]])
                  0x12 3)).
  reflexivity.
Defined.

(** The outcome of [unlock_ecu] at a supported level when the session
    and the seed request are answered and the seed has 4 bytes. *)
Lemma unlock_outcome
    (self : ENETConnection.t) (w : world) (ecu_address security_level : Z)
    (r0 tail kt : bytes) (sub s0 s1 s2 s3 k : byte)
    (rest : list (option bytes)) :
  ENETConnection.connected self = true ->
  ENETConnection.socket self = Some TcpSocket ->
  security_level = 3 \/ security_level = 4 ->
  send_raises w = [] ->
  recv_yields w =
    Some r0 :: Some (x67 :: sub :: s0 :: s1 :: s2 :: s3 :: tail)
      :: Some (k :: kt) :: rest ->
  (List.length tail + 6 <= 4096)%nat ->
  (List.length kt + 1 <= 4096)%nat ->
  exists key,
    key_for security_level [s0; s1; s2; s3] = Ok key /\
    List.length key = 4%nat /\
    G01ECUManager.unlock_ecu ecu_address security_level (self, w) =
      (Ok (Z_of_byte k =? 0x67),
       (self,
        add_log (after_unlock w security_level [s0; s1; s2; s3] key)
          (if Z_of_byte k =? 0x67 then LogG01Unlocked
           else LogG01KeyRejected (k :: kt)))).
Proof.
  intros Hc Hs Hlevel Hsend Hrecv Hlen Hklen.
  assert (Hkey : exists key,
             key_for security_level [s0; s1; s2; s3] = Ok key /\
             List.length key = 4%nat).
  { unfold key_for. destruct Hlevel as [-> | ->]; cbn [Z.eqb Pos.eqb].
    - apply level3_on_4_bytes. reflexivity.
    - apply level4_on_4_bytes. reflexivity. }
  destruct Hkey as (key & Hkey & Hkl).
  exists key. split; [exact Hkey|]. split; [exact Hkl|].
  set (r1 := x67 :: sub :: s0 :: s1 :: s2 :: s3 :: tail) in *.
  set (r2 := k :: kt) in *.
  assert (Hr1 : firstn 4096 r1 = r1)
    by (apply firstn_all2; subst r1; cbn [List.length]; lia).
  assert (Hr2 : firstn 4096 r2 = r2)
    by (apply firstn_all2; subst r2; cbn [List.length]; lia).
  unfold after_unlock.
  set (w1 := exchanged w [x10; x03] 4096).
  set (w2 := exchanged w1 [x27; byte_of_Z (2 * security_level - 1)] 4096).
  set (w2' := add_log (add_log w2 (LogG01Seed [s0; s1; s2; s3]))
                      (LogG01Key key)).
  set (w3 := exchanged w2' (x27 :: byte_of_Z (2 * security_level) :: key) 4096).
  assert (E1 : ENETConnection.send_uds_request 0x10 [x03] (self, w) =
               (Ok (firstn 4096 r0), (self, w1))).
  { eapply (send_uds_request_exchange self w 0x10 [x03] r0 _ Hc Hs);
      [lia | rewrite Hsend; reflexivity | exact Hrecv]. }
  assert (E2 : ENETConnection.send_uds_request 0x27
                 [byte_of_Z (2 * security_level - 1)] (self, w1) =
               (Ok r1, (self, w2))).
  { rewrite <- Hr1 at 1.
    eapply (send_uds_request_exchange self w1 0x27 _ r1 _ Hc Hs);
      [lia | subst w1; cbn; rewrite Hsend; reflexivity
           | subst w1; cbn; rewrite Hrecv; reflexivity]. }
  assert (E3 : ENETConnection.send_uds_request 0x27
                 (byte_of_Z (2 * security_level) :: key) (self, w2') =
               (Ok r2, (self, w3))).
  { rewrite <- Hr2 at 1.
    apply (send_uds_request_exchange self w2' 0x27 _ r2 rest Hc Hs);
      [lia | subst w2' w2 w1; cbn; rewrite Hsend; reflexivity
           | subst w2' w2 w1; cbn; rewrite Hrecv; reflexivity]. }
  assert (Hsub : Struct.pack [Struct.B] [security_level * 2 - 1] =
                 Ok [byte_of_Z (2 * security_level - 1)])
    by (destruct Hlevel as [-> | ->]; reflexivity).
  assert (Hsub2 : Struct.pack [Struct.B] [security_level * 2] =
                  Ok [byte_of_Z (2 * security_level)])
    by (destruct Hlevel as [-> | ->]; reflexivity).
  assert (Hk : (if security_level =? 3
                then lift (BMWSeedToKey.calculate_key_level3 [s0; s1; s2; s3])
                else if security_level =? 4
                     then lift (BMWSeedToKey.calculate_key_level4
                                  [s0; s1; s2; s3])
                     else raise ValueError)
               = (lift (Ok key) : M ENETConnection.t bytes)).
  { unfold key_for in Hkey.
    destruct Hlevel as [-> | ->]; cbn [Z.eqb Pos.eqb] in *; rewrite Hkey;
      reflexivity. }
  unfold G01ECUManager.unlock_ecu, try_except.
  change (Struct.pack [Struct.B] [3]) with (@Ok bytes [x03]).
  rewrite Hsub, Hsub2.
  unfold bind at 1. unfold lift at 1. cbv beta iota.
  unfold bind at 1. rewrite E1. cbv beta iota.
  unfold bind at 1. unfold lift at 1. cbv beta iota.
  unfold bind at 1. rewrite E2. cbv beta iota.
  unfold bind at 1. unfold lift at 1.
  change (index r1 0) with (@Ok Z 103). cbv beta iota.
  change (negb (103 =? 103)) with false. cbv iota.
  change (slice 2 6 r1) with [s0; s1; s2; s3].
  rewrite Hk.
  unfold bind at 1. unfold logger at 1. cbn [fst snd]. cbv beta iota.
  unfold bind at 1. unfold lift at 1. cbv beta iota.
  unfold bind at 1. unfold logger at 1. cbn [fst snd]. cbv beta iota.
  unfold bind at 1. unfold lift at 1. cbv beta iota.
  unfold bind at 1. cbn [app].
  fold (add_log w2 (LogG01Seed [s0; s1; s2; s3])).
  fold (add_log (add_log w2 (LogG01Seed [s0; s1; s2; s3])) (LogG01Key key)).
  fold w2'. rewrite E3. cbv beta iota.
  unfold bind at 1. unfold lift at 1.
  subst r2. unfold index. cbn [nth_error].
  destruct (Z_of_byte k =? 103); reflexivity.
Qed.

(** X21: at level 3 or 4, once the session start is answered and the
    seed response is positive with a 4-byte seed, [unlock_ecu] returns
    [True] exactly when the response to the key message starts with 0x67;
    three requests have then gone out, each followed by one [recv], and
    the seed and the key are in the log. *)
Theorem unlock_result
    (self : ENETConnection.t) (w : world) (ecu_address security_level : Z)
    (r0 tail kt : bytes) (sub s0 s1 s2 s3 k : byte)
    (rest : list (option bytes)) :
  ENETConnection.connected self = true ->
  ENETConnection.socket self = Some TcpSocket ->
  security_level = 3 \/ security_level = 4 ->
  send_raises w = [] ->
  recv_yields w =
    Some r0 :: Some (x67 :: sub :: s0 :: s1 :: s2 :: s3 :: tail)
      :: Some (k :: kt) :: rest ->
  (List.length tail + 6 <= 4096)%nat ->
  (List.length kt + 1 <= 4096)%nat ->
  exists key,
    key_for security_level [s0; s1; s2; s3] = Ok key /\
    G01ECUManager.unlock_ecu ecu_address security_level (self, w) =
      (Ok (Z_of_byte k =? 0x67),
       (self,
        add_log (after_unlock w security_level [s0; s1; s2; s3] key)
          (if Z_of_byte k =? 0x67 then LogG01Unlocked
           else LogG01KeyRejected (k :: kt)))).
Proof.
  intros Hc Hs Hlevel Hsend Hrecv Hlen Hklen.
  destruct (unlock_outcome self w ecu_address security_level r0 tail kt
              sub s0 s1 s2 s3 k rest Hc Hs Hlevel Hsend Hrecv Hlen Hklen)
    as (key & Hkey & _ & E).
  exists key. split; assumption.
Qed.

Lemma unlock_result_witness :
  exists key,
    key_for 4 [xaa; xbb; xcc; xdd] = Ok key /\
    G01ECUManager.unlock_ecu 0x12 4
      (enet_session,
       peer_answering_all
         [[x50; x03]; [x67; x07; xaa; xbb; xcc; xdd]; [x7f; x27; x35]]) =
      (Ok (Z_of_byte x7f =? 0x67),
       (enet_session,
        add_log
          (after_unlock
             (peer_answering_all
                [[x50; x03]; [x67; x07; xaa; xbb; xcc; xdd]; [x7f; x27; x35]])
             4 [xaa; xbb; xcc; xdd] key)
          (if Z_of_byte x7f =? 0x67 then LogG01Unlocked
           else LogG01KeyRejected [x7f; x27; x35]))).
Proof.
  apply (unlock_result enet_session
           (peer_answering_all
              [[x50; x03]; [x67; x07; xaa; xbb; xcc; xdd]; [x7f; x27; x35]])
           0x12 4 [x50; x03] [] [x27; x35] x07 xaa xbb xcc xdd x7f []);
    try reflexivity.
  - right. reflexivity.
  - simpl. lia.
  - simpl. lia.
Defined.

(* ------------------------------------------------------------------ *)
(** ** G01ECUManager: reading and writing parameters *)

Lemma pack_H_ok (did : Z) :
  0 <= did < 65536 ->
  Struct.pack [Struct.H] [did] = Ok (Struct.be_bytes 2 did).
Proof.
  intros H. apply pack1_ok.
  change (2 ^ (8 * Z.of_nat (Struct.size Struct.H))) with 65536. exact H.
Qed.

Lemma pack_H_out_of_range (did : Z) :
  ~ (0 <= did < 65536) -> Struct.pack [Struct.H] [did] = Raise StructError.
Proof.
  intros H. cbn [Struct.pack].
  destruct (Struct.in_range Struct.H did) eqn:E; [|reflexivity].
  apply in_range_spec in E.
  change (2 ^ (8 * Z.of_nat (Struct.size Struct.H))) with 65536 in E.
  contradiction.
Qed.

(** X22: what [G01ECUManager.read_parameter] returns on a connected
    session.  The request on the wire is 0x22 and the identifier, nothing
    else: the ECU address passed to the method is not used.  The result is
    the response from offset 3 on when the response starts with 0x62, and
    [None] otherwise; an empty response is caught as an error and gives
    [None] too. *)
Theorem g01_read_parameter_result
    (self : ENETConnection.t) (a : annex) (w : world) (ecu_address did : Z)
    (response : bytes) (rest : list (option bytes)) :
  ENETConnection.connected self = true ->
  ENETConnection.socket self = Some TcpSocket ->
  0 <= did < 65536 ->
  hd false (send_raises w) = false ->
  recv_yields w = Some response :: rest ->
  (List.length response <= 4096)%nat ->
  G01ECUManager.read_parameter ecu_address did ((self, a), w) =
    match response with
    | b0 :: _ =>
        (Ok (if Z_of_byte b0 =? 0x62 then Some (skipn 3 response) else None),
         ((self, a), exchanged w (x22 :: Struct.be_bytes 2 did) 4096))
    | [] =>
        (Ok None,
         ((self,
           mkAnnex (lines a ++ [LineReadParameterFailed IndexError])
                   (closes a)),
          exchanged w (x22 :: Struct.be_bytes 2 did) 4096))
    end.
Proof.
  intros Hc Hs Hdid Hsend Hrecv Hlen.
  unfold G01ECUManager.read_parameter, try_except.
  rewrite (pack_H_ok _ Hdid).
  unfold bind at 1. unfold lift at 1. cbv beta iota.
  unfold bind at 1. rewrite on_self_eq.
  rewrite (send_uds_request_exchange self w 0x22 _ response rest Hc Hs
             ltac:(lia) Hsend Hrecv).
  rewrite firstn_all2 by exact Hlen. cbn [fst snd].
  destruct response as [|b0 r]; [reflexivity|].
  unfold bind, lift, index. cbn [nth_error].
  destruct (Z_of_byte b0 =? 0x62); reflexivity.
Qed.

Lemma g01_read_parameter_result_witness :
  G01ECUManager.read_parameter 0x12 0xF190
    ((enet_session, mkAnnex [] 0),
     peer_answering [x62; xf1; x90; x41; x42]) =
    (Ok (if Z_of_byte x62 =? 0x62
         then Some (skipn 3 [x62; xf1; x90; x41; x42]) else None),
     ((enet_session, mkAnnex [] 0),
      exchanged (peer_answering [x62; xf1; x90; x41; x42])
                (x22 :: Struct.be_bytes 2 0xF190) 4096)).
Proof.
  apply (g01_read_parameter_result enet_session (mkAnnex [] 0)
           (peer_answering [x62; xf1; x90; x41; x42]) 0x12 0xF190
           [x62; xf1; x90; x41; x42] []);
    try reflexivity; simpl; lia.
Defined.

Lemma write_parameter_exchange
    (self : ENETConnection.t) (a : annex) (w : world) (ecu_address did : Z)
    (value response : bytes) (rest : list (option bytes)) :
  ENETConnection.connected self = true ->
  ENETConnection.socket self = Some TcpSocket ->
  0 <= did < 65536 ->
  hd false (send_raises w) = false ->
  recv_yields w = Some response :: rest ->
  (List.length response <= 4096)%nat ->
  G01ECUManager.write_parameter ecu_address did value ((self, a), w) =
    match response with
    | b0 :: _ =>
        (Ok (Z_of_byte b0 =? 0x6E),
         ((self, a),
          exchanged w ((x2e :: Struct.be_bytes 2 did) ++ value) 4096))
    | [] =>
        (Ok false,
         ((self,
           mkAnnex (lines a ++ [LineWriteParameterFailed IndexError])
                   (closes a)),
          exchanged w ((x2e :: Struct.be_bytes 2 did) ++ value) 4096))
    end.
Proof.
  intros Hc Hs Hdid Hsend Hrecv Hlen.
  unfold G01ECUManager.write_parameter, try_except.
  rewrite (pack_H_ok _ Hdid).
  unfold bind at 1. unfold lift at 1. cbv beta iota.
  unfold bind at 1. rewrite on_self_eq.
  rewrite (send_uds_request_exchange self w 0x2E _ response rest Hc Hs
             ltac:(lia) Hsend Hrecv).
  rewrite firstn_all2 by exact Hlen. cbn [fst snd].
  destruct response as [|b0 r]; reflexivity.
Qed.

(** X23: what [G01ECUManager.write_parameter] does on a connected
    session: it sends 0x2E, the identifier and the value, and returns
    [True] exactly when the response starts with 0x6E; an empty response
    is caught as an error and gives [False].  The ECU address is not
    used. *)
Theorem g01_write_parameter_result
    (self : ENETConnection.t) (a : annex) (w : world) (ecu_address did : Z)
    (value response : bytes) (rest : list (option bytes)) :
  ENETConnection.connected self = true ->
  ENETConnection.socket self = Some TcpSocket ->
  0 <= did < 65536 ->
  hd false (send_raises w) = false ->
  recv_yields w = Some response :: rest ->
  (List.length response <= 4096)%nat ->
  G01ECUManager.write_parameter ecu_address did value ((self, a), w) =
    match response with
    | b0 :: _ =>
        (Ok (Z_of_byte b0 =? 0x6E),
         ((self, a),
          exchanged w ((x2e :: Struct.be_bytes 2 did) ++ value) 4096))
    | [] =>
        (Ok false,
         ((self,
           mkAnnex (lines a ++ [LineWriteParameterFailed IndexError])
                   (closes a)),
          exchanged w ((x2e :: Struct.be_bytes 2 did) ++ value) 4096))
    end.
Proof.
  exact (write_parameter_exchange self a w ecu_address did value response rest).
Qed.

Lemma g01_write_parameter_result_witness :
  G01ECUManager.write_parameter 0x12 0x3000 [x61]
    ((enet_session, mkAnnex [] 0), peer_answering [x6e; x30; x00]) =
    (Ok (Z_of_byte x6e =? 0x6E),
     ((enet_session, mkAnnex [] 0),
      exchanged (peer_answering [x6e; x30; x00])
                ((x2e :: Struct.be_bytes 2 0x3000) ++ [x61]) 4096)).
Proof.
  apply (g01_write_parameter_result enet_session (mkAnnex [] 0)
           (peer_answering [x6e; x30; x00]) 0x12 0x3000 [x61]
           [x6e; x30; x00] []);
    try reflexivity; simpl; lia.
Defined.

Lemma g01_read_parameter_fails
    (self : ENETConnection.t) (a : annex) (w : world) (ecu_address did : Z) :
  ENETConnection.connected self = false \/ ~ (0 <= did < 65536) ->
  exists e,
    G01ECUManager.read_parameter ecu_address did ((self, a), w) =
      (Ok None,
       ((self, mkAnnex (lines a ++ [LineReadParameterFailed e]) (closes a)),
        w)).
Proof.
  intros H. unfold G01ECUManager.read_parameter, try_except.
  destruct (Struct.pack [Struct.H] [did]) as [did_bytes|e] eqn:Ep.
  - destruct H as [Hc|Hr].
    + unfold bind at 1. unfold lift at 1. cbv beta iota.
      unfold bind at 1. rewrite on_self_eq.
      rewrite (send_uds_request_not_connected _ _ _ _ Hc).
      eexists. reflexivity.
    + rewrite (pack_H_out_of_range _ Hr) in Ep. discriminate Ep.
  - eexists. reflexivity.
Qed.

Lemma g01_write_parameter_fails
    (self : ENETConnection.t) (a : annex) (w : world) (ecu_address did : Z)
    (value : bytes) :
  ENETConnection.connected self = false \/ ~ (0 <= did < 65536) ->
  exists e,
    G01ECUManager.write_parameter ecu_address did value ((self, a), w) =
      (Ok false,
       ((self, mkAnnex (lines a ++ [LineWriteParameterFailed e]) (closes a)),
        w)).
Proof.
  intros H. unfold G01ECUManager.write_parameter, try_except.
  destruct (Struct.pack [Struct.H] [did]) as [did_bytes|e] eqn:Ep.
  - destruct H as [Hc|Hr].
    + unfold bind at 1. unfold lift at 1. cbv beta iota.
      unfold bind at 1. rewrite on_self_eq.
      rewrite (send_uds_request_not_connected _ _ _ _ Hc).
      eexists. reflexivity.
    + rewrite (pack_H_out_of_range _ Hr) in Ep. discriminate Ep.
  - eexists. reflexivity.
Qed.

(** X24: the manager's [read_parameter] and [write_parameter] swallow
    their failures.  When the session is not connected, or the identifier
    does not fit 16 bits, they return [None] and [False]; no exception
    reaches the caller and no socket call is made. *)
Theorem g01_parameter_failures
    (self : ENETConnection.t) (a : annex) (w : world) (ecu_address did : Z)
    (value : bytes) :
  ENETConnection.connected self = false \/ ~ (0 <= did < 65536) ->
  fst (G01ECUManager.read_parameter ecu_address did ((self, a), w))
    = Ok None /\
  snd (snd (G01ECUManager.read_parameter ecu_address did ((self, a), w)))
    = w /\
  fst (G01ECUManager.write_parameter ecu_address did value ((self, a), w))
    = Ok false /\
  snd (snd (G01ECUManager.write_parameter ecu_address did value
              ((self, a), w)))
    = w.
Proof.
  intros H.
  destruct (g01_read_parameter_fails self a w ecu_address did H) as [e1 E1].
  destruct (g01_write_parameter_fails self a w ecu_address did value H)
    as [e2 E2].
  rewrite E1, E2. cbn [fst snd]. auto.
Qed.

Lemma g01_parameter_failures_witness :
  fst (G01ECUManager.read_parameter 0x12 0x10000
         ((enet_session, mkAnnex [] 0), peer_answering [x62]))
    = Ok None /\
  snd (snd (G01ECUManager.read_parameter 0x12 0x10000
              ((enet_session, mkAnnex [] 0), peer_answering [x62])))
    = peer_answering [x62] /\
  fst (G01ECUManager.write_parameter 0x12 0x10000 [x61]
         ((enet_session, mkAnnex [] 0), peer_answering [x62]))
    = Ok false /\
  snd (snd (G01ECUManager.write_parameter 0x12 0x10000 [x61]
              ((enet_session, mkAnnex [] 0), peer_answering [x62])))
    = peer_answering [x62].
Proof.
  apply (g01_parameter_failures enet_session (mkAnnex [] 0)
           (peer_answering [x62]) 0x12 0x10000 [x61]).
  right. lia.
Defined.

(* ------------------------------------------------------------------ *)
(** ** G01ECUManager: applying a coding *)

Section ApplyCoding.

Import G01ECUManager.

Lemma table_params_writable (title : string) (mod_ : modification) :
  table_get title G01_CODING_PARAMS = Some mod_ ->
  parameters mod_ <> [] /\ Forall writable (parameters mod_).
Proof.
  unfold G01_CODING_PARAMS. cbn [table_get].
  repeat match goal with
  | |- context [if ?c then _ else _] => destruct c
  end;
  intros [= <-] || discriminate;
  (split; [discriminate|]);
  repeat constructor; cbn; try lia; eexists; reflexivity.
Qed.

Lemma write_parameter_never_raises
    (st : ENETConnection.t * annex * world) (ecu_address did : Z)
    (value : bytes) :
  exists b, fst (write_parameter ecu_address did value st) = Ok b.
Proof.
  unfold write_parameter. apply try_except_total.
  intros e st'. exists false. reflexivity.
Qed.

Lemma write_each_never_raises (ecu_addr : Z) (params : list coding_param) :
  Forall writable params ->
  forall st, exists b, fst (write_each ecu_addr params st) = Ok b.
Proof.
  induction 1 as [|param params [_ [value Hv]] _ IH]; intros st.
  - exists true. reflexivity.
  - cbn [write_each]. rewrite Hv.
    unfold bind at 1. unfold lift at 1. cbv beta iota.
    unfold bind at 1.
    destruct (write_parameter_never_raises st ecu_addr (address param) value)
      as [b Hb].
    destruct (write_parameter ecu_addr (address param) value st)
      as [r st']. cbn [fst] in Hb. subst r.
    destruct b; cbn [negb].
    + apply IH.
    + exists false. reflexivity.
Qed.

Lemma exchanges_wire (packets : list bytes) :
  forall w,
    wire (exchanges w packets) =
      wire w ++ flat_map (fun packet => [SockSend packet; SockRecv 4096])
                         packets.
Proof.
  induction packets as [|packet packets IH]; intros w.
  - cbn. rewrite app_nil_r. reflexivity.
  - unfold exchanges in *. cbn [fold_left flat_map]. rewrite IH.
    cbn [exchanged wire]. rewrite <- app_assoc. reflexivity.
Qed.

(** Every parameter is written, in order, as long as each write is
    answered with 0x6E. *)
Lemma write_each_ok (ecu_addr : Z) (params : list coding_param) :
  forall (self : ENETConnection.t) (a : annex) (w : world)
         (responses : list bytes) (rest : list (option bytes)),
    ENETConnection.connected self = true ->
    ENETConnection.socket self = Some TcpSocket ->
    send_raises w = [] ->
    Forall writable params ->
    recv_yields w = map Some responses ++ rest ->
    List.length responses = List.length params ->
    Forall (fun r => (List.length r <= 4096)%nat /\ exists t, r = x6e :: t)
           responses ->
    write_each ecu_addr params ((self, a), w) =
      (Ok true, ((self, a), exchanges w (map write_message params))).
Proof.
  induction params as [|param params IH];
    intros self a w responses rest Hc Hs Hsend Hw Hrecv Hlen Hresp.
  - reflexivity.
  - destruct responses as [|r responses]; [discriminate Hlen|].
    inversion Hw as [|? ? [Hdid [value Hv]] Hw']; subst.
    inversion Hresp as [|? ? [Hr [t ->]] Hresp']; subst.
    cbn [write_each]. rewrite Hv.
    unfold bind at 1. unfold lift at 1. cbv beta iota.
    unfold bind at 1.
    rewrite (write_parameter_exchange self a w ecu_addr (address param) value
               (x6e :: t) (map Some responses ++ rest) Hc Hs Hdid
               ltac:(rewrite Hsend; reflexivity) Hrecv Hr).
    change (Z_of_byte x6e =? 110) with true. cbn [negb].
    change (map write_message (param :: params))
      with (write_message param :: map write_message params).
    unfold exchanges. cbn [fold_left].
    replace (write_message param)
      with ((x2e :: Struct.be_bytes 2 (address param)) ++ value)
      by (unfold write_message; rewrite Hv; reflexivity).
    apply (IH self a _ responses rest Hc Hs);
      [cbn; rewrite Hsend; reflexivity | exact Hw'
       | cbn; rewrite Hrecv; reflexivity
       | cbn in Hlen; lia | exact Hresp'].
Qed.

(** The first write that is not answered with 0x6E ends the loop. *)
Lemma write_each_first_fails
    (ecu_addr : Z) (param : coding_param) (params : list coding_param)
    (self : ENETConnection.t) (a : annex) (w : world)
    (response : bytes) (rest : list (option bytes)) :
  ENETConnection.connected self = true ->
  ENETConnection.socket self = Some TcpSocket ->
  hd false (send_raises w) = false ->
  writable param ->
  recv_yields w = Some response :: rest ->
  (List.length response <= 4096)%nat ->
  hd_error response <> Some x6e ->
  exists a',
    write_each ecu_addr (param :: params) ((self, a), w) =
      (Ok false, ((self, a'), exchanged w (write_message param) 4096)).
Proof.
  intros Hc Hs Hsend [Hdid [value Hv]] Hrecv Hlen Hneg.
  cbn [write_each]. rewrite Hv.
  unfold bind at 1. unfold lift at 1. cbv beta iota.
  unfold bind at 1.
  rewrite (write_parameter_exchange self a w ecu_addr (address param) value
             response rest Hc Hs Hdid Hsend Hrecv Hlen).
  unfold write_message. rewrite Hv.
  destruct response as [|b0 r].
  - cbn [negb]. eexists. reflexivity.
  - assert (Hb : (Z_of_byte b0 =? 0x6E) = false).
    { apply Z.eqb_neq. intros E. apply Hneg. cbn. f_equal.
      apply Z_of_byte_inj. exact E. }
    rewrite Hb. cbn [negb]. eexists. reflexivity.
Qed.

End ApplyCoding.

Lemma after_unlock_world
    (w : world) (security_level : Z) (seed key : bytes) (m : log_msg)
    (y0 y1 y2 : option bytes) (rest : list (option bytes)) :
  send_raises w = [] ->
  recv_yields w = y0 :: y1 :: y2 :: rest ->
  send_raises (add_log (after_unlock w security_level seed key) m) = [] /\
  recv_yields (add_log (after_unlock w security_level seed key) m) = rest /\
  wire (add_log (after_unlock w security_level seed key) m) =
    wire w ++
      [SockSend [x10; x03]; SockRecv 4096;
       SockSend [x27; byte_of_Z (2 * security_level - 1)]; SockRecv 4096;
       SockSend (x27 :: byte_of_Z (2 * security_level) :: key);
       SockRecv 4096].
Proof.
  intros Hsend Hrecv. unfold after_unlock, add_log, exchanged.
  cbn [send_raises recv_yields wire log connect_raises].
  rewrite Hsend, Hrecv. cbn [tl]. rewrite <- !app_assoc.
  repeat split.
Qed.

(** X25: [apply_coding] never raises, whatever it is asked to apply; for
    a name that is not a key of [G01_CODING_PARAMS] it returns [False] at
    once, without unlocking and without a socket call. *)
Theorem apply_coding_unknown
    (title : string) (self : ENETConnection.t) (a : annex) (w : world) :
  (forall st, exists b, fst (G01ECUManager.apply_coding title st) = Ok b) /\
  (table_get title G01_CODING_PARAMS = None ->
   G01ECUManager.apply_coding title ((self, a), w) =
     (Ok false,
      ((self,
        mkAnnex (lines a ++ [LineUnknownModification title]) (closes a)),
       w))).
Proof.
  split.
  - intros st. unfold G01ECUManager.apply_coding.
    destruct (table_get title G01_CODING_PARAMS) as [mod_|] eqn:E.
    + unfold bind at 1.
      destruct st as [[s a0] w0]. rewrite on_self_eq.
      destruct (unlock_never_raises (s, w0) (ecu_addresses (ecu mod_)) 3)
        as [b Hb].
      destruct (G01ECUManager.unlock_ecu (ecu_addresses (ecu mod_)) 3 (s, w0))
        as [r st1]. cbn [fst snd] in *. subst r.
      destruct b; cbn [negb].
      * apply write_each_never_raises.
        exact (proj2 (table_params_writable _ _ E)).
      * exists false. reflexivity.
    + exists false. reflexivity.
  - intros E. unfold G01ECUManager.apply_coding. rewrite E. reflexivity.
Qed.

Lemma apply_coding_unknown_witness :
  G01ECUManager.apply_coding "LAUNCH_CONTROL"
    ((enet_session, mkAnnex [] 0), peer_answering []) =
    (Ok false,
     ((enet_session,
       mkAnnex ([] ++ [LineUnknownModification "LAUNCH_CONTROL"]) 0),
      peer_answering [])).
Proof.
  apply (proj2 (apply_coding_unknown "LAUNCH_CONTROL" enet_session
                  (mkAnnex [] 0) (peer_answering []))).
  reflexivity.
Defined.

(** X26: when the unlock fails, [apply_coding] returns [False] and leaves
    everything as the unlock attempt left it: no parameter is written. *)
Theorem apply_coding_locked
    (title : string) (mod_ : modification)
    (st : ENETConnection.t * annex * world) :
  table_get title G01_CODING_PARAMS = Some mod_ ->
  fst (G01ECUManager.unlock_ecu (ecu_addresses (ecu mod_)) 3
         (fst (fst st), snd st)) = Ok false ->
  G01ECUManager.apply_coding title st =
    (Ok false,
     ((fst (snd (G01ECUManager.unlock_ecu (ecu_addresses (ecu mod_)) 3
                   (fst (fst st), snd st))),
       snd (fst st)),
      snd (snd (G01ECUManager.unlock_ecu (ecu_addresses (ecu mod_)) 3
                  (fst (fst st), snd st))))).
Proof.
  intros E Hlocked. unfold G01ECUManager.apply_coding. rewrite E.
  unfold bind at 1. destruct st as [[s a] w]. rewrite on_self_eq.
  cbn [fst snd] in *. rewrite Hlocked. reflexivity.
Qed.

Lemma apply_coding_locked_witness :
  G01ECUManager.apply_coding "EXHAUST_FLAPS"
    ((enet_session, mkAnnex [] 0),
     peer_answering_all [[x50; x03]; [x7f; x27; x35]]) =
    (Ok false,
     ((enet_session, mkAnnex [] 0),
      mkWorld false [] []
        [SockSend [x10; x03]; SockRecv 4096;
         SockSend [x27; x05]; SockRecv 4096]
        [LogG01SeedFailed [x7f; x27; x35]])).
Proof.
  apply (apply_coding_locked "EXHAUST_FLAPS"
           (mkModification DME "0000000f"
              [mkCodingParam "KLAPPE_OFFEN" 0x5000 "normal"
                 (Options ["normal"%string; "dauerhaft"%string])])
           ((enet_session, mkAnnex [] 0),
            peer_answering_all [[x50; x03]; [x7f; x27; x35]])).
  - reflexivity.
  - reflexivity.
Defined.

(** X27: a coding goes through.  For every entry of
    [G01_CODING_PARAMS], when the unlock at level 3 succeeds and every
    write is answered with 0x6E, [apply_coding] returns [True]; after the
    three exchanges of the unlock, one write request per parameter has
    gone out, in the order of the table, each followed by one [recv]. *)
Theorem apply_coding_writes_all
    (title : string) (mod_ : modification)
    (self : ENETConnection.t) (a : annex) (w : world)
    (r0 tail kt : bytes) (sub s0 s1 s2 s3 : byte)
    (responses : list bytes) (rest : list (option bytes)) :
  table_get title G01_CODING_PARAMS = Some mod_ ->
  ENETConnection.connected self = true ->
  ENETConnection.socket self = Some TcpSocket ->
  send_raises w = [] ->
  recv_yields w =
    Some r0 :: Some (x67 :: sub :: s0 :: s1 :: s2 :: s3 :: tail)
      :: Some (x67 :: kt) :: map Some responses ++ rest ->
  (List.length tail + 6 <= 4096)%nat ->
  (List.length kt + 1 <= 4096)%nat ->
  List.length responses = List.length (parameters mod_) ->
  Forall (fun r => (List.length r <= 4096)%nat /\ exists t, r = x6e :: t)
         responses ->
  exists key,
    BMWSeedToKey.calculate_key_level3 [s0; s1; s2; s3] = Ok key /\
    fst (G01ECUManager.apply_coding title ((self, a), w)) = Ok true /\
    wire (snd (snd (G01ECUManager.apply_coding title ((self, a), w)))) =
      wire w ++
        [SockSend [x10; x03]; SockRecv 4096;
         SockSend [x27; x05]; SockRecv 4096;
         SockSend (x27 :: x06 :: key); SockRecv 4096] ++
        flat_map (fun param => [SockSend (write_message param); SockRecv 4096])
                 (parameters mod_).
Proof.
  intros E Hc Hs Hsend Hrecv Hlen Hklen Hn Hresp.
  destruct (unlock_outcome self w (ecu_addresses (ecu mod_)) 3 r0 tail kt
              sub s0 s1 s2 s3 x67 (map Some responses ++ rest)
              Hc Hs (or_introl eq_refl) Hsend Hrecv Hlen Hklen)
    as (key & Hkey & _ & Hu).
  exists key. split; [exact Hkey|].
  change (Z_of_byte x67 =? 103) with true in Hu. cbv iota in Hu.
  destruct (after_unlock_world w 3 [s0; s1; s2; s3] key LogG01Unlocked
              _ _ _ _ Hsend Hrecv) as (Hs3 & Hr3 & Hw3).
  assert (Heq : G01ECUManager.apply_coding title ((self, a), w) =
            (Ok true,
             ((self, a),
              exchanges
                (add_log (after_unlock w 3 [s0; s1; s2; s3] key)
                         LogG01Unlocked)
                (map write_message (parameters mod_))))).
  { unfold G01ECUManager.apply_coding. rewrite E.
    unfold bind at 1. rewrite on_self_eq, Hu. cbn [fst snd negb].
    apply (write_each_ok (ecu_addresses (ecu mod_)) (parameters mod_)
             self a _ responses rest Hc Hs Hs3
             (proj2 (table_params_writable _ _ E)) Hr3 Hn Hresp). }
  rewrite Heq. cbn [fst snd]. split; [reflexivity|].
  rewrite exchanges_wire, Hw3, flat_map_concat_map, map_map,
    <- flat_map_concat_map.
  rewrite <- app_assoc. reflexivity.
Qed.

Lemma apply_coding_writes_all_witness :
  exists key,
    BMWSeedToKey.calculate_key_level3 [x01; x02; x03; x04] = Ok key /\
    fst (G01ECUManager.apply_coding "SCR1_REMOTE_START"
           ((enet_session, mkAnnex [] 0),
            peer_granting_unlock [[x6e; x30; x00]; [x6e; x30; x01]]))
      = Ok true /\
    wire (snd (snd (G01ECUManager.apply_coding "SCR1_REMOTE_START"
           ((enet_session, mkAnnex [] 0),
            peer_granting_unlock [[x6e; x30; x00]; [x6e; x30; x01]])))) =
      wire (peer_granting_unlock [[x6e; x30; x00]; [x6e; x30; x01]]) ++
        [SockSend [x10; x03]; SockRecv 4096;
         SockSend [x27; x05]; SockRecv 4096;
         SockSend (x27 :: x06 :: key); SockRecv 4096] ++
        flat_map (fun param => [SockSend (write_message param); SockRecv 4096])
          (parameters scr1_remote_start).
Proof.
  apply (apply_coding_writes_all "SCR1_REMOTE_START" scr1_remote_start
           enet_session (mkAnnex [] 0)
           (peer_granting_unlock [[x6e; x30; x00]; [x6e; x30; x01]])
           [x50; x03] [] [x06]
           x05 x01 x02 x03 x04 [[x6e; x30; x00]; [x6e; x30; x01]] []);
    try reflexivity.
  - simpl. lia.
  - simpl. lia.
  - repeat constructor; try (simpl; lia); eexists; reflexivity.
Defined.

(** X28: a failed write stops the coding.  For every entry of
    [G01_CODING_PARAMS], when the unlock succeeds but the first write is
    not answered with 0x6E, [apply_coding] returns [False] and the wire
    ends with that first write: the parameters after it are not
    written. *)
Theorem apply_coding_stops_at_failed_write
    (title : string) (mod_ : modification)
    (self : ENETConnection.t) (a : annex) (w : world)
    (r0 tail kt response : bytes) (sub s0 s1 s2 s3 : byte)
    (rest : list (option bytes)) :
  table_get title G01_CODING_PARAMS = Some mod_ ->
  ENETConnection.connected self = true ->
  ENETConnection.socket self = Some TcpSocket ->
  send_raises w = [] ->
  recv_yields w =
    Some r0 :: Some (x67 :: sub :: s0 :: s1 :: s2 :: s3 :: tail)
      :: Some (x67 :: kt) :: Some response :: rest ->
  (List.length tail + 6 <= 4096)%nat ->
  (List.length kt + 1 <= 4096)%nat ->
  (List.length response <= 4096)%nat ->
  hd_error response <> Some x6e ->
  exists key param params,
    BMWSeedToKey.calculate_key_level3 [s0; s1; s2; s3] = Ok key /\
    parameters mod_ = param :: params /\
    fst (G01ECUManager.apply_coding title ((self, a), w)) = Ok false /\
    wire (snd (snd (G01ECUManager.apply_coding title ((self, a), w)))) =
      wire w ++
        [SockSend [x10; x03]; SockRecv 4096;
         SockSend [x27; x05]; SockRecv 4096;
         SockSend (x27 :: x06 :: key); SockRecv 4096;
         SockSend (write_message param); SockRecv 4096].
Proof.
  intros E Hc Hs Hsend Hrecv Hlen Hklen Hrlen Hneg.
  destruct (unlock_outcome self w (ecu_addresses (ecu mod_)) 3 r0 tail kt
              sub s0 s1 s2 s3 x67 (Some response :: rest)
              Hc Hs (or_introl eq_refl) Hsend Hrecv Hlen Hklen)
    as (key & Hkey & _ & Hu).
  change (Z_of_byte x67 =? 103) with true in Hu. cbv iota in Hu.
  destruct (after_unlock_world w 3 [s0; s1; s2; s3] key LogG01Unlocked
              _ _ _ _ Hsend Hrecv) as (Hs3 & Hr3 & Hw3).
  destruct (table_params_writable _ _ E) as [Hne Hwr].
  destruct (parameters mod_) as [|param params] eqn:Ep; [congruence|].
  inversion Hwr as [|? ? Hparam _]; subst.
  exists key, param, params.
  split; [exact Hkey|]. split; [reflexivity|].
  destruct (write_each_first_fails (ecu_addresses (ecu mod_)) param params
              self a _ response rest Hc Hs
              ltac:(rewrite Hs3; reflexivity) Hparam Hr3 Hrlen Hneg)
    as [a' Hwe].
  assert (Heq : G01ECUManager.apply_coding title ((self, a), w) =
            (Ok false,
             ((self, a'),
              exchanged
                (add_log (after_unlock w 3 [s0; s1; s2; s3] key)
                         LogG01Unlocked)
                (write_message param) 4096))).
  { unfold G01ECUManager.apply_coding. rewrite E.
    unfold bind at 1. rewrite on_self_eq, Hu. cbn [fst snd negb].
    rewrite Ep. exact Hwe. }
  rewrite Heq. cbn [fst snd]. split; [reflexivity|].
  cbn [exchanged wire]. rewrite Hw3, <- app_assoc. reflexivity.
Qed.

Lemma apply_coding_stops_at_failed_write_witness :
  exists key param params,
    BMWSeedToKey.calculate_key_level3 [x01; x02; x03; x04] = Ok key /\
    parameters scr1_remote_start = param :: params /\
    fst (G01ECUManager.apply_coding "SCR1_REMOTE_START"
           ((enet_session, mkAnnex [] 0),
            peer_granting_unlock [[x7f; x2e; x31]]))
      = Ok false /\
    wire (snd (snd (G01ECUManager.apply_coding "SCR1_REMOTE_START"
           ((enet_session, mkAnnex [] 0),
            peer_granting_unlock [[x7f; x2e; x31]])))) =
      wire (peer_granting_unlock [[x7f; x2e; x31]]) ++
        [SockSend [x10; x03]; SockRecv 4096;
         SockSend [x27; x05]; SockRecv 4096;
         SockSend (x27 :: x06 :: key); SockRecv 4096;
         SockSend (write_message param); SockRecv 4096].
Proof.
  apply (apply_coding_stops_at_failed_write "SCR1_REMOTE_START"
           scr1_remote_start enet_session (mkAnnex [] 0)
           (peer_granting_unlock [[x7f; x2e; x31]]) [x50; x03] [] [x06]
           [x7f; x2e; x31] x05 x01 x02 x03 x04 []);
    try reflexivity.
  - simpl. lia.
  - simpl. lia.
  - simpl. lia.
  - discriminate.
Defined.

(* ------------------------------------------------------------------ *)
(** ** ENETConnection: reading the VIN *)

(** X29: what [ENETConnection.read_vin] does on a connected session.  The
    request it sends is 0x22 followed by the eight ASCII characters
    backslash, x, F, 1, backslash, x, 9, 0 (the literal is written with
    doubled backslashes), not 0x22 0xF1 0x90.  The response code is not
    looked at: the result is bytes 3 to 19 of whatever comes back, decoded
    as ASCII, and the fixed string "DEMO_VIN_123456789" when one of these
    bytes is above 0x7F. *)
Theorem enet_read_vin_result
    (self : ENETConnection.t) (a : annex) (w : world)
    (response : bytes) (rest : list (option bytes)) :
  ENETConnection.connected self = true ->
  ENETConnection.socket self = Some TcpSocket ->
  hd false (send_raises w) = false ->
  recv_yields w = Some response :: rest ->
  (List.length response <= 4096)%nat ->
  ENETConnection.read_vin ((self, a), w) =
    match Text.decode_ascii (slice 3 20 response) with
    | Ok vin =>
        (Ok vin,
         ((self, a),
          exchanged w [x22; x5c; x78; x46; x31; x5c; x78; x39; x30] 4096))
    | Raise e =>
        (Ok (str_of "DEMO_VIN_123456789"),
         ((self, mkAnnex (lines a ++ [LineENETVinFailed e]) (closes a)),
          exchanged w [x22; x5c; x78; x46; x31; x5c; x78; x39; x30] 4096))
    end.
Proof.
  intros Hc Hs Hsend Hrecv Hlen.
  unfold ENETConnection.read_vin, try_except.
  unfold bind at 1. rewrite on_self_eq.
  rewrite (send_uds_request_exchange self w 0x22 _ response rest Hc Hs
             ltac:(lia) Hsend Hrecv).
  rewrite firstn_all2 by exact Hlen. cbn [fst snd].
  unfold bind, lift.
  destruct (Text.decode_ascii (slice 3 20 response)); reflexivity.
Qed.

Lemma enet_read_vin_result_witness :
  ENETConnection.read_vin
    ((enet_session, mkAnnex [] 0), peer_answering [x7f; x22; x31]) =
    match Text.decode_ascii (slice 3 20 [x7f; x22; x31]) with
    | Ok vin =>
        (Ok vin,
         ((enet_session, mkAnnex [] 0),
          exchanged (peer_answering [x7f; x22; x31])
            [x22; x5c; x78; x46; x31; x5c; x78; x39; x30] 4096))
    | Raise e =>
        (Ok (str_of "DEMO_VIN_123456789"),
         ((enet_session, mkAnnex ([] ++ [LineENETVinFailed e]) 0),
          exchanged (peer_answering [x7f; x22; x31])
            [x22; x5c; x78; x46; x31; x5c; x78; x39; x30] 4096))
    end.
Proof.
  apply (enet_read_vin_result enet_session (mkAnnex [] 0)
           (peer_answering [x7f; x22; x31]) [x7f; x22; x31] []);
    try reflexivity.
  simpl. lia.
Defined.

(** X30: [ENETConnection.read_vin] never raises, and never reports a
    failure to its caller: on a session that is not connected it returns
    the string "DEMO_VIN_123456789" without any socket call. *)
Theorem enet_read_vin_fallback
    (self : ENETConnection.t) (a : annex) (w : world) :
  (forall st, exists vin, fst (ENETConnection.read_vin st) = Ok vin) /\
  (ENETConnection.connected self = false ->
   ENETConnection.read_vin ((self, a), w) =
     (Ok (str_of "DEMO_VIN_123456789"),
      ((self,
        mkAnnex (lines a ++ [LineENETVinFailed PlainException]) (closes a)),
       w))).
Proof.
  split.
  - intros st. unfold ENETConnection.read_vin. apply try_except_total.
    intros e st'. eexists. reflexivity.
  - intros Hc. unfold ENETConnection.read_vin, try_except.
    unfold bind at 1. rewrite on_self_eq.
    rewrite (send_uds_request_not_connected _ _ _ _ Hc). reflexivity.
Qed.

Lemma enet_read_vin_fallback_witness :
  ENETConnection.read_vin
    ((ENETConnection.mk None false, mkAnnex [] 0), peer_answering []) =
    (Ok (str_of "DEMO_VIN_123456789"),
     ((ENETConnection.mk None false,
       mkAnnex ([] ++ [LineENETVinFailed PlainException]) 0),
      peer_answering [])).
Proof.
  apply (proj2 (enet_read_vin_fallback (ENETConnection.mk None false)
                  (mkAnnex [] 0) (peer_answering []))).
  reflexivity.
Defined.

(* ------------------------------------------------------------------ *)
(** ** CAFDParser: looking up a key *)

Section LastBlockWins.

Import CAFDParser.

Lemma hex_digit_upper_inj (d d' : Z) :
  0 <= d < 16 -> 0 <= d' < 16 ->
  Py.hex_digit true d = Py.hex_digit true d' -> d = d'.
Proof.
  unfold Py.hex_digit. intros Hd Hd'.
  destruct (Z.ltb_spec d 10), (Z.ltb_spec d' 10); lia.
Qed.

Lemma format_04X_inj (v v' : Z) :
  0 <= v < 65536 -> 0 <= v' < 65536 ->
  Py.format_04X v = Py.format_04X v' -> v = v'.
Proof.
  intros Hv Hv'. unfold Py.format_04X. cbn [map].
  intros [= H3 H2 H1 H0].
  apply hex_digit_upper_inj in H3, H2, H1, H0;
    try (apply Z.mod_pos_bound; lia).
  Z.div_mod_to_equations. lia.
Qed.

Lemma entry_key_inj (r r' : Z * bytes) :
  0 <= fst r < 65536 -> 0 <= fst r' < 65536 ->
  fst (entry_of r') = fst (entry_of r) -> fst r' = fst r.
Proof.
  intros Hr Hr' H. unfold entry_of in H. cbn [fst] in H.
  apply app_inv_head in H.
  exact (format_04X_inj _ _ Hr' Hr H).
Qed.

Lemma pystr_eqb_refl (k : pystr) : pystr_eqb k k = true.
Proof.
  unfold pystr_eqb. destruct (list_eq_dec Z.eq_dec k k); congruence.
Qed.

Lemma pystr_eqb_neq (k k' : pystr) : k' <> k -> pystr_eqb k' k = false.
Proof.
  intros H. unfold pystr_eqb. destruct (list_eq_dec Z.eq_dec k' k); congruence.
Qed.

Lemma dict_get_set_same (k : pystr) (v : param) (d : dict) :
  dict_get k (dict_set k v d) = Some v.
Proof.
  induction d as [|[k0 v0] d IH]; cbn [dict_set dict_get].
  - rewrite pystr_eqb_refl. reflexivity.
  - destruct (pystr_eqb k0 k) eqn:E; cbn [dict_get]; rewrite E;
      [reflexivity | exact IH].
Qed.

Lemma dict_get_set_other (k k' : pystr) (v : param) (d : dict) :
  k' <> k -> dict_get k (dict_set k' v d) = dict_get k d.
Proof.
  intros Hne. induction d as [|[k0 v0] d IH]; cbn [dict_set dict_get].
  - rewrite (pystr_eqb_neq _ _ Hne). reflexivity.
  - destruct (pystr_eqb k0 k') eqn:E; cbn [dict_get].
    + apply pystr_eqb_eq in E. subst k0.
      rewrite (pystr_eqb_neq _ _ Hne). reflexivity.
    + destruct (pystr_eqb k0 k); [reflexivity | exact IH].
Qed.

Lemma later_blocks_keep (k : pystr) (v : param) (post : list (Z * bytes)) :
  forall d,
    dict_get k d = Some v ->
    Forall (fun r' => fst (entry_of r') <> k) post ->
    dict_get k (fold_left store post d) = Some v.
Proof.
  induction post as [|r' post IH]; intros d Hd Hpost; [exact Hd|].
  inversion Hpost as [|? ? Hr' Hpost']; subst.
  cbn [fold_left]. apply IH; [|exact Hpost'].
  unfold store. rewrite dict_get_set_other by exact Hr'. exact Hd.
Qed.

Lemma parse_of_blocks_fold (header : bytes) (rs : list (Z * bytes)) :
  List.length header = 32%nat ->
  Forall fits_block rs ->
  last_block_not_empty rs ->
  CAFDParser._parse_cafd_binary (header ++ blocks rs) = fold_left store rs [].
Proof.
  intros Hh Hfit Hlast. unfold CAFDParser._parse_cafd_binary.
  pose proof (loop_on_blocks rs (List.length (header ++ blocks rs))
                header [] [] Hfit) as H.
  rewrite app_nil_r, Hh in H. apply H.
  - left. cbn. lia.
  - intros Hne. destruct Hlast as [Hl|Hl]; [congruence | left; exact Hl].
  - rewrite !length_app. lia.
Qed.

End LastBlockWins.


